(** * SmartEnergyMeter: the two data-fetch modules, embedded and verified

    [src/get_api_data.py] (the Tibber GraphQL client) and
    [src/get_weather_api_data.py] (the Open-Meteo client) are embedded as
    pure functions over an explicit environment: the process configuration
    and a function that answers HTTP requests.  Every function returns its
    Python result (or the exception it raises) together with the list of
    requests it sent.  Output on stdout is not modelled. *)

From Stdlib Require Import ZArith QArith List String Ascii Bool Lia.
From Stdlib Require Import Sorting.Sorted Sorting.Permutation Lqa.
Import ListNotations.
Open Scope string_scope.
Open Scope Z_scope.
Open Scope list_scope.
Set Warnings "-register-all".

(** ** Python values decoded from JSON *)

(** What [response.json()] yields.  [JNull] is Python's [None]; a dict keeps
    its insertion order and is read by its first binding of a key. *)
Inductive json : Type :=
| JNull
| JBool (b : bool)
| JNum (q : Q)
| JStr (s : string)
| JArr (items : list json)
| JObj (fields : list (string * json)).

Definition None_ : json := JNull.

(** The exceptions the two modules can raise. *)
Inductive exn : Type :=
| ValueError (msg : string)
| KeyError (key : string)
| IndexError
| TypeError
| AttributeError
| DateParseError.

(** Result of running Python code: a value, an exception, or [OutOfModel]
    when the input leaves the fragment of pandas that is modelled here
    (a frame built from records that are not all objects, and the like). *)
Inductive outcome (A : Type) : Type :=
| Ret (a : A)
| Raise (e : exn)
| OutOfModel.
Arguments Ret {A} a.
Arguments Raise {A} e.
Arguments OutOfModel {A}.

Definition bind {A B} (m : outcome A) (f : A -> outcome B) : outcome B :=
  match m with
  | Ret a => f a
  | Raise e => Raise e
  | OutOfModel => OutOfModel
  end.

Notation "x <- m ;; k" := (bind m (fun x => k))
  (at level 61, m at next level, right associativity).
Notation "' p <- m ;; k" := (bind m (fun x => let p := x in k))
  (at level 61, p pattern, m at next level, right associativity).

(** Python's short-circuit [a and b] on conditions that may raise. *)
Definition and_then (a b : outcome bool) : outcome bool :=
  b1 <- a ;; if b1 then b else Ret false.
Infix "&&&" := and_then (at level 40, left associativity).

Fixpoint mapM {A B} (f : A -> outcome B) (l : list A) : outcome (list B) :=
  match l with
  | [] => Ret []
  | a :: l' => b <- f a ;; bs <- mapM f l' ;; Ret (b :: bs)
  end.

Module Py.

Fixpoint lookup {V} (key : string) (fields : list (string * V)) : option V :=
  match fields with
  | [] => None
  | (k, v) :: rest => if String.eqb key k then Some v else lookup key rest
  end.

Definition has_key {V} (key : string) (fields : list (string * V)) : bool :=
  match lookup key fields with Some _ => true | None => false end.

Definition is_substring (needle hay : string) : bool :=
  match String.index 0 needle hay with Some _ => true | None => false end.

Fixpoint chars (s : string) : list json :=
  match s with
  | EmptyString => []
  | String c rest => JStr (String c EmptyString) :: chars rest
  end.

(** [bool(x)] *)
Definition truthy (x : json) : bool :=
  match x with
  | JNull => false
  | JBool b => b
  | JNum q => negb (Qeq_bool q 0)
  | JStr s => negb (String.eqb s "")
  | JArr items => match items with [] => false | _ => true end
  | JObj fields => match fields with [] => false | _ => true end
  end.

(** [key in x] for a string [key] *)
Definition contains (key : string) (x : json) : outcome bool :=
  match x with
  | JObj fields => Ret (has_key key fields)
  | JArr items =>
      Ret (existsb (fun v => match v with JStr s => String.eqb key s | _ => false end) items)
  | JStr s => Ret (is_substring key s)
  | JNull | JBool _ | JNum _ => Raise TypeError
  end.

(** [x[key]] for a string [key] *)
Definition getitem (x : json) (key : string) : outcome json :=
  match x with
  | JObj fields =>
      match lookup key fields with
      | Some v => Ret v
      | None => Raise (KeyError key)
      end
  | _ => Raise TypeError
  end.

(** [x[k1][k2]...] *)
Fixpoint subscript (x : json) (keys : list string) : outcome json :=
  match keys with
  | [] => Ret x
  | k :: ks => v <- getitem x k ;; subscript v ks
  end.

(** [x[0]] *)
Definition getitem0 (x : json) : outcome json :=
  match x with
  | JArr (v :: _) => Ret v
  | JArr [] => Raise IndexError
  | JStr (String c _) => Ret (JStr (String c EmptyString))
  | JStr EmptyString => Raise IndexError
  | JObj _ => Raise (KeyError "0")
  | JNull | JBool _ | JNum _ => Raise TypeError
  end.

(** [x.get(key)] *)
Definition get (x : json) (key : string) : outcome json :=
  match x with
  | JObj fields =>
      match lookup key fields with
      | Some v => Ret v
      | None => Ret None_
      end
  | _ => Raise AttributeError
  end.

(** [l.extend(x)]: the elements [x] iterates over are appended. *)
Definition extend (l : list json) (x : json) : outcome (list json) :=
  match x with
  | JArr items => Ret (l ++ items)
  | JObj fields => Ret (l ++ map (fun kv => JStr (fst kv)) fields)
  | JStr s => Ret (l ++ chars s)
  | JNull | JBool _ | JNum _ => Raise TypeError
  end.

End Py.

(** ** The fragment of pandas the two modules use *)

Module Pandas.

(** A cell holds the Python object it was built from, a missing value
    ([NaN]), or, once [to_datetime] ran over its column, an instant
    (seconds are not fixed here: any integer time line) or [NaT]. *)
Inductive cell : Type :=
| Obj (v : json)
| NaN
| Timestamp (t : Z)
| NaT.

Definition row : Type := list (string * cell).

(** Rows are kept in positional order, so the default integer index of a
    frame is the position of the row. *)
Record DataFrame : Type := { columns : list string; rows : list row }.

(** [pd.DataFrame()] *)
Definition empty_frame : DataFrame := {| columns := []; rows := [] |}.

(** [df.empty]: some axis has length 0. *)
Definition empty (df : DataFrame) : bool :=
  match columns df, rows df with
  | [], _ => true
  | _, [] => true
  | _, _ => false
  end.

(** [len(df)] *)
Definition len (df : DataFrame) : nat := List.length (rows df).

(** The cell of a row under a column label; a key the record did not
    carry reads as [NaN]. *)
Definition at_ (name : string) (r : row) : cell :=
  match Py.lookup name r with Some c => c | None => NaN end.

Fixpoint as_records (l : list json) : option (list (list (string * json))) :=
  match l with
  | [] => Some []
  | JObj fields :: rest => option_map (cons fields) (as_records rest)
  | _ :: _ => None
  end.

Definition add_label (acc : list string) (k : string) : list string :=
  if existsb (String.eqb k) acc then acc else acc ++ [k].

(** [pd.DataFrame(list_of_dicts)]: one row per dict, the columns are the
    keys in order of first appearance. *)
Definition DataFrame_of_records (l : list json) : outcome DataFrame :=
  match as_records l with
  | Some recs =>
      Ret {| columns := fold_left (fun acc r => fold_left add_label (map fst r) acc) recs [];
             rows := map (map (fun kv => (fst kv, Obj (snd kv)))) recs |}
  | None => OutOfModel
  end.

Fixpoint as_columns (fields : list (string * json)) : option (list (string * list json)) :=
  match fields with
  | [] => Some []
  | (k, JArr items) :: rest => option_map (cons (k, items)) (as_columns rest)
  | _ :: _ => None
  end.

Fixpoint zip_columns (n : nat) (cols : list (string * list json)) : list row :=
  match cols with
  | [] => repeat [] n
  | (k, items) :: rest =>
      map (fun vr => (k, Obj (fst vr)) :: snd vr) (combine items (zip_columns n rest))
  end.

(** [pd.DataFrame(dict_of_lists)]: one column per key, one row per
    position; the lists must agree in length. *)
Definition DataFrame_of_columns (fields : list (string * json)) : outcome DataFrame :=
  match as_columns fields with
  | Some [] => Ret empty_frame
  | Some ((k, items) :: rest) =>
      let n := List.length items in
      if forallb (fun c => Nat.eqb (List.length (snd c)) n) rest
      then Ret {| columns := k :: map fst rest; rows := zip_columns n ((k, items) :: rest) |}
      else Raise (ValueError "All arrays must be of the same length")
  | None => OutOfModel
  end.

(** [pd.DataFrame(data)] *)
Definition DataFrame_ (data : json) : outcome DataFrame :=
  match data with
  | JArr items => DataFrame_of_records items
  | JObj fields => DataFrame_of_columns fields
  | _ => OutOfModel
  end.

(** [df[name]] *)
Definition column (name : string) (df : DataFrame) : outcome (list cell) :=
  if existsb (String.eqb name) (columns df)
  then Ret (map (at_ name) (rows df))
  else Raise (KeyError name).

Fixpoint set_item (name : string) (c : cell) (r : row) : row :=
  match r with
  | [] => [(name, c)]
  | (k, v) :: rest =>
      if String.eqb name k then (k, c) :: rest else (k, v) :: set_item name c rest
  end.

(** [df[name] = values], [values] aligned with the rows. *)
Definition set_column (name : string) (values : list cell) (df : DataFrame) : DataFrame :=
  {| columns := add_label (columns df) name;
     rows := map (fun rc => set_item name (snd rc) (fst rc)) (combine (rows df) values) |}.

(** What parsing one string as a date gives. *)
Inductive parsed : Type :=
| Unparseable
| Missing
| Instant (t : Z).

(** [pd.to_datetime] on one cell, over the string parser [strptime]. *)
Definition to_datetime1 (strptime : string -> parsed) (c : cell) : outcome cell :=
  match c with
  | Obj (JStr s) =>
      match strptime s with
      | Instant t => Ret (Timestamp t)
      | Missing => Ret NaT
      | Unparseable => Raise DateParseError
      end
  | Obj JNull | NaN | NaT => Ret NaT
  | Timestamp t => Ret (Timestamp t)
  | Obj (JBool _) => Raise TypeError
  | Obj (JNum _) | Obj (JArr _) | Obj (JObj _) => OutOfModel
  end.

(** [pd.to_datetime(series)] *)
Definition to_datetime (strptime : string -> parsed) (series : list cell)
  : outcome (list cell) :=
  mapM (to_datetime1 strptime) series.

Definition relabel (old new : string) (k : string) : string :=
  if String.eqb k old then new else k.

(** [df.rename(columns={old: new})]; a frame that already has a column
    [new] beside [old] would end with two columns of one label, which is
    not modelled. *)
Definition rename (old new : string) (df : DataFrame) : outcome DataFrame :=
  if existsb (String.eqb old) (columns df) && existsb (String.eqb new) (columns df)
  then OutOfModel
  else Ret {| columns := map (relabel old new) (columns df);
              rows := map (map (fun kc => (relabel old new (fst kc), snd kc))) (rows df) |}.

(** [df.iloc[0].to_frame().T]: the first row as a frame of one row. *)
Definition first_row_frame (df : DataFrame) : outcome DataFrame :=
  match rows df with
  | r :: _ => Ret {| columns := columns df; rows := [r] |}
  | [] => Raise IndexError
  end.

(** The instant a cell of a datetime column stands for; [None] is [NaT]. *)
Definition when_ (c : cell) : option Z :=
  match c with Timestamp t => Some t | _ => None end.

Definition stamp (name : string) (r : row) : option Z := when_ (at_ name r).

Definition stamp_eqb (a b : option Z) : bool :=
  match a, b with
  | Some x, Some y => x =? y
  | None, None => true
  | _, _ => false
  end.

(** Ascending order of a datetime column, [NaT] last. *)
Definition stamp_leb (a b : option Z) : bool :=
  match a, b with
  | Some x, Some y => x <=? y
  | _, None => true
  | None, Some _ => false
  end.

Fixpoint keep_first {A} (key : A -> option Z) (l : list A) : list A :=
  match l with
  | [] => []
  | x :: l' => x :: filter (fun y => negb (stamp_eqb (key y) (key x))) (keep_first key l')
  end.

(** [df.drop_duplicates(subset=name)] on a datetime column: of the rows
    that share an instant the first one stays. *)
Definition drop_duplicates (name : string) (df : DataFrame) : DataFrame :=
  {| columns := columns df; rows := keep_first (stamp name) (rows df) |}.

Fixpoint insert {A} (key : A -> option Z) (x : A) (l : list A) : list A :=
  match l with
  | [] => [x]
  | y :: l' => if stamp_leb (key x) (key y) then x :: y :: l' else y :: insert key x l'
  end.

Fixpoint sort_by {A} (key : A -> option Z) (l : list A) : list A :=
  match l with
  | [] => []
  | x :: l' => insert key x (sort_by key l')
  end.

(** [df.sort_values(name)] on a datetime column: ascending, [NaT] last.
    Rows with equal instants stay in their input order (numpy's default
    sort does not promise an order among them; nothing proved below
    depends on it). *)
Definition sort_values (name : string) (df : DataFrame) : DataFrame :=
  {| columns := columns df; rows := sort_by (stamp name) (rows df) |}.

(** Before [to_datetime] runs, no cell of a row is an instant. *)
Definition raw_row (r : row) : Prop := Forall (fun kc => when_ (snd kc) = None) r.

(** Instants in ascending order, [NaT] after every instant. *)
Definition ascending (l : list (option Z)) : Prop :=
  StronglySorted (fun a b => stamp_leb a b = true) l.


(** The rows of [df] are in ascending order of their cells under [name]. *)
Definition sorted_by (name : string) (df : DataFrame) : Prop :=
  ascending (map (stamp name) (rows df)).


(** The instant a date cell names under the string parser [strptime]: that
    of a string the parser reads, none for a missing value.  It is stated
    apart from [to_datetime1], to say what a parsed column must hold. *)
Definition instant_of (strptime : string -> parsed) (c : cell) : option Z :=
  match c with
  | Obj (JStr s) => match strptime s with Instant t => Some t | _ => None end
  | Timestamp t => Some t
  | _ => None
  end.

(** The instant a record names under the key [name]. *)
Definition instant_at (strptime : string -> parsed) (name : string)
           (record : list (string * json)) : option Z :=
  match Py.lookup name record with
  | Some v => instant_of strptime (Obj v)
  | None => None
  end.

(** A cell of a parsed datetime column: an instant or [NaT]. *)
Definition is_datetime (c : cell) : Prop := c = NaT \/ exists t, c = Timestamp t.

(** [df.reset_index(drop=True)]: the index is the position already. *)
Definition reset_index (df : DataFrame) : DataFrame := df.

(** A numeric cell as a float: [Some None] is NaN, [None] is not a number. *)
Definition as_float (c : cell) : option (option Q) :=
  match c with
  | Obj (JNum q) => Some (Some q)
  | Obj JNull | NaN => Some None
  | _ => None
  end.

(** A column pandas stores with a numeric dtype: numbers and missing
    values, at least one number. *)
Definition is_numeric (series : list cell) : bool :=
  forallb (fun c => match as_float c with Some _ => true | None => false end) series
  && existsb (fun c => match as_float c with Some (Some _) => true | _ => false end) series.

(** The sum of two cells of numeric columns, over the addition [fadd] of
    two finite numbers; a missing operand gives a missing sum. *)
Definition sum_of (fadd : Q -> Q -> Q) (a b : cell) : cell :=
  match as_float a, as_float b with
  | Some (Some x), Some (Some y) => Obj (JNum (fadd x y))
  | _, _ => NaN
  end.

(** [a + b] on two numeric columns. *)
Definition add_series (fadd : Q -> Q -> Q) (a b : list cell) : outcome (list cell) :=
  if is_numeric a && is_numeric b then
    Ret (map (fun xy => sum_of fadd (fst xy) (snd xy)) (combine a b))
  else OutOfModel.

End Pandas.

(** ** A date parser to run the modules on concrete responses

    The fetch functions are stated over any parser of date strings.  To
    evaluate them on concrete responses this one reads the ISO 8601 forms
    the two services send, [YYYY-MM-DDTHH:MM], with optional [:SS], optional
    fraction and optional [Z] or [+HH:MM] / [-HH:MM], to the second. *)

Module Iso8601.
Import Pandas.

Definition digit (c : ascii) : option Z :=
  let n := Z.of_nat (nat_of_ascii c) in
  if (48 <=? n) && (n <=? 57) then Some (n - 48) else None.

(** Reads exactly [k] digits. *)
Fixpoint number (k : nat) (acc : Z) (s : string) : option (Z * string) :=
  match k with
  | O => Some (acc, s)
  | S k' =>
      match s with
      | String c rest =>
          match digit c with
          | Some d => number k' (10 * acc + d) rest
          | None => None
          end
      | EmptyString => None
      end
  end.

Definition expect (c : ascii) (s : string) : option string :=
  match s with
  | String c' rest => if Ascii.eqb c c' then Some rest else None
  | EmptyString => None
  end.

Fixpoint skip_digits (s : string) : string :=
  match s with
  | String c rest => match digit c with Some _ => skip_digits rest | None => s end
  | EmptyString => s
  end.

(** Days from 1970-01-01 to the civil date [y]-[m]-[d]. *)
Definition days_from_civil (y m d : Z) : Z :=
  let y' := if m <=? 2 then y - 1 else y in
  let era := y' / 400 in
  let yoe := y' - era * 400 in
  let doy := (153 * (if m <=? 2 then m + 9 else m - 3) + 2) / 5 + d - 1 in
  let doe := yoe * 365 + yoe / 4 - yoe / 100 + doy in
  era * 146097 + doe - 719468.

(** Seconds east of UTC named by the rest of the string. *)
Definition utc_offset (s : string) : option Z :=
  match s with
  | EmptyString => Some 0
  | String c rest =>
      if Ascii.eqb c "Z" then (if String.eqb rest "" then Some 0 else None)
      else
        let sign := if Ascii.eqb c "+" then Some 1
                    else if Ascii.eqb c "-" then Some (-1) else None in
        match sign, number 2 0 rest with
        | Some sg, Some (hh, rest) =>
            match expect ":" rest with
            | Some rest =>
                match number 2 0 rest with
                | Some (mm, EmptyString) => Some (sg * (hh * 3600 + mm * 60))
                | _ => None
                end
            | None => None
            end
        | _, _ => None
        end
  end.

Definition seconds_and_zone (s : string) : option (Z * Z) :=
  match expect ":" s with
  | Some rest =>
      match number 2 0 rest with
      | Some (ss, rest) =>
          let rest := match expect "." rest with
                      | Some r => skip_digits r
                      | None => rest
                      end in
          option_map (fun off => (ss, off)) (utc_offset rest)
      | None => None
      end
  | None => option_map (fun off => (0, off)) (utc_offset s)
  end.

Definition instant (s : string) : option Z :=
  match number 4 0 s with
  | Some (y, s) =>
  match expect "-" s with
  | Some s =>
  match number 2 0 s with
  | Some (m, s) =>
  match expect "-" s with
  | Some s =>
  match number 2 0 s with
  | Some (d, s) =>
  match expect "T" s with
  | Some s =>
  match number 2 0 s with
  | Some (hh, s) =>
  match expect ":" s with
  | Some s =>
  match number 2 0 s with
  | Some (mm, s) =>
  match seconds_and_zone s with
  | Some (ss, off) =>
      Some (days_from_civil y m d * 86400 + hh * 3600 + mm * 60 + ss - off)
  | None => None end
  | None => None end
  | None => None end
  | None => None end
  | None => None end
  | None => None end
  | None => None end
  | None => None end
  | None => None end
  | None => None end.

Definition strptime (s : string) : parsed :=
  if String.eqb s "" then Missing
  else match instant s with
       | Some t => Instant t
       | None => Unparseable
       end.

End Iso8601.

(** ** [src/get_api_data.py] *)

Module Energy.
Import Py Pandas.

(** The POST that [requests.post(TIBBER_API_URL, headers=headers, json=payload)] sends. *)
Record request : Type :=
  { url : option string; headers : list (string * string); payload : json }.

(** How the request ends: a body decoded by [response.json()], an error
    status on which [raise_for_status] raises [HTTPError], or any other
    [requests.exceptions.RequestException] (no connection, timeout,
    invalid URL, undecodable body). *)
Inductive response : Type :=
| Ok (body : json)
| HTTPError (status_code : Z) (text : string)
| RequestException.

(** Process configuration read at import time, and the network. *)
Record env : Type :=
  { TIBER_TOKEN : option string;
    TIBBER_API_URL : option string;
    post : request -> response }.

Definition token_not_set : exn :=
  ValueError "TIBBER_TOKEN environment variable not set.".

(** The outcome is not the configuration error of line 19. *)
Definition configured {A} (o : outcome A) : Prop := o <> Raise token_not_set.

Definition _make_graphql_request (e : env) (query : string) (variables : json)
  : outcome json * list request :=
  match TIBER_TOKEN e with
  | None => (Raise token_not_set, [])
  | Some token =>
      let headers := [("Authorization", ("Bearer " ++ token)%string);
                      ("Content-Type", "application/json")] in
      let payload := JObj [("query", JStr query); ("variables", variables)] in
      let sent := {| url := TIBBER_API_URL e; headers := headers; payload := payload |} in
      (match post e sent with
       | Ok body => Ret body
       | HTTPError _ _ => Ret None_
       | RequestException => Ret None_
       end, [sent])
  end.

Definition home_query : string := "
    {
      viewer {
        homes {
          id
          address {
            address1
            postalCode
            city
            country
          }
        }
      }
    }
    ".

Definition prices_query : string := "
    query ($homeId: ID!) {
      viewer {
        home(id: $homeId) {
          currentSubscription {
            priceInfo {
              current {
                total
                startsAt
                level
              }
              today {
                total
                startsAt
                level
              }
              tomorrow {
                total
                startsAt
                level
              }
            }
          }
        }
      }
    }
    ".

Definition consumption_query : string := "
    query ($homeId: ID!, $last: Int!) {
      viewer {
        home(id: $homeId) {
          consumption(resolution: HOURLY, last: $last) {
            nodes {
              from
              to
              consumption # kWh consumed
              unitPrice   # Price ex. VAT
              unitPriceVAT # VAT component
              totalCost   # consumption * unitPriceVAT (including VAT)
              currency
            }
          }
        }
      }
    }
    ".

Definition live_query : string := "
    subscription ($homeId: ID!) {
      liveMeasurement(homeId: $homeId) {
        timestamp
        power             # Current power consumption in Watts (W)
        accumulatedConsumption # Accumulated consumption since midnight in kWh
        accumulatedCost   # Accumulated cost since midnight
        currency
        minPower
        averagePower
        maxPower
        powerProduction   # Net power production in Watts (W) if you have solar/etc.
      }
    }
    ".

(** What [get_home_id] returns: [None], or the 2-tuple of line 63. *)
Inductive home_result : Type :=
| ReturnsNone
| ReturnsPair (id address1 : json).

Definition get_home_id (e : env) : outcome home_result * list request :=
  let r := _make_graphql_request e home_query None_ in
  (data <- fst r ;;
   found <- Ret (truthy data)
            &&& contains "data" data
            &&& (d <- subscript data ["data"] ;; contains "viewer" d)
            &&& (v <- subscript data ["data"; "viewer"] ;; contains "homes" v) ;;
   if found then
     homes <- subscript data ["data"; "viewer"; "homes"] ;;
     if truthy homes then
       (* the arguments of the message printed on line 62 *)
       h <- getitem0 homes ;; _ <- subscript h ["address"; "address1"] ;;
       h <- getitem0 homes ;; _ <- subscript h ["address"; "city"] ;;
       h <- getitem0 homes ;; _ <- subscript h ["id"] ;;
       h <- getitem0 homes ;; id <- subscript h ["id"] ;;
       h <- getitem0 homes ;; address1 <- subscript h ["address"; "address1"] ;;
       Ret (ReturnsPair id address1)
     else Ret ReturnsNone
   else Ret ReturnsNone,
   snd r).

Definition get_live_measurement (e : env) (home_id : json) : outcome json * list request :=
  let variables := JObj [("homeId", home_id)] in
  _make_graphql_request e live_query variables.

Section Fetch.

(** pandas' parser of one date string, and the sum of two finite
    numbers as pandas computes it. *)
Variable strptime : string -> parsed.
Variable fadd : Q -> Q -> Q.

(** The condition of lines 103 and 155. *)
Definition home_present (data : json) : outcome bool :=
  Ret (truthy data)
  &&& contains "data" data
  &&& (d <- subscript data ["data"] ;; contains "viewer" d)
  &&& (h <- subscript data ["data"; "viewer"; "home"] ;; contains "home" h).

Definition get_current_and_upcoming_prices (e : env) (home_id : json)
  : outcome DataFrame * list request :=
  let variables := JObj [("homeId", home_id)] in
  let r := _make_graphql_request e prices_query variables in
  (data <- fst r ;;
   let prices : list json := [] in
   present <- home_present data ;;
   prices <- (if present then
                price_info <- subscript data ["data"; "viewer"; "home";
                                              "currentSubscription"; "priceInfo"] ;;
                current <- get price_info "current" ;;
                prices <- (if truthy current
                           then c <- getitem price_info "current" ;; Ret (prices ++ [c])
                           else Ret prices) ;;
                today <- get price_info "today" ;;
                prices <- (if truthy today
                           then t <- getitem price_info "today" ;; extend prices t
                           else Ret prices) ;;
                tomorrow <- get price_info "tomorrow" ;;
                (if truthy tomorrow
                 then t <- getitem price_info "tomorrow" ;; extend prices t
                 else Ret prices)
              else Ret prices) ;;
   df <- DataFrame_ (JArr prices) ;;
   if negb (empty df) then
     startsAt <- column "startsAt" df ;;
     startsAt <- to_datetime strptime startsAt ;;
     let df := set_column "startsAt" startsAt df in
     Ret (reset_index (sort_values "startsAt" (drop_duplicates "startsAt" df)))
   else Ret df,
   snd r).

Definition get_historical_consumption (e : env) (home_id : json) (num_hours : Z)
  : outcome DataFrame * list request :=
  let variables := JObj [("homeId", home_id); ("last", JNum (inject_Z num_hours))] in
  let r := _make_graphql_request e consumption_query variables in
  (data <- fst r ;;
   let consumption_data : json := JArr [] in
   present <- home_present data ;;
   consumption_data <-
     (if present then
        has_nodes <- (h <- subscript data ["data"; "viewer"; "home"] ;;
                      c <- get h "consumption" ;; Ret (truthy c))
                     &&& (c <- subscript data ["data"; "viewer"; "home"; "consumption"] ;;
                          n <- get c "nodes" ;; Ret (truthy n)) ;;
        if has_nodes
        then subscript data ["data"; "viewer"; "home"; "consumption"; "nodes"]
        else Ret consumption_data
      else Ret consumption_data) ;;
   df <- DataFrame_ consumption_data ;;
   if negb (empty df) then
     from <- column "from" df ;;
     from <- to_datetime strptime from ;;
     let df := set_column "from" from df in
     to <- column "to" df ;;
     to <- to_datetime strptime to ;;
     let df := set_column "to" to df in
     unitPrice <- column "unitPrice" df ;;
     unitPriceVAT <- column "unitPriceVAT" df ;;
     totalPrice <- add_series fadd unitPrice unitPriceVAT ;;
     let df := set_column "totalPrice" totalPrice df in
     Ret (reset_index (sort_values "from" df))
   else Ret df,
   snd r).

(** What the top-level sequence does besides printing. *)
Inductive event : Type :=
| Sent (r : request)
| to_csv (path : string) (df : DataFrame).

Definition call {A} (m : outcome A * list request) : outcome A * list event :=
  (fst m, map Sent (snd m)).

Definition and_next {A B} (m : outcome A * list event) (k : A -> outcome B * list event)
  : outcome B * list event :=
  match fst m with
  | Ret a => let r := k a in (fst r, snd m ++ snd r)
  | Raise x => (Raise x, snd m)
  | OutOfModel => (OutOfModel, snd m)
  end.

(** [a, b = x] *)
Definition unpack2 (x : home_result) : outcome (json * json) :=
  match x with
  | ReturnsPair a b => Ret (a, b)
  | ReturnsNone => Raise TypeError
  end.

Definition write_if_any (path : string) (df : DataFrame) : outcome unit * list event :=
  if negb (empty df) then (Ret tt, [to_csv path df]) else (Ret tt, []).

(** The [if __name__ == "__main__":] block. *)
Definition main (e : env) : outcome unit * list event :=
  and_next (call (get_home_id e)) (fun result =>
  and_next (unpack2 result, []) (fun ids =>
    let my_home_id := fst ids in
    if truthy my_home_id then
      and_next (call (get_current_and_upcoming_prices e my_home_id)) (fun price_df =>
      and_next (write_if_any "../data/raw/historical_consumption.csv" price_df) (fun _ =>
      and_next (call (get_historical_consumption e my_home_id 720)) (fun consumption_df =>
      and_next (write_if_any "../data/raw/historical_consumption.csv" consumption_df) (fun _ =>
      and_next (call (get_live_measurement e my_home_id)) (fun live_data =>
      (Ret tt, []))))))
    else (Ret tt, []))).

End Fetch.

End Energy.

(** ** [src/get_weather_api_data.py] *)

Module Weather.
Import Py Pandas.

Definition OPENMETEO_API_URL : string := "https://api.open-meteo.com/v1/forecast".
Definition LATITUDE : Q := 52.0766.
Definition LONGITUDE : Q := 4.2986.
Definition TIMEZONE : string := "Europe/Amsterdam".

(** The GET that [requests.get(OPENMETEO_API_URL, params=params)] sends. *)
Record request : Type := { url : string; params : list (string * json) }.

Inductive response : Type :=
| Ok (body : json)
| HTTPError (status_code : Z) (text : string)
| RequestException.

(** The one environment toggle, and the network. *)
Record env : Type :=
  { WEATHER_UNITS : option string;
    get_ : request -> response }.

(** The dict of line 53. *)
Definition weather_codes : list (Z * string) :=
    [(0, "Clear sky");
     (1, "Mostly clear");
     (2, "Partly cloudy");
     (3, "Overcast");
     (45, "Fog");
     (48, "Depositing rime fog");
     (51, "Drizzle: Light");
     (53, "Drizzle: Moderate");
     (55, "Drizzle: Dense");
     (56, "Freezing Drizzle: Light");
     (57, "Freezing Drizzle: Dense");
     (61, "Rain: Slight");
     (63, "Rain: Moderate");
     (65, "Rain: Heavy");
     (66, "Freezing Rain: Light");
     (67, "Freezing Rain: Heavy");
     (71, "Snow fall: Slight");
     (73, "Snow fall: Moderate");
     (75, "Snow fall: Heavy");
     (77, "Snow grains");
     (80, "Rain showers: Slight");
     (81, "Rain showers: Moderate");
     (82, "Rain showers: Violent");
     (85, "Snow showers: Slight");
     (86, "Snow showers: Heavy");
     (95, "Thunderstorm: Slight or moderate");
     (96, "Thunderstorm with slight hail");
     (99, "Thunderstorm with heavy hail")].

(** [series.map(weather_codes)] on one cell: a code that is no key of the
    dict gives a missing description. *)
Definition weather_description (c : cell) : outcome cell :=
  match c with
  | Obj (JNum q) =>
      Ret (match find (fun kv => Qeq_bool q (inject_Z (fst kv))) weather_codes with
           | Some kv => Obj (JStr (snd kv))
           | None => NaN
           end)
  | Obj JNull | Obj (JStr _) | NaN => Ret NaN
  | _ => OutOfModel
  end.

(** Comparisons of a float, [None] being NaN, with a finite constant. *)
Definition ge (d : option Q) (x : Q) : bool :=
  match d with Some q => Qle_bool x q | None => false end.
Definition lt (d : option Q) (x : Q) : bool :=
  match d with Some q => negb (Qle_bool x q) | None => false end.

(** The lambda of lines 86-95. *)
Definition wind_direction_cardinal (d : option Q) : string :=
  if ge d 337.5 || lt d 22.5 then "N"
  else if ge d 22.5 && lt d 67.5 then "NE"
  else if ge d 67.5 && lt d 112.5 then "E"
  else if ge d 112.5 && lt d 157.5 then "SE"
  else if ge d 157.5 && lt d 202.5 then "S"
  else if ge d 202.5 && lt d 247.5 then "SW"
  else if ge d 247.5 && lt d 292.5 then "W"
  else "NW".

(** The boundary table of the eight compass points: a bearing [d] with
    [lo <= d < hi] in a row [(lo, hi, label)] is to be labelled [label]. *)
Definition compass_table : list (Q * Q * string) :=
  [(337.5, 360, "N"); (0, 22.5, "N");
   (22.5, 67.5, "NE");
   (67.5, 112.5, "E");
   (112.5, 157.5, "SE");
   (157.5, 202.5, "S");
   (202.5, 247.5, "SW");
   (247.5, 292.5, "W");
   (292.5, 337.5, "NW")]%Q.

Definition within (lo hi d : Q) : Prop := (lo <= d)%Q /\ (d < hi)%Q.

(** [series.apply(lambda d: ...)]: in a numeric column a missing value
    reaches the lambda as NaN; in a column of objects it reaches it as
    [None], and comparing [None], a string, a list or a dict with a float
    raises. *)
Definition apply_cardinal (series : list cell) : outcome (list cell) :=
  if is_numeric series then
    Ret (map (fun c => match as_float c with
                       | Some d => Obj (JStr (wind_direction_cardinal d))
                       | None => NaN
                       end) series)
  else
    mapM (fun c => match c with
                   | Obj (JNum q) => Ret (Obj (JStr (wind_direction_cardinal (Some q))))
                   | Obj (JBool b) =>
                       Ret (Obj (JStr (wind_direction_cardinal (Some (if b then 1 else 0)%Q))))
                   | _ => Raise TypeError
                   end) series.

Section Fetch.

(** pandas' parser of one date string under [utc=True]. *)
Variable strptime_utc : string -> parsed.

Definition get_hourly_forecast (e : env) (num_hours past_hours : Z)
  : outcome DataFrame * list request :=
  let imperial := match WEATHER_UNITS e with
                  | Some u => String.eqb u "imperial"
                  | None => false
                  end in
  let params :=
    [("latitude", JNum LATITUDE);
     ("longitude", JNum LONGITUDE);
     ("hourly", JStr "temperature_2m,relative_humidity_2m,precipitation,rain,snowfall,weather_code,wind_speed_10m,wind_direction_10m,surface_pressure,cloud_cover,is_day,shortwave_radiation");
     ("temperature_unit", JStr (if imperial then "fahrenheit" else "celsius"));
     ("wind_speed_unit", JStr (if imperial then "mph" else "ms"));
     ("precipitation_unit", JStr (if imperial then "inch" else "mm"));
     ("timezone", JStr TIMEZONE);
     ("forecast_hours", JNum (inject_Z num_hours));
     ("past_hours", JNum (inject_Z past_hours))] in
  let sent := {| url := OPENMETEO_API_URL; params := params |} in
  (match get_ e sent with
   | Ok data =>
       no_hourly <- (if negb (truthy data) then Ret true
                     else b <- contains "hourly" data ;; Ret (negb b)) ;;
       if no_hourly then Ret empty_frame
       else
         hourly <- getitem data "hourly" ;;
         df <- DataFrame_ hourly ;;
         if negb (empty df) then
           df <- rename "time" "timestamp" df ;;
           timestamp <- column "timestamp" df ;;
           timestamp <- to_datetime strptime_utc timestamp ;;
           let df := set_column "timestamp" timestamp df in
           weather_code <- column "weather_code" df ;;
           description <- mapM weather_description weather_code ;;
           let df := set_column "weather_description" description df in
           wind_direction_10m <- column "wind_direction_10m" df ;;
           cardinal <- apply_cardinal wind_direction_10m ;;
           let df := set_column "wind_direction_cardinal" cardinal df in
           Ret (reset_index (sort_values "timestamp" df))
         else Ret df
   | HTTPError _ _ => Ret empty_frame
   | RequestException => Ret empty_frame
   end, [sent]).

Definition get_current_weather (e : env) : outcome DataFrame * list request :=
  let r := get_hourly_forecast e 1 0 in
  (hourly_df <- fst r ;;
   if negb (empty hourly_df) then first_row_frame hourly_df else Ret empty_frame,
   snd r).

(** What the top-level sequence does besides printing. *)
Inductive event : Type :=
| Sent (r : request)
| to_csv (path : string) (df : DataFrame).

Definition call {A} (m : outcome A * list request) : outcome A * list event :=
  (fst m, map Sent (snd m)).

Definition and_next {A B} (m : outcome A * list event) (k : A -> outcome B * list event)
  : outcome B * list event :=
  match fst m with
  | Ret a => let r := k a in (fst r, snd m ++ snd r)
  | Raise x => (Raise x, snd m)
  | OutOfModel => (OutOfModel, snd m)
  end.

Fixpoint ends_with_slash (s : string) : bool :=
  match s with
  | EmptyString => false
  | String c EmptyString => Ascii.eqb c "/"
  | String _ rest => ends_with_slash rest
  end.

(** [os.path.join(a, b)] on POSIX paths. *)
Definition os_path_join (a b : string) : string :=
  match b with
  | String "/" _ => b
  | _ => if String.eqb a "" || ends_with_slash a then (a ++ b)%string
         else (a ++ "/" ++ b)%string
  end.

(** The [if __name__ == "__main__":] block, [parent_dir] being the
    directory two levels above the module file.  The file system is not
    modelled: a write is recorded, never refused. *)
Definition main (parent_dir : string) (e : env) : outcome unit * list event :=
  and_next (call (get_current_weather e)) (fun current_weather_df =>
  and_next (Ret tt,
            [to_csv (os_path_join parent_dir "data/raw/current_weather_data.csv")
                    current_weather_df]) (fun _ =>
  and_next (call (get_hourly_forecast e 72 24)) (fun hourly_forecast_df =>
    if negb (empty hourly_forecast_df) then
      (* the column read by the message printed on line 136 *)
      and_next (column "timestamp" hourly_forecast_df, []) (fun _ =>
      (Ret tt,
       [to_csv (os_path_join parent_dir "data/raw/hourly_forecast_data.csv")
               hourly_forecast_df]))
    else (Ret tt, [])))).

End Fetch.

End Weather.

(** ** Concrete responses *)

Module Scenario.
Import Py Pandas.

(** An energy account with a token, whose every request is answered [r]. *)
Definition energy (r : Energy.response) : Energy.env :=
  {| Energy.TIBER_TOKEN := Some "secret";
     Energy.TIBBER_API_URL := Some "https://api.tibber.com/v1-beta/gql";
     Energy.post := fun _ => r |}.

(** The same account with [TIBER_TOKEN] unset. *)
Definition energy_without_token (r : Energy.response) : Energy.env :=
  {| Energy.TIBER_TOKEN := None;
     Energy.TIBBER_API_URL := Some "https://api.tibber.com/v1-beta/gql";
     Energy.post := fun _ => r |}.

Definition weather (r : Weather.response) : Weather.env :=
  {| Weather.WEATHER_UNITS := None; Weather.get_ := fun _ => r |}.

(** The body the provider sends for [viewer { home(id) { ... } }]. *)
Definition of_home (home : json) : json :=
  JObj [("data", JObj [("viewer", JObj [("home", home)])])].

Definition price (total : Q) (startsAt level : string) : json :=
  JObj [("total", JNum total); ("startsAt", JStr startsAt); ("level", JStr level)].

Definition price_info (current today tomorrow : json) : json :=
  JObj [("currentSubscription",
         JObj [("priceInfo",
                JObj [("current", current); ("today", today); ("tomorrow", tomorrow)])])].

(** current = today's only entry, tomorrow empty. *)
Definition one_price : json :=
  let entry := price 1.0 "2024-01-01T10:00:00Z" "NORMAL" in
  of_home (price_info entry (JArr [entry]) (JArr [])).

(** The same blocks inside a home object that also has a key [home]. *)
Definition one_price_home_in_home : json :=
  let entry := price 1.0 "2024-01-01T10:00:00Z" "NORMAL" in
  of_home (JObj [("home", None_);
                 ("currentSubscription",
                  JObj [("priceInfo",
                         JObj [("current", entry); ("today", JArr [entry]);
                               ("tomorrow", JArr [])])])]).

(** [current] repeats the instant of today's first hour with other fields. *)
Definition current_price : json := price 1.5 "2024-01-01T10:00:00Z" "EXPENSIVE".

Definition overlapping_prices : json :=
  of_home (price_info current_price
             (JArr [price 1.0 "2024-01-01T10:00:00Z" "NORMAL";
                    price 0.5 "2024-01-01T11:00:00Z" "CHEAP"])
             (JArr [])).

(** The overlapping blocks inside a home object that also has a key [home]. *)
Definition overlapping_prices_home_in_home : json :=
  of_home (JObj [("home", None_);
                 ("currentSubscription",
                  JObj [("priceInfo",
                         JObj [("current", current_price);
                               ("today",
                                JArr [price 1.0 "2024-01-01T10:00:00Z" "NORMAL";
                                      price 0.5 "2024-01-01T11:00:00Z" "CHEAP"]);
                               ("tomorrow", JArr [])])])]).

(** A body without the key [home] under [viewer]. *)
Definition viewer_without_home : json :=
  JObj [("data", JObj [("viewer", JObj [])])].

Definition node (from to : string) (unitPrice unitPriceVAT : Q) : json :=
  JObj [("from", JStr from); ("to", JStr to); ("consumption", JNum 0.5);
        ("unitPrice", JNum unitPrice); ("unitPriceVAT", JNum unitPriceVAT);
        ("totalCost", JNum 0.1); ("currency", JStr "EUR")].

Definition one_hour_consumed : json :=
  of_home (JObj [("consumption",
                  JObj [("nodes",
                         JArr [node "2024-01-01T10:00:00Z" "2024-01-01T11:00:00Z" 0.2 0.05])])]).

Definition two_hours_consumed_home_in_home : json :=
  of_home (JObj [("home", None_);
                 ("consumption",
                  JObj [("nodes",
                         JArr [node "2024-01-01T11:00:00Z" "2024-01-01T12:00:00Z" 0.3 0.1;
                               node "2024-01-01T10:00:00Z" "2024-01-01T11:00:00Z" 0.2 0.05])])]).

Definition of_homes (homes : list json) : json :=
  JObj [("data", JObj [("viewer", JObj [("homes", JArr homes)])])].

Definition main_street : json :=
  of_homes [JObj [("id", JStr "h1");
                  ("address", JObj [("address1", JStr "Main St"); ("city", JStr "X");
                                    ("postalCode", JStr "1"); ("country", JStr "NL")])]].

(** [body] is a home listing whose [data.viewer.homes] is the list [homes]. *)
Definition home_listing (body : json) (homes : list json) : Prop :=
  exists o d v,
    body = JObj o /\ lookup "data" o = Some (JObj d) /\
    lookup "viewer" d = Some (JObj v) /\ lookup "homes" v = Some (JArr homes).

(** [home] has the fields the query asks for that the code reads. *)
Definition home_with (home id address1 : json) : Prop :=
  exists h a city,
    home = JObj h /\ lookup "id" h = Some id /\ lookup "address" h = Some (JObj a) /\
    lookup "address1" a = Some address1 /\ lookup "city" a = Some city.

(** The answers on which the home lookup finds no home: a failed request,
    a body that lacks one of the nested keys, a list of zero homes. *)
Inductive finds_no_home : Energy.response -> Prop :=
| http_error status text : finds_no_home (Energy.HTTPError status text)
| request_error : finds_no_home Energy.RequestException
| no_data o : lookup "data" o = None -> finds_no_home (Energy.Ok (JObj o))
| no_viewer o d :
    lookup "data" o = Some (JObj d) -> lookup "viewer" d = None ->
    finds_no_home (Energy.Ok (JObj o))
| no_homes o d v :
    lookup "data" o = Some (JObj d) -> lookup "viewer" d = Some (JObj v) ->
    lookup "homes" v = None ->
    finds_no_home (Energy.Ok (JObj o))
| zero_homes body : home_listing body [] -> finds_no_home (Energy.Ok body).

(** [body] answers a home query with the home object [home], and [home]
    carries a key [home] of its own: the bodies on which the lines behind
    the guard of the two home queries run. *)
Definition guarded_home (body : json) (home : list (string * json)) : Prop :=
  exists o d v,
    body = JObj o /\ lookup "data" o = Some (JObj d) /\
    lookup "viewer" d = Some (JObj v) /\ lookup "home" v = Some (JObj home) /\
    has_key "home" home = true.

(** The price blocks of [home]: a current entry and the lists of today's
    and tomorrow's entries. *)
Definition price_blocks (home current : list (string * json))
           (today tomorrow : list (list (string * json))) : Prop :=
  exists subscription price_info,
    lookup "currentSubscription" home = Some (JObj subscription) /\
    lookup "priceInfo" subscription = Some (JObj price_info) /\
    lookup "current" price_info = Some (JObj current) /\ current <> [] /\
    lookup "today" price_info = Some (JArr (map JObj today)) /\
    lookup "tomorrow" price_info = Some (JArr (map JObj tomorrow)).

(** The consumption nodes of [home], at least one. *)
Definition consumption_nodes (home : list (string * json))
           (nodes : list (list (string * json))) : Prop :=
  exists consumption,
    lookup "consumption" home = Some (JObj consumption) /\
    lookup "nodes" consumption = Some (JArr (map JObj nodes)) /\ nodes <> [].

(** Four forecast hours whose bearings are those of the compass scenario. *)
Definition four_bearings : json :=
  JObj [("hourly",
         JObj [("time", JArr [JStr "2024-01-01T00:00"; JStr "2024-01-01T01:00";
                              JStr "2024-01-01T02:00"; JStr "2024-01-01T03:00"]);
               ("weather_code", JArr [JNum 0; JNum 1; JNum 2; JNum 3]);
               ("wind_direction_10m", JArr [JNum 10; JNum 200; JNum 337.5; JNum 22.5])])].


Definition node_fields (from to : string) (unitPrice unitPriceVAT : Q)
  : list (string * json) :=
  [("from", JStr from); ("to", JStr to); ("consumption", JNum 0.5);
   ("unitPrice", JNum unitPrice); ("unitPriceVAT", JNum unitPriceVAT);
   ("totalCost", JNum 0.1); ("currency", JStr "EUR")].

(** The request ended in an error status or in a transport failure. *)
Definition energy_request_failed (r : Energy.response) : bool :=
  match r with Energy.Ok _ => false | _ => true end.

Definition weather_request_failed (r : Weather.response) : bool :=
  match r with Weather.Ok _ => false | _ => true end.

(** [body] is a forecast of [n] hours: its [hourly] block maps each name to
    an array of [n] values, among them [time] with dates the parser reads
    and [weather_code] and [wind_direction_10m] with numbers. *)
Definition forecast_of (strptime_utc : string -> parsed) (body : json) (n : nat) : Prop :=
  exists fields hourly cols times codes bearings,
    body = JObj fields /\ lookup "hourly" fields = Some (JObj hourly) /\
    as_columns hourly = Some cols /\
    Forall (fun c => List.length (snd c) = n) cols /\
    lookup "timestamp" cols = None /\
    lookup "time" cols = Some times /\
    Forall (fun t => exists s, t = JStr s /\ strptime_utc s <> Unparseable) times /\
    lookup "weather_code" cols = Some codes /\
    Forall (fun c => exists q, c = JNum q) codes /\
    lookup "wind_direction_10m" cols = Some bearings /\
    Forall (fun c => exists q, c = JNum q) bearings.

(** The path both writes of the energy sequence go to. *)
Definition energy_csv : string := "../data/raw/historical_consumption.csv".

(** The query a request of the energy client carries. *)
Definition query_of (r : Energy.request) : string :=
  match getitem (Energy.payload r) "query" with
  | Ret (JStr q) => q
  | _ => ""
  end.

(** An energy account with a token that answers each of the four queries
    with its own response. *)
Definition energy_serving (homes prices consumption live : Energy.response) : Energy.env :=
  {| Energy.TIBER_TOKEN := Some "secret";
     Energy.TIBBER_API_URL := Some "https://api.tibber.com/v1-beta/gql";
     Energy.post := fun r =>
       if String.eqb (query_of r) Energy.home_query then homes
       else if String.eqb (query_of r) Energy.prices_query then prices
       else if String.eqb (query_of r) Energy.consumption_query then consumption
       else live |}.

(** Three forecast hours, listed out of order. *)
Definition three_hours : json :=
  JObj [("hourly",
         JObj [("time", JArr [JStr "2024-01-01T02:00"; JStr "2024-01-01T00:00";
                              JStr "2024-01-01T01:00"]);
               ("weather_code", JArr [JNum 3; JNum 61; JNum 4]);
               ("wind_direction_10m", JArr [JNum 10; JNum 200; JNum 337.5])])].

End Scenario.

(** * Properties *)

Import Py Pandas.

(** ** The guard of the two home queries

    Lines 103 and 155 test ['home' in data['data']['viewer']['home']]: the
    key [home] is looked for inside the home object, not inside [viewer].
    A home object as the queries return it has no such key, so the guarded
    block never runs on it; a body without [viewer.home] raises. *)

Lemma home_present_of_home (fields : list (string * json)) :
  Energy.home_present (Scenario.of_home (JObj fields)) = Ret (has_key "home" fields).
Proof. reflexivity. Qed.

(** C1: on the response with current = today's only entry and an empty
    tomorrow block, the code returns the frame without rows or columns,
    not a table of one row. *)
Theorem prices_of_one_entry_are_dropped :
  forall strptime,
    fst (Energy.get_current_and_upcoming_prices strptime
           (Scenario.energy (Energy.Ok Scenario.one_price)) (JStr "h1"))
    = Ret empty_frame
    /\ len empty_frame = 0%nat.
Proof. intros; split; reflexivity. Qed.

(** The lines after the guard do give one row on these blocks: they run
    when the home object happens to carry a key [home]. *)
Example prices_of_one_entry_behind_the_guard :
  option_map len
    (match fst (Energy.get_current_and_upcoming_prices Iso8601.strptime
                  (Scenario.energy (Energy.Ok Scenario.one_price_home_in_home)) (JStr "h1"))
     with Ret df => Some df | _ => None end)
  = Some 1%nat.
Proof. reflexivity. Qed.

(** C2: a response that lacks the key [home] under [viewer] makes
    [get_current_and_upcoming_prices] raise [KeyError] instead of returning
    an empty table. *)
Theorem prices_raise_on_missing_home :
  forall strptime,
    fst (Energy.get_current_and_upcoming_prices strptime
           (Scenario.energy (Energy.Ok Scenario.viewer_without_home)) (JStr "h1"))
    = Raise (KeyError "home").
Proof. intros; reflexivity. Qed.

(** C3: on a well-formed consumption response of one node the code returns
    the frame without rows, not one row per node. *)
Theorem consumption_of_one_node_is_dropped :
  forall strptime fadd,
    fst (Energy.get_historical_consumption strptime fadd
           (Scenario.energy (Energy.Ok Scenario.one_hour_consumed)) (JStr "h1") 720)
    = Ret empty_frame
    /\ len empty_frame = 0%nat.
Proof. intros; split; reflexivity. Qed.

(** C6: when current and today carry the same instant, the returned table
    does not retain the current entry: it has no row at all. *)
Theorem overlapping_prices_retain_nothing :
  forall strptime,
    fst (Energy.get_current_and_upcoming_prices strptime
           (Scenario.energy (Energy.Ok Scenario.overlapping_prices)) (JStr "h1"))
    = Ret empty_frame
    /\ forall r, ~ In r (rows empty_frame).
Proof. intros; split; [reflexivity | intros r []]. Qed.

(** ** Ordering and deduplication of rows *)

Section Ordering.

Context {A : Type} (key : A -> option Z).


Lemma stamp_leb_refl (a : option Z) : stamp_leb a a = true.
Proof. destruct a; simpl; [apply Z.leb_refl | reflexivity]. Qed.

Lemma stamp_leb_total (a b : option Z) : stamp_leb a b = false -> stamp_leb b a = true.
Proof.
  destruct a as [x|], b as [y|]; simpl; intros H; try discriminate; try reflexivity.
  apply Z.leb_gt in H. apply Z.leb_le. lia.
Qed.

Lemma stamp_leb_trans (a b c : option Z) :
  stamp_leb a b = true -> stamp_leb b c = true -> stamp_leb a c = true.
Proof.
  destruct a as [x|], b as [y|], c as [z|]; simpl; intros H1 H2;
    try discriminate; try reflexivity.
  apply Z.leb_le in H1, H2. apply Z.leb_le. lia.
Qed.

Lemma insert_perm (x : A) (l : list A) : Permutation (insert key x l) (x :: l).
Proof.
  induction l as [|y l IH]; simpl.
  - reflexivity.
  - destruct (stamp_leb (key x) (key y)).
    + reflexivity.
    + rewrite IH. apply perm_swap.
Qed.

Lemma sort_by_perm (l : list A) : Permutation (sort_by key l) l.
Proof.
  induction l as [|x l IH]; simpl.
  - reflexivity.
  - rewrite insert_perm. now constructor.
Qed.

Lemma sort_by_length (l : list A) : List.length (sort_by key l) = List.length l.
Proof. apply Permutation_length, sort_by_perm. Qed.

Lemma insert_ascending (x : A) (l : list A) :
  ascending (map key l) -> ascending (map key (insert key x l)).
Proof.
  unfold ascending.
  induction l as [|y l IH]; simpl; intros Hs.
  - repeat constructor.
  - apply StronglySorted_inv in Hs as [Hl Hy].
    destruct (stamp_leb (key x) (key y)) eqn:Hxy; simpl.
    + constructor; [now constructor|].
      constructor; [exact Hxy|].
      eapply Forall_impl; [|exact Hy].
      intros c Hc. eapply stamp_leb_trans; eassumption.
    + constructor; [auto|].
      eapply Permutation_Forall.
      * apply Permutation_map. symmetry. apply insert_perm.
      * simpl. constructor; [now apply stamp_leb_total | exact Hy].
Qed.

Lemma sort_by_ascending (l : list A) : ascending (map key (sort_by key l)).
Proof.
  induction l as [|x l IH]; simpl.
  - constructor.
  - now apply insert_ascending.
Qed.

Lemma keep_first_incl (l : list A) (x : A) : In x (keep_first key l) -> In x l.
Proof.
  revert x. induction l as [|y l IH]; simpl; intros x Hx; [exact Hx|].
  destruct Hx as [->|Hx]; [now left|].
  apply filter_In in Hx as [Hx _]. right. now apply IH.
Qed.







End Ordering.

(** ** Running the monad backwards *)

Lemma bind_Ret {A B} (m : outcome A) (f : A -> outcome B) (b : B) :
  bind m f = Ret b -> exists a, m = Ret a /\ f a = Ret b.
Proof. destruct m as [a| |]; simpl; intros H; try discriminate. now exists a. Qed.

Ltac bind_inv H a Ha :=
  apply bind_Ret in H; destruct H as (a & Ha & H).

Lemma mapM_length {A B} (f : A -> outcome B) (l : list A) (l' : list B) :
  mapM f l = Ret l' -> List.length l' = List.length l.
Proof.
  revert l'. induction l as [|a l IH]; simpl; intros l' H.
  - injection H as <-. reflexivity.
  - bind_inv H b Hb. bind_inv H bs Hbs. injection H as <-.
    simpl. f_equal. now apply IH.
Qed.

Lemma mapM_total {A B} (f : A -> outcome B) (l : list A) :
  Forall (fun a => exists b, f a = Ret b) l -> exists l', mapM f l = Ret l'.
Proof.
  induction 1 as [|a l [b Hb] _ [l' Hl']]; simpl.
  - now exists [].
  - rewrite Hb, Hl'. simpl. now exists (b :: l').
Qed.

(** ** Frames as [pd.DataFrame] builds them *)

Lemma raw_row_stamp (name : string) (r : row) : raw_row r -> stamp name r = None.
Proof.
  unfold stamp, at_. induction 1 as [|[k c] r Hc _ IH]; simpl; [reflexivity|].
  destruct (String.eqb name k); [exact Hc | exact IH].
Qed.

Lemma records_raw (recs : list (list (string * json))) :
  Forall raw_row (map (map (fun kv => (fst kv, Obj (snd kv)))) recs).
Proof.
  apply Forall_forall. intros r Hr.
  apply in_map_iff in Hr as (rec & <- & _).
  apply Forall_forall. intros kc Hkc.
  apply in_map_iff in Hkc as (kv & <- & _). reflexivity.
Qed.

Lemma zip_columns_raw (n : nat) (cols : list (string * list json)) :
  Forall raw_row (zip_columns n cols).
Proof.
  induction cols as [|[k items] cols IH]; simpl.
  - apply Forall_forall. intros r Hr. apply repeat_spec in Hr. subst. constructor.
  - apply Forall_forall. intros r Hr.
    apply in_map_iff in Hr as ([v r'] & <- & Hin).
    apply in_combine_r in Hin. rewrite Forall_forall in IH.
    constructor; [reflexivity | now apply IH].
Qed.

Lemma DataFrame_raw (data : json) (df : DataFrame) :
  DataFrame_ data = Ret df -> Forall raw_row (rows df).
Proof.
  destruct data as [| | | |items|fields]; simpl; try discriminate.
  - unfold DataFrame_of_records. destruct (as_records items); [|discriminate].
    intros H. injection H as <-. apply records_raw.
  - unfold DataFrame_of_columns.
    destruct (as_columns fields) as [[|[k items] rest]|]; try discriminate.
    + intros H. injection H as <-. constructor.
    + destruct (forallb _ rest); [|discriminate].
      intros H. injection H as <-.
      apply (zip_columns_raw (List.length items) ((k, items) :: rest)).
Qed.

Lemma raw_sorted (name : string) (df : DataFrame) :
  Forall raw_row (rows df) -> sorted_by name df.
Proof.
  unfold sorted_by, ascending. induction 1 as [|r l Hr Hl IH]; simpl; constructor.
  - exact IH.
  - rewrite (raw_row_stamp name r Hr).
    apply Forall_forall. intros c Hc.
    apply in_map_iff in Hc as (r' & <- & Hr').
    rewrite Forall_forall in Hl. now rewrite (raw_row_stamp name r' (Hl _ Hr')).
Qed.

Lemma sort_values_sorted (name : string) (df : DataFrame) :
  sorted_by name (reset_index (sort_values name df)).
Proof. apply sort_by_ascending. Qed.

(** ** What the fetch functions return *)

(** The table of prices is the frame of the collected records, returned as
    it is when empty, and otherwise with its [startsAt] column parsed, its
    repeated instants dropped and its rows sorted. *)
Lemma prices_shape strptime (e : Energy.env) (home_id : json) (df : DataFrame) :
  fst (Energy.get_current_and_upcoming_prices strptime e home_id) = Ret df ->
  exists prices df0,
    DataFrame_ (JArr prices) = Ret df0 /\
    ((empty df0 = true /\ df = df0) \/
     (empty df0 = false /\
      exists startsAt,
        df = reset_index (sort_values "startsAt"
               (drop_duplicates "startsAt" (set_column "startsAt" startsAt df0))))).
Proof.
  unfold Energy.get_current_and_upcoming_prices. cbv zeta. cbn [fst]. intros H.
  bind_inv H data Hdata. bind_inv H present Hp. bind_inv H prices Hprices.
  bind_inv H df0 Hdf0. exists prices, df0. split; [exact Hdf0|].
  destruct (empty df0); cbn [negb] in H.
  - left. injection H as <-. now split.
  - right. split; [reflexivity|].
    bind_inv H c Hc. bind_inv H ts Hts. injection H as <-. now exists ts.
Qed.

Lemma consumption_shape strptime fadd (e : Energy.env) (home_id : json) (n : Z)
      (df : DataFrame) :
  fst (Energy.get_historical_consumption strptime fadd e home_id n) = Ret df ->
  exists data df0,
    DataFrame_ data = Ret df0 /\
    ((empty df0 = true /\ df = df0) \/
     (empty df0 = false /\ exists df1, df = reset_index (sort_values "from" df1))).
Proof.
  unfold Energy.get_historical_consumption. cbv zeta. cbn [fst]. intros H.
  bind_inv H data Hdata. bind_inv H present Hp. bind_inv H nodes Hnodes.
  bind_inv H df0 Hdf0. exists nodes, df0. split; [exact Hdf0|].
  destruct (empty df0); cbn [negb] in H.
  - left. injection H as <-. now split.
  - right. split; [reflexivity|].
    bind_inv H c1 Hc1. bind_inv H t1 Ht1. bind_inv H c2 Hc2. bind_inv H t2 Ht2.
    bind_inv H up Hup. bind_inv H uv Huv. bind_inv H tp Htp.
    injection H as <-. eexists. reflexivity.
Qed.

Lemma forecast_shape strptime_utc (e : Weather.env) (n p : Z) (df : DataFrame) :
  fst (Weather.get_hourly_forecast strptime_utc e n p) = Ret df ->
  df = empty_frame \/
  (exists data, DataFrame_ data = Ret df /\ empty df = true) \/
  (exists df1, df = reset_index (sort_values "timestamp" df1)).
Proof.
  unfold Weather.get_hourly_forecast. cbv zeta. cbn [fst]. intros H.
  destruct (Weather.get_ e _) as [data| |].
  - bind_inv H no_hourly Hno. destruct no_hourly.
    + left. now injection H as <-.
    + bind_inv H hourly Hh. bind_inv H df0 Hdf0.
      destruct (empty df0) eqn:He; cbn [negb] in H.
      * right. left. injection H as <-. now exists hourly.
      * right. right.
        bind_inv H df1 Hdf1. bind_inv H c Hc. bind_inv H ts Hts.
        bind_inv H wc Hwc. bind_inv H wd Hwd. bind_inv H w Hw. bind_inv H ca Hca.
        injection H as <-. eexists. reflexivity.
  - left. now injection H as <-.
  - left. now injection H as <-.
Qed.

Lemma prices_sorted strptime (e : Energy.env) (home_id : json) (df : DataFrame) :
  fst (Energy.get_current_and_upcoming_prices strptime e home_id) = Ret df ->
  sorted_by "startsAt" df.
Proof.
  intros H. apply prices_shape in H as (prices & df0 & Hdf0 & [[_ ->]|[_ [ts ->]]]).
  - apply raw_sorted. eapply DataFrame_raw; eassumption.
  - apply sort_values_sorted.
Qed.

Lemma consumption_sorted strptime fadd (e : Energy.env) (home_id : json) (n : Z)
      (df : DataFrame) :
  fst (Energy.get_historical_consumption strptime fadd e home_id n) = Ret df ->
  sorted_by "from" df.
Proof.
  intros H. apply consumption_shape in H as (data & df0 & Hdf0 & [[_ ->]|[_ [df1 ->]]]).
  - apply raw_sorted. eapply DataFrame_raw; eassumption.
  - apply sort_values_sorted.
Qed.

Lemma forecast_sorted strptime_utc (e : Weather.env) (n p : Z) (df : DataFrame) :
  fst (Weather.get_hourly_forecast strptime_utc e n p) = Ret df ->
  sorted_by "timestamp" df.
Proof.
  intros H. apply forecast_shape in H as [->|[(data & Hdf & _)|[df1 ->]]].
  - constructor.
  - apply raw_sorted. eapply DataFrame_raw; eassumption.
  - apply sort_values_sorted.
Qed.

(** ** The home lookup *)

Lemma getitem_lookup (o : list (string * json)) (k : string) (v : json) :
  lookup k o = Some v -> getitem (JObj o) k = Ret v.
Proof. simpl. now intros ->. Qed.

Lemma contains_lookup (o : list (string * json)) (k : string) (v : json) :
  lookup k o = Some v -> contains k (JObj o) = Ret true.
Proof. unfold contains, has_key. now intros ->. Qed.

Lemma contains_missing (o : list (string * json)) (k : string) :
  lookup k o = None -> contains k (JObj o) = Ret false.
Proof. unfold contains, has_key. now intros ->. Qed.

Lemma truthy_lookup (o : list (string * json)) (k : string) (v : json) :
  lookup k o = Some v -> truthy (JObj o) = true.
Proof. destruct o; [discriminate | reflexivity]. Qed.

(** With a token, the body of a successful answer is what the request
    helper returns; a failed request gives [None]. *)
Lemma request_with_token (e : Energy.env) (token query : string) (variables : json) :
  Energy.TIBER_TOKEN e = Some token ->
  exists sent,
    Energy._make_graphql_request e query variables
    = (match Energy.post e sent with
       | Energy.Ok body => Ret body
       | _ => Ret None_
       end, [sent]).
Proof.
  intros Ht. unfold Energy._make_graphql_request. rewrite Ht.
  eexists. reflexivity.
Qed.

Ltac walk :=
  repeat (cbn [bind and_then subscript getitem0];
          first [ erewrite truthy_lookup by eassumption
                | erewrite contains_lookup by eassumption
                | erewrite contains_missing by eassumption
                | erewrite getitem_lookup by eassumption ]);
  cbn [bind and_then subscript getitem0 truthy].

(** C5: on a valid home listing with at least one home the lookup returns
    the pair of the first home's id and first address line; on a listing of
    zero homes it returns [None].  The mocked Main St listing, which gives
    ("h1", "Main St"), is the instance proved right after. *)
Theorem first_home_is_returned :
  forall (e : Energy.env) (token : string) (body : json) (homes : list json),
    Energy.TIBER_TOKEN e = Some token ->
    (forall sent, Energy.post e sent = Energy.Ok body) ->
    Scenario.home_listing body homes ->
    match homes with
    | [] => fst (Energy.get_home_id e) = Ret Energy.ReturnsNone
    | home :: _ =>
        forall id address1,
          Scenario.home_with home id address1 ->
          fst (Energy.get_home_id e) = Ret (Energy.ReturnsPair id address1)
    end.
Proof.
  intros e token body homes Ht Hpost (o & d & v & -> & Hd & Hv & Hh).
  destruct (request_with_token e token Energy.home_query None_ Ht) as (sent & Hreq).
  unfold Energy.get_home_id. rewrite Hreq, Hpost. cbn [fst].
  destruct homes as [|home rest].
  - walk. reflexivity.
  - intros id address1 (h & a & city & -> & Hid & Ha & Ha1 & Hc).
    walk. reflexivity.
Qed.

Lemma first_home_is_returned_witness :
  fst (Energy.get_home_id (Scenario.energy (Energy.Ok Scenario.main_street)))
  = Ret (Energy.ReturnsPair (JStr "h1") (JStr "Main St")).
Proof.
  apply (first_home_is_returned (Scenario.energy (Energy.Ok Scenario.main_street))
           "secret" Scenario.main_street
           [JObj [("id", JStr "h1");
                  ("address", JObj [("address1", JStr "Main St"); ("city", JStr "X");
                                    ("postalCode", JStr "1"); ("country", JStr "NL")])]]).
  - reflexivity.
  - reflexivity.
  - do 3 eexists. repeat split; reflexivity.
  - do 3 eexists. repeat split; reflexivity.
Defined.

Lemma main_unpacks_none strptime fadd (e : Energy.env) :
  fst (Energy.get_home_id e) = Ret Energy.ReturnsNone ->
  Energy.main strptime fadd e
  = (Raise TypeError, map Energy.Sent (snd (Energy.get_home_id e))).
Proof.
  intros H. unfold Energy.main, Energy.and_next, Energy.call. cbn [fst snd].
  rewrite H. cbn [Energy.unpack2 fst snd]. now rewrite app_nil_r.
Qed.

Lemma no_home_gives_none (e : Energy.env) (token : string) (answer : Energy.response) :
  Energy.TIBER_TOKEN e = Some token ->
  (forall sent, Energy.post e sent = answer) ->
  Scenario.finds_no_home answer ->
  fst (Energy.get_home_id e) = Ret Energy.ReturnsNone.
Proof.
  intros Ht Hpost Hno.
  destruct (request_with_token e token Energy.home_query None_ Ht) as (sent & Hreq).
  unfold Energy.get_home_id. rewrite Hreq, Hpost. cbn [fst].
  destruct Hno as [status text| |o Hd|o d Hd Hv|o d v Hd Hv Hh|body Hz].
  - reflexivity.
  - reflexivity.
  - destruct o as [|kv o]; [reflexivity|].
    walk. reflexivity.
  - walk. reflexivity.
  - walk. reflexivity.
  - destruct Hz as (o & d & v & -> & Hd & Hv & Hh). walk. reflexivity.
Qed.

(** C4: when the lookup finds no home (failed request, missing keys, zero
    homes) it returns the single value [None], which is no pair; the
    top-level sequence, which unpacks the result into two variables, then
    raises [TypeError] right after the home request. *)
Theorem absent_home_breaks_unpacking :
  forall strptime fadd (e : Energy.env) (token : string) (answer : Energy.response),
    Energy.TIBER_TOKEN e = Some token ->
    (forall sent, Energy.post e sent = answer) ->
    Scenario.finds_no_home answer ->
    fst (Energy.get_home_id e) = Ret Energy.ReturnsNone /\
    (forall id address1, Energy.ReturnsNone <> Energy.ReturnsPair id address1) /\
    Energy.unpack2 Energy.ReturnsNone = Raise TypeError /\
    Energy.main strptime fadd e
    = (Raise TypeError, map Energy.Sent (snd (Energy.get_home_id e))).
Proof.
  intros strptime fadd e token answer Ht Hpost Hno.
  pose proof (no_home_gives_none e token answer Ht Hpost Hno) as Hnone.
  split; [exact Hnone|]. split; [discriminate|]. split; [reflexivity|].
  now apply main_unpacks_none.
Qed.

Lemma absent_home_breaks_unpacking_witness :
  fst (Energy.get_home_id (Scenario.energy (Energy.Ok (Scenario.of_homes []))))
  = Ret Energy.ReturnsNone /\
  fst (Energy.main Iso8601.strptime Qplus
         (Scenario.energy (Energy.Ok (Scenario.of_homes []))))
  = Raise TypeError.
Proof.
  destruct (absent_home_breaks_unpacking Iso8601.strptime Qplus
              (Scenario.energy (Energy.Ok (Scenario.of_homes [])))
              "secret" (Energy.Ok (Scenario.of_homes [])))
    as (Hnone & _ & _ & Hmain).
  - reflexivity.
  - reflexivity.
  - apply Scenario.zero_homes. do 3 eexists. repeat split; reflexivity.
  - split; [exact Hnone | now rewrite Hmain].
Defined.

(** ** Compass labels *)

Lemma Qle_bool_false (a b : Q) : Qle_bool a b = false -> (b < a)%Q.
Proof.
  intros H. destruct (Qlt_le_dec b a) as [Hlt|Hle]; [exact Hlt|].
  apply Qle_bool_iff in Hle. congruence.
Qed.

Ltac compare_bearing :=
  repeat match goal with
         | |- context [Qle_bool ?a ?b] =>
             let E := fresh "E" in
             destruct (Qle_bool a b) eqn:E;
             [apply Qle_bool_iff in E | apply Qle_bool_false in E];
             cbn [negb orb andb]; try (exfalso; lra)
         end.

(** For every bearing in [0, 360] the label the lambda gives is the one of the boundary
    table, each row a half-open interval; every bearing below 360 is in a
    row; and 10 gives N, 200 gives S, 337.5 gives N, 22.5 gives NE. *)
Lemma wind_direction_lambda_matches_table :
  forall d : Q,
    (0 <= d)%Q -> (d <= 360)%Q ->
    (forall lo hi label,
        In (lo, hi, label) Weather.compass_table -> Weather.within lo hi d ->
        Weather.wind_direction_cardinal (Some d) = label) /\
    ((d < 360)%Q ->
     exists lo hi label,
       In (lo, hi, label) Weather.compass_table /\ Weather.within lo hi d) /\
    Weather.wind_direction_cardinal (Some 10%Q) = "N" /\
    Weather.wind_direction_cardinal (Some 200%Q) = "S" /\
    Weather.wind_direction_cardinal (Some 337.5%Q) = "N" /\
    Weather.wind_direction_cardinal (Some 22.5%Q) = "NE".
Proof.
  intros d H0 H360. split; [|split; [|repeat split]].
  - intros lo hi label Hin [Hlo Hhi].
    unfold Weather.compass_table in Hin. simpl in Hin.
    repeat (destruct Hin as [Hin|Hin]; [injection Hin as <- <- <-|]);
      try contradiction;
      unfold Weather.wind_direction_cardinal, Weather.ge, Weather.lt;
      compare_bearing; reflexivity.
  - intros Hlt. unfold Weather.within, Weather.compass_table.
    destruct (Qlt_le_dec d 22.5) as [H1|H1];
      [exists 0%Q, 22.5%Q, "N"; simpl; auto 12|].
    destruct (Qlt_le_dec d 67.5) as [H2|H2];
      [exists 22.5%Q, 67.5%Q, "NE"; simpl; auto 12|].
    destruct (Qlt_le_dec d 112.5) as [H3|H3];
      [exists 67.5%Q, 112.5%Q, "E"; simpl; auto 12|].
    destruct (Qlt_le_dec d 157.5) as [H4|H4];
      [exists 112.5%Q, 157.5%Q, "SE"; simpl; auto 12|].
    destruct (Qlt_le_dec d 202.5) as [H5|H5];
      [exists 157.5%Q, 202.5%Q, "S"; simpl; auto 12|].
    destruct (Qlt_le_dec d 247.5) as [H6|H6];
      [exists 202.5%Q, 247.5%Q, "SW"; simpl; auto 12|].
    destruct (Qlt_le_dec d 292.5) as [H7|H7];
      [exists 247.5%Q, 292.5%Q, "W"; simpl; auto 12|].
    destruct (Qlt_le_dec d 337.5) as [H8|H8];
      [exists 292.5%Q, 337.5%Q, "NW"; simpl; auto 12|].
    exists 337.5%Q, 360%Q, "N"; simpl; auto 12.
Qed.

(** ** Failures of configuration and of the network *)

Lemma configured_Ret {A} (a : A) : Energy.configured (Ret a).
Proof. discriminate. Qed.

Lemma configured_OutOfModel {A} : Energy.configured (@OutOfModel A).
Proof. discriminate. Qed.

Lemma configured_bind {A B} (m : outcome A) (f : A -> outcome B) :
  Energy.configured m -> (forall a, Energy.configured (f a)) -> Energy.configured (bind m f).
Proof.
  unfold Energy.configured. destruct m as [a| |]; simpl; intros Hm Hf.
  - apply Hf.
  - intros H. apply Hm. injection H as ->. reflexivity.
  - discriminate.
Qed.

Lemma configured_and_then (a b : outcome bool) :
  Energy.configured a -> Energy.configured b -> Energy.configured (a &&& b).
Proof.
  intros Ha Hb. apply configured_bind; [exact Ha|].
  intros []; [exact Hb | apply configured_Ret].
Qed.

Lemma configured_mapM {A B} (f : A -> outcome B) (l : list A) :
  (forall a, Energy.configured (f a)) -> Energy.configured (mapM f l).
Proof.
  intros Hf. induction l as [|a l IH]; simpl.
  - apply configured_Ret.
  - apply configured_bind; [apply Hf|]. intros b.
    apply configured_bind; [exact IH|]. intros bs. apply configured_Ret.
Qed.

Lemma configured_contains (k : string) (x : json) : Energy.configured (contains k x).
Proof. destruct x; discriminate. Qed.

Lemma configured_getitem (x : json) (k : string) : Energy.configured (getitem x k).
Proof. destruct x as [| | | | |o]; try discriminate. simpl. destruct (lookup k o); discriminate. Qed.

Lemma configured_subscript (keys : list string) (x : json) : Energy.configured (subscript x keys).
Proof.
  revert x. induction keys as [|k keys IH]; intros x; simpl.
  - apply configured_Ret.
  - apply configured_bind; [apply configured_getitem | exact IH].
Qed.

Lemma configured_getitem0 (x : json) : Energy.configured (getitem0 x).
Proof. destruct x as [| | |[|c s]|[|v l]|o]; discriminate. Qed.

Lemma configured_get (x : json) (k : string) : Energy.configured (get x k).
Proof. destruct x as [| | | | |o]; try discriminate. simpl. destruct (lookup k o); discriminate. Qed.

Lemma configured_extend (l : list json) (x : json) : Energy.configured (extend l x).
Proof. destruct x; discriminate. Qed.

Lemma configured_DataFrame (data : json) : Energy.configured (DataFrame_ data).
Proof.
  destruct data as [| | | |items|fields]; simpl; try discriminate.
  - unfold DataFrame_of_records. destruct (as_records items); discriminate.
  - unfold DataFrame_of_columns.
    destruct (as_columns fields) as [[|[k items] rest]|]; try discriminate.
    destruct (forallb _ rest); discriminate.
Qed.

Lemma configured_column (name : string) (df : DataFrame) : Energy.configured (column name df).
Proof. unfold column. destruct (existsb _ _); discriminate. Qed.

Lemma configured_to_datetime strptime (series : list cell) :
  Energy.configured (to_datetime strptime series).
Proof.
  apply configured_mapM. intros [[| | |s| |]| | |]; simpl; try discriminate.
  destruct (strptime s); discriminate.
Qed.

Lemma configured_add_series fadd (a b : list cell) : Energy.configured (add_series fadd a b).
Proof. unfold add_series. destruct (_ && _); discriminate. Qed.

Create HintDb configured.
#[local] Hint Resolve configured_Ret configured_OutOfModel configured_contains
  configured_getitem configured_subscript configured_getitem0 configured_get
  configured_extend configured_DataFrame configured_column configured_to_datetime
  configured_add_series : configured.

Ltac configured :=
  repeat first
    [ solve [auto with configured]
    | apply configured_and_then
    | apply configured_bind; [|intros ?]
    | match goal with
      | |- Energy.configured (if ?b then _ else _) => destruct b
      | |- Energy.configured (match ?x with _ => _ end) => destruct x
      end ].

Lemma home_present_configured (data : json) : Energy.configured (Energy.home_present data).
Proof. unfold Energy.home_present. configured. Qed.

Section WithToken.

Variables (e : Energy.env) (token : string).
Hypothesis Htoken : Energy.TIBER_TOKEN e = Some token.

Lemma request_configured (query : string) (variables : json) :
  Energy.configured (fst (Energy._make_graphql_request e query variables)).
Proof.
  destruct (request_with_token e token query variables Htoken) as (sent & ->).
  cbn [fst]. destruct (Energy.post e sent); apply configured_Ret.
Qed.

Lemma home_configured : Energy.configured (fst (Energy.get_home_id e)).
Proof.
  unfold Energy.get_home_id. cbn [fst].
  apply configured_bind; [apply request_configured | intros data].
  configured.
Qed.

Lemma prices_configured strptime (home_id : json) :
  Energy.configured (fst (Energy.get_current_and_upcoming_prices strptime e home_id)).
Proof.
  unfold Energy.get_current_and_upcoming_prices. cbv zeta. cbn [fst].
  apply configured_bind; [apply request_configured | intros data].
  apply configured_bind; [apply home_present_configured | intros present].
  configured.
Qed.

Lemma consumption_configured strptime fadd (home_id : json) (num_hours : Z) :
  Energy.configured (fst (Energy.get_historical_consumption strptime fadd e home_id num_hours)).
Proof.
  unfold Energy.get_historical_consumption. cbv zeta. cbn [fst].
  apply configured_bind; [apply request_configured | intros data].
  apply configured_bind; [apply home_present_configured | intros present].
  configured.
Qed.

Lemma live_configured (home_id : json) :
  Energy.configured (fst (Energy.get_live_measurement e home_id)).
Proof. apply request_configured. Qed.

(** A failed request gives [None] to the caller of the helper. *)
Lemma failed_request (query : string) (variables : json) :
  (forall sent, Scenario.energy_request_failed (Energy.post e sent) = true) ->
  fst (Energy._make_graphql_request e query variables) = Ret None_.
Proof.
  intros Hfail.
  destruct (request_with_token e token query variables Htoken) as (sent & ->).
  cbn [fst]. specialize (Hfail sent).
  destruct (Energy.post e sent); [discriminate | reflexivity | reflexivity].
Qed.

End WithToken.

Lemma request_without_token (e : Energy.env) (query : string) (variables : json) :
  Energy.TIBER_TOKEN e = None ->
  Energy._make_graphql_request e query variables = (Raise Energy.token_not_set, []).
Proof. intros H. unfold Energy._make_graphql_request. now rewrite H. Qed.

Lemma token_cases (e : Energy.env) :
  Energy.TIBER_TOKEN e = None \/ exists token, Energy.TIBER_TOKEN e = Some token.
Proof. destruct (Energy.TIBER_TOKEN e) as [t|]; [right; now exists t | now left]. Qed.

(** C7: each operation of the energy client raises the configuration error
    exactly when the token is unset, and then it has sent no request; with
    a token, when the request ends in an error status or fails in
    transport, each fetch function of both clients returns [None] or the
    empty frame. *)
Theorem failures_are_contained :
  forall strptime fadd strptime_utc (e : Energy.env) (w : Weather.env)
         (home_id : json) (num_hours forecast_hours past_hours : Z),
    ((fst (Energy.get_home_id e) = Raise Energy.token_not_set
      <-> Energy.TIBER_TOKEN e = None) /\
     (fst (Energy.get_current_and_upcoming_prices strptime e home_id)
      = Raise Energy.token_not_set <-> Energy.TIBER_TOKEN e = None) /\
     (fst (Energy.get_historical_consumption strptime fadd e home_id num_hours)
      = Raise Energy.token_not_set <-> Energy.TIBER_TOKEN e = None) /\
     (fst (Energy.get_live_measurement e home_id) = Raise Energy.token_not_set
      <-> Energy.TIBER_TOKEN e = None)) /\
    (Energy.TIBER_TOKEN e = None ->
     snd (Energy.get_home_id e) = [] /\
     snd (Energy.get_current_and_upcoming_prices strptime e home_id) = [] /\
     snd (Energy.get_historical_consumption strptime fadd e home_id num_hours) = [] /\
     snd (Energy.get_live_measurement e home_id) = []) /\
    (Energy.TIBER_TOKEN e <> None ->
     (forall sent, Scenario.energy_request_failed (Energy.post e sent) = true) ->
     fst (Energy.get_home_id e) = Ret Energy.ReturnsNone /\
     fst (Energy.get_current_and_upcoming_prices strptime e home_id) = Ret empty_frame /\
     fst (Energy.get_historical_consumption strptime fadd e home_id num_hours)
     = Ret empty_frame /\
     fst (Energy.get_live_measurement e home_id) = Ret None_) /\
    ((forall sent, Scenario.weather_request_failed (Weather.get_ w sent) = true) ->
     fst (Weather.get_hourly_forecast strptime_utc w forecast_hours past_hours)
     = Ret empty_frame /\
     fst (Weather.get_current_weather strptime_utc w) = Ret empty_frame).
Proof.
  intros. split; [|split; [|split]].
  - destruct (token_cases e) as [Hnone|[token Hsome]].
    + unfold Energy.get_home_id, Energy.get_current_and_upcoming_prices,
        Energy.get_historical_consumption, Energy.get_live_measurement.
      cbv zeta. rewrite !request_without_token by exact Hnone.
      repeat split; auto.
    + repeat split; intros H; try congruence; exfalso.
      * now apply (home_configured e token Hsome).
      * now apply (prices_configured e token Hsome strptime home_id).
      * now apply (consumption_configured e token Hsome strptime fadd home_id num_hours).
      * now apply (live_configured e token Hsome home_id).
  - intros Hnone.
    unfold Energy.get_home_id, Energy.get_current_and_upcoming_prices,
      Energy.get_historical_consumption, Energy.get_live_measurement.
    cbv zeta. rewrite !request_without_token by exact Hnone.
    repeat split.
  - intros Hset Hfail.
    destruct (token_cases e) as [Hnone|[token Hsome]]; [contradiction|].
    unfold Energy.get_home_id, Energy.get_current_and_upcoming_prices,
      Energy.get_historical_consumption, Energy.get_live_measurement.
    cbv zeta. cbn [fst].
    rewrite !(failed_request e token Hsome) by exact Hfail.
    repeat split.
  - intros Hfail.
    unfold Weather.get_current_weather, Weather.get_hourly_forecast.
    cbv zeta. cbn [fst].
    split.
    + match goal with |- context [Weather.get_ w ?r] =>
        specialize (Hfail r); destruct (Weather.get_ w r) end;
        [discriminate | reflexivity | reflexivity].
    + match goal with |- context [Weather.get_ w ?r] =>
        specialize (Hfail r); destruct (Weather.get_ w r) end;
        [discriminate | reflexivity | reflexivity].
Qed.

Lemma surjective_pairing_eq {A B} (p : A * B) (a : A) (b : B) :
  fst p = a -> snd p = b -> p = (a, b).
Proof. destruct p; simpl; intros -> ->; reflexivity. Qed.

Lemma failures_are_contained_witness :
  (fst (Energy.get_home_id (Scenario.energy (Energy.HTTPError 401 "Unauthorized")))
   = Ret Energy.ReturnsNone /\
   fst (Energy.get_current_and_upcoming_prices Iso8601.strptime
          (Scenario.energy (Energy.HTTPError 401 "Unauthorized")) (JStr "h1"))
   = Ret empty_frame /\
   fst (Energy.get_historical_consumption Iso8601.strptime Qplus
          (Scenario.energy (Energy.HTTPError 401 "Unauthorized")) (JStr "h1") 720)
   = Ret empty_frame /\
   fst (Energy.get_live_measurement
          (Scenario.energy (Energy.HTTPError 401 "Unauthorized")) (JStr "h1"))
   = Ret None_) /\
  (fst (Weather.get_hourly_forecast Iso8601.strptime
          (Scenario.weather Weather.RequestException) 72 0)
   = Ret empty_frame /\
   fst (Weather.get_current_weather Iso8601.strptime
          (Scenario.weather Weather.RequestException))
   = Ret empty_frame) /\
  Energy.get_home_id (Scenario.energy_without_token (Energy.Ok Scenario.main_street))
  = (Raise Energy.token_not_set, []).
Proof.
  destruct (failures_are_contained Iso8601.strptime Qplus Iso8601.strptime
              (Scenario.energy (Energy.HTTPError 401 "Unauthorized"))
              (Scenario.weather Weather.RequestException) (JStr "h1") 720 72 0)
    as (_ & _ & Hfailed & Hweather).
  destruct (failures_are_contained Iso8601.strptime Qplus Iso8601.strptime
              (Scenario.energy_without_token (Energy.Ok Scenario.main_street))
              (Scenario.weather Weather.RequestException) (JStr "h1") 720 72 0)
    as ((Hhome & _) & Hsent & _ & _).
  split; [|split].
  - apply Hfailed; [discriminate | reflexivity].
  - apply Hweather. reflexivity.
  - apply surjective_pairing_eq.
    + apply Hhome. reflexivity.
    + apply Hsent. reflexivity.
Defined.

(** ** Columns of a frame, step by step *)

Lemma combine_fst {A B} (l : list A) (l' : list B) :
  List.length l = List.length l' -> map fst (combine l l') = l.
Proof.
  revert l'. induction l as [|a l IH]; intros [|b l'] H; simpl in *;
    try discriminate; [reflexivity|].
  f_equal. apply IH. now injection H.
Qed.

Lemma combine_snd {A B} (l : list A) (l' : list B) :
  List.length l = List.length l' -> map snd (combine l l') = l'.
Proof.
  revert l'. induction l as [|a l IH]; intros [|b l'] H; simpl in *;
    try discriminate; [reflexivity|].
  f_equal. apply IH. now injection H.
Qed.

Lemma has_label (k : string) (l : list string) :
  existsb (String.eqb k) l = true <-> In k l.
Proof.
  rewrite existsb_exists. split.
  - intros (x & Hx & E). apply String.eqb_eq in E. now subst.
  - intros H. exists k. split; [exact H | apply String.eqb_refl].
Qed.

Lemma has_no_label (k : string) (l : list string) :
  existsb (String.eqb k) l = false <-> ~ In k l.
Proof.
  rewrite <- has_label. destruct (existsb _ l); split; congruence.
Qed.

Lemma lookup_label {V} (k : string) (cols : list (string * V)) :
  match lookup k cols with
  | Some _ => In k (map fst cols)
  | None => ~ In k (map fst cols)
  end.
Proof.
  induction cols as [|[k' v] cols IH]; simpl; [tauto|].
  destruct (String.eqb k k') eqn:E.
  - apply String.eqb_eq in E. now left.
  - apply String.eqb_neq in E. destruct (lookup k cols).
    + now right.
    + intros [H|H]; [congruence | contradiction].
Qed.

Lemma add_label_keeps (l : list string) (name k : string) :
  In k l -> In k (add_label l name).
Proof.
  unfold add_label. destruct (existsb _ l); [auto|]. intros H. apply in_or_app. now left.
Qed.

Lemma add_label_has (l : list string) (name : string) : In name (add_label l name).
Proof.
  unfold add_label. destruct (existsb _ l) eqn:E.
  - now apply has_label.
  - apply in_or_app. right. now left.
Qed.

Lemma at_set_item_same (name : string) (c : cell) (r : row) :
  at_ name (set_item name c r) = c.
Proof.
  unfold at_. induction r as [|[k v] r IH]; simpl.
  - now rewrite String.eqb_refl.
  - destruct (String.eqb name k) eqn:E; simpl; rewrite E; [reflexivity | exact IH].
Qed.

Lemma at_set_item_other (name k : string) (c : cell) (r : row) :
  k <> name -> at_ k (set_item name c r) = at_ k r.
Proof.
  intros Hne. unfold at_. induction r as [|[k' v] r IH]; simpl.
  - apply String.eqb_neq in Hne. now rewrite Hne.
  - destruct (String.eqb name k') eqn:E; simpl.
    + apply String.eqb_eq in E. subst k'.
      apply String.eqb_neq in Hne. now rewrite Hne.
    + destruct (String.eqb k k'); [reflexivity | exact IH].
Qed.

Lemma set_column_length (name : string) (values : list cell) (df : DataFrame) :
  List.length values = len df ->
  len (set_column name values df) = len df.
Proof.
  unfold len, set_column. simpl. intros H.
  rewrite length_map, length_combine, H. apply Nat.min_id.
Qed.

Lemma set_column_same (name : string) (values : list cell) (df : DataFrame) :
  List.length values = len df ->
  map (at_ name) (rows (set_column name values df)) = values.
Proof.
  unfold len, set_column. simpl. intros H. rewrite map_map.
  erewrite map_ext; [|intros rc; apply at_set_item_same].
  now apply combine_snd.
Qed.

Lemma set_column_other (name k : string) (values : list cell) (df : DataFrame) :
  k <> name -> List.length values = len df ->
  map (at_ k) (rows (set_column name values df)) = map (at_ k) (rows df).
Proof.
  unfold len, set_column. simpl. intros Hne H. rewrite map_map.
  erewrite map_ext; [|intros rc; apply at_set_item_other; exact Hne].
  rewrite <- (map_map fst (at_ k)). now rewrite combine_fst.
Qed.

Lemma at_relabel_new (old new : string) (r : row) :
  lookup new r = None ->
  at_ new (map (fun kc => (relabel old new (fst kc), snd kc)) r) = at_ old r.
Proof.
  unfold at_, relabel. induction r as [|[k c] r IH]; simpl; [reflexivity|].
  destruct (String.eqb new k) eqn:Enew; [discriminate|]. intros Hr.
  rewrite (String.eqb_sym old k).
  destruct (String.eqb k old).
  - now rewrite String.eqb_refl.
  - rewrite Enew. now apply IH.
Qed.

Lemma at_relabel_other (old new k : string) (r : row) :
  k <> old -> k <> new ->
  at_ k (map (fun kc => (relabel old new (fst kc), snd kc)) r) = at_ k r.
Proof.
  intros Hold Hnew. unfold at_, relabel.
  induction r as [|[k' c] r IH]; simpl; [reflexivity|].
  destruct (String.eqb k' old) eqn:E.
  - apply String.eqb_eq in E. subst k'.
    apply String.eqb_neq in Hold, Hnew. rewrite Hold, Hnew. exact IH.
  - destruct (String.eqb k k'); [reflexivity | exact IH].
Qed.

Lemma zip_columns_length (n : nat) (cols : list (string * list json)) :
  Forall (fun c => List.length (snd c) = n) cols ->
  List.length (zip_columns n cols) = n.
Proof.
  induction 1 as [|[k items] cols Hk _ IH]; simpl.
  - apply repeat_length.
  - simpl in Hk. rewrite length_map, length_combine, IH, Hk. apply Nat.min_id.
Qed.

Lemma zip_columns_at (n : nat) (cols : list (string * list json)) (k : string)
      (items : list json) :
  Forall (fun c => List.length (snd c) = n) cols ->
  lookup k cols = Some items ->
  map (at_ k) (zip_columns n cols) = map Obj items.
Proof.
  induction 1 as [|[k' items'] cols Hk Hcols IH]; simpl; [discriminate|].
  simpl in Hk. pose proof (zip_columns_length n cols Hcols) as Hlen.
  rewrite map_map.
  destruct (String.eqb k k') eqn:E.
  - intros H. injection H as <-.
    rewrite (map_ext _ (fun vr => Obj (fst vr)));
      [|intros vr; unfold at_; simpl; now rewrite E].
    rewrite <- (map_map fst Obj). rewrite combine_fst; [reflexivity|].
    transitivity n; [exact Hk | symmetry; exact Hlen].
  - intros H. rewrite <- (IH H).
    rewrite (map_ext _ (fun vr => at_ k (snd vr)));
      [|intros vr; unfold at_; simpl; now rewrite E].
    rewrite <- (map_map snd (at_ k)). rewrite combine_snd; [reflexivity|].
    transitivity n; [exact Hk | symmetry; exact Hlen].
Qed.

Lemma zip_columns_without (n : nat) (cols : list (string * list json)) (k : string) :
  lookup k cols = None ->
  Forall (fun r => lookup k r = None) (zip_columns n cols).
Proof.
  induction cols as [|[k' items] cols IH]; simpl.
  - intros _. apply Forall_forall. intros r Hr. apply repeat_spec in Hr. now subst.
  - destruct (String.eqb k k') eqn:E; [discriminate|]. intros H.
    apply Forall_forall. intros r Hr.
    apply in_map_iff in Hr as ([v r'] & <- & Hin). apply in_combine_r in Hin.
    simpl. rewrite E. specialize (IH H). rewrite Forall_forall in IH. now apply IH.
Qed.

(** ** The forecast on a well-formed response *)

Lemma DataFrame_of_columns_ok (hourly : list (string * json))
      (cols : list (string * list json)) (n : nat) :
  as_columns hourly = Some cols ->
  Forall (fun c => List.length (snd c) = n) cols ->
  cols <> [] ->
  DataFrame_ (JObj hourly) = Ret {| columns := map fst cols; rows := zip_columns n cols |}.
Proof.
  intros Hcols Hlen Hne. simpl. unfold DataFrame_of_columns. rewrite Hcols.
  destruct cols as [|[k items] rest]; [contradiction|].
  apply Forall_cons_iff in Hlen as [Hk Hrest]. simpl in Hk. subst n.
  replace (forallb _ rest) with true; [reflexivity|].
  symmetry. apply forallb_forall. intros c Hc.
  rewrite Forall_forall in Hrest. apply Nat.eqb_eq. now apply Hrest.
Qed.

Lemma column_ok (name : string) (df : DataFrame) :
  In name (columns df) -> column name df = Ret (map (at_ name) (rows df)).
Proof. intros H. unfold column. apply has_label in H. now rewrite H. Qed.

Lemma rename_ok (old new : string) (df : DataFrame) :
  ~ In new (columns df) ->
  rename old new df
  = Ret {| columns := map (relabel old new) (columns df);
           rows := map (map (fun kc => (relabel old new (fst kc), snd kc))) (rows df) |}.
Proof.
  intros H. unfold rename. apply has_no_label in H. rewrite H.
  now rewrite andb_false_r.
Qed.

Lemma not_empty (df : DataFrame) (k : string) :
  In k (columns df) -> (1 <= len df)%nat -> empty df = false.
Proof.
  unfold empty, len. destruct (columns df); [contradiction|].
  destruct (rows df); simpl; [lia | reflexivity].
Qed.

Lemma apply_cardinal_total (bearings : list json) :
  Forall (fun c => exists q, c = JNum q) bearings ->
  exists labels,
    Weather.apply_cardinal (map Obj bearings) = Ret labels /\
    List.length labels = List.length bearings.
Proof.
  intros H. unfold Weather.apply_cardinal.
  destruct (is_numeric (map Obj bearings)).
  - eexists. split; [reflexivity|]. now rewrite !length_map.
  - match goal with |- context [mapM ?f ?l] =>
      destruct (mapM_total f l) as [labels Hl] end.
    + apply Forall_forall. intros c Hc.
      apply in_map_iff in Hc as (v & <- & Hv).
      rewrite Forall_forall in H. destruct (H v Hv) as [q ->]. eexists. reflexivity.
    + exists labels. split; [exact Hl|].
      apply mapM_length in Hl. now rewrite Hl, length_map.
Qed.

Lemma lookup_In {V} (k : string) (cols : list (string * V)) (v : V) :
  lookup k cols = Some v -> In (k, v) cols.
Proof.
  induction cols as [|[k' v'] cols IH]; simpl; [discriminate|].
  destruct (String.eqb k k') eqn:E.
  - intros H. injection H as ->. apply String.eqb_eq in E. subst. now left.
  - intros H. right. now apply IH.
Qed.

Lemma column_height (n : nat) (cols : list (string * list json)) (k : string)
      (items : list json) :
  Forall (fun c => List.length (snd c) = n) cols ->
  lookup k cols = Some items ->
  List.length (map Obj items) = n.
Proof.
  intros Hlen Hk. rewrite length_map. apply lookup_In in Hk.
  rewrite Forall_forall in Hlen. exact (Hlen _ Hk).
Qed.

Lemma forecast_total strptime_utc (w : Weather.env) (n p : Z) (body : json) (N : nat) :
  (forall sent, Weather.get_ w sent = Weather.Ok body) ->
  Scenario.forecast_of strptime_utc body N ->
  (1 <= N)%nat ->
  exists df,
    fst (Weather.get_hourly_forecast strptime_utc w n p) = Ret df /\
    len df = N /\ empty df = false.
Proof.
  intros Hget (fields & hourly & cols & times & codes & bearings & -> & Hh & Hcols
               & Hlen & Hts & Htime & Hparse & Hcode & Hnum & Hwind & Hnumw) HN.
  unfold Weather.get_hourly_forecast. cbv zeta. cbn [fst]. rewrite Hget.
  walk. cbn [negb].
  (* the frame of the hourly block *)
  assert (Hne : cols <> []) by (intros ->; discriminate).
  rewrite (DataFrame_of_columns_ok hourly cols N Hcols Hlen Hne). cbn [bind].
  set (df0 := {| columns := map fst cols; rows := zip_columns N cols |}).
  assert (L0 : len df0 = N) by (apply zip_columns_length; exact Hlen).
  assert (Ctime : In "time" (columns df0))
    by (pose proof (lookup_label "time" cols) as H; now rewrite Htime in H).
  assert (Ccode : In "weather_code" (columns df0))
    by (pose proof (lookup_label "weather_code" cols) as H; now rewrite Hcode in H).
  assert (Cwind : In "wind_direction_10m" (columns df0))
    by (pose proof (lookup_label "wind_direction_10m" cols) as H; now rewrite Hwind in H).
  assert (Cts : ~ In "timestamp" (columns df0))
    by (pose proof (lookup_label "timestamp" cols) as H; now rewrite Hts in H).
  rewrite (not_empty df0 "time" Ctime) by lia. cbn [negb].
  rewrite (rename_ok "time" "timestamp" df0 Cts). cbn [bind].
  set (df1 := {| columns := map (relabel "time" "timestamp") (columns df0);
                 rows := map (map (fun kc => (relabel "time" "timestamp" (fst kc), snd kc)))
                             (rows df0) |}).
  assert (L1 : len df1 = N) by (unfold len, df1; simpl; now rewrite length_map).
  assert (C1 : forall k, In k (columns df0) -> In (relabel "time" "timestamp" k) (columns df1))
    by (intros k Hk; now apply in_map).
  assert (V1 : forall k, k <> "time" -> k <> "timestamp" ->
                         map (at_ k) (rows df1) = map (at_ k) (zip_columns N cols)).
  { intros k H1 H2. unfold df1. simpl. rewrite map_map.
    apply map_ext. intros r. now apply at_relabel_other. }
  assert (T1 : map (at_ "timestamp") (rows df1) = map Obj times).
  { unfold df1. simpl. rewrite map_map.
    rewrite <- (zip_columns_at N cols "time" times Hlen Htime).
    apply map_ext_in. intros r Hr. apply at_relabel_new.
    pose proof (zip_columns_without N cols "timestamp" Hts) as Hw.
    rewrite Forall_forall in Hw. now apply Hw. }
  rewrite (column_ok "timestamp" df1 (C1 "time" Ctime)), T1. cbn [bind].
  destruct (mapM_total (to_datetime1 strptime_utc) (map Obj times)) as [ts Hts'].
  { apply Forall_forall. intros c Hc. apply in_map_iff in Hc as (t & <- & Ht).
    rewrite Forall_forall in Hparse. destruct (Hparse t Ht) as (s & -> & Hs).
    simpl. destruct (strptime_utc s); [contradiction | eexists; reflexivity
                                      | eexists; reflexivity]. }
  unfold to_datetime. rewrite Hts'. cbn [bind].
  assert (Lts : List.length ts = len df1).
  { apply mapM_length in Hts'. rewrite Hts', L1. eapply column_height; eassumption. }
  set (df2 := set_column "timestamp" ts df1).
  assert (L2 : len df2 = N) by (unfold df2; rewrite set_column_length; assumption).
  assert (C2 : forall k, In k (columns df0) -> k <> "time" -> In k (columns df2)).
  { intros k Hk Hne'. apply add_label_keeps. specialize (C1 k Hk).
    unfold relabel in C1. apply String.eqb_neq in Hne'. now rewrite Hne' in C1. }
  assert (V2 : forall k, k <> "time" -> k <> "timestamp" ->
                         map (at_ k) (rows df2) = map (at_ k) (zip_columns N cols)).
  { intros k H1 H2. unfold df2. rewrite set_column_other by assumption. now apply V1. }
  rewrite (column_ok "weather_code" df2) by (apply C2; [exact Ccode | discriminate]).
  rewrite V2 by discriminate.
  rewrite (zip_columns_at N cols "weather_code" codes Hlen Hcode). cbn [bind].
  destruct (mapM_total Weather.weather_description (map Obj codes)) as [descs Hdescs].
  { apply Forall_forall. intros c Hc. apply in_map_iff in Hc as (v & <- & Hv).
    rewrite Forall_forall in Hnum. destruct (Hnum v Hv) as [q ->]. eexists. reflexivity. }
  rewrite Hdescs. cbn [bind].
  assert (Ldescs : List.length descs = len df2).
  { apply mapM_length in Hdescs. rewrite Hdescs, L2. eapply column_height; eassumption. }
  set (df3 := set_column "weather_description" descs df2).
  assert (L3 : len df3 = N) by (unfold df3; rewrite set_column_length; assumption).
  rewrite (column_ok "wind_direction_10m" df3)
    by (apply add_label_keeps, C2; [exact Cwind | discriminate]).
  unfold df3 at 1. rewrite set_column_other by (discriminate || assumption).
  rewrite V2 by discriminate.
  rewrite (zip_columns_at N cols "wind_direction_10m" bearings Hlen Hwind). cbn [bind].
  destruct (apply_cardinal_total bearings Hnumw) as (labels & Hlabels & Llabels).
  rewrite Hlabels. cbn [bind].
  eexists. split; [reflexivity|].
  assert (L4 : len (set_column "wind_direction_cardinal" labels df3) = N).
  { rewrite set_column_length; [exact L3|].
    rewrite Llabels, L3, <- (length_map Obj). eapply column_height; eassumption. }
  assert (L5 : len (reset_index (sort_values "timestamp"
                      (set_column "wind_direction_cardinal" labels df3))) = N).
  { unfold len, reset_index, sort_values. simpl rows. rewrite sort_by_length. exact L4. }
  split; [exact L5|].
  apply (not_empty _ "timestamp"); [|lia].
  unfold reset_index, sort_values. simpl columns.
  do 2 apply add_label_keeps. apply add_label_has.
Qed.

Lemma current_weather_of_forecast strptime_utc (w : Weather.env) (df : DataFrame) :
  fst (Weather.get_hourly_forecast strptime_utc w 1 0) = Ret df ->
  empty df = false ->
  exists r rest,
    rows df = r :: rest /\
    fst (Weather.get_current_weather strptime_utc w)
    = Ret {| columns := columns df; rows := [r] |} /\
    Forall (fun r' => stamp_leb (stamp "timestamp" r) (stamp "timestamp" r') = true) rest.
Proof.
  intros Hf He. pose proof (forecast_sorted _ _ _ _ _ Hf) as Hs.
  unfold Weather.get_current_weather. cbn [fst]. rewrite Hf. cbn [bind].
  rewrite He. cbn [negb]. unfold first_row_frame.
  unfold sorted_by, ascending in Hs. unfold empty in He.
  destruct (rows df) as [|r rest].
  - destruct (columns df); discriminate.
  - exists r, rest. split; [reflexivity|]. split; [reflexivity|].
    simpl in Hs. apply StronglySorted_inv in Hs as [_ Hr].
    now apply Forall_map in Hr.
Qed.

(** ** What the guarded lines compute when they run *)

Lemma combine_map_same {A B C} (f : A -> B) (g : A -> C) (l : list A) :
  combine (map f l) (map g l) = map (fun x => (f x, g x)) l.
Proof. induction l as [|a l IH]; simpl; [reflexivity | now rewrite IH]. Qed.

Lemma combine_with_image {A B} (g : A -> B) (l : list A) :
  combine l (map g l) = map (fun x => (x, g x)) l.
Proof. induction l as [|a l IH]; simpl; [reflexivity | now rewrite IH]. Qed.

Lemma add_series_sum fadd (a b : list cell) (total : list cell) :
  add_series fadd a b = Ret total ->
  total = map (fun xy => sum_of fadd (fst xy) (snd xy)) (combine a b).
Proof.
  unfold add_series. destruct (_ && _); [|discriminate].
  intros H. now injection H as <-.
Qed.

Lemma column_values (name : string) (df : DataFrame) (values : list cell) :
  column name df = Ret values -> values = map (at_ name) (rows df).
Proof.
  unfold column. destruct (existsb _ _); [|discriminate]. intros H. now injection H.
Qed.

(** Every table of consumption that is not empty has, in each row, a
    [totalPrice] that is the sum, as pandas adds two numbers, of the row's
    [unitPrice] and [unitPriceVAT]; no rounding step follows the sum. *)
Theorem total_price_is_the_sum :
  forall strptime fadd (e : Energy.env) (home_id : json) (num_hours : Z) (df : DataFrame),
    fst (Energy.get_historical_consumption strptime fadd e home_id num_hours) = Ret df ->
    empty df = false ->
    Forall (fun r => at_ "totalPrice" r
                     = sum_of fadd (at_ "unitPrice" r) (at_ "unitPriceVAT" r))
           (rows df).
Proof.
  intros strptime fadd e home_id num_hours df.
  unfold Energy.get_historical_consumption. cbv zeta. cbn [fst]. intros H He.
  bind_inv H data Hdata. bind_inv H present Hp. bind_inv H nodes Hnodes.
  bind_inv H df0 Hdf0.
  destruct (empty df0) eqn:He0; cbn [negb] in H; [injection H as <-; congruence|].
  bind_inv H c1 Hc1. bind_inv H t1 Ht1. bind_inv H c2 Hc2. bind_inv H t2 Ht2.
  bind_inv H up Hup. bind_inv H uv Huv. bind_inv H tp Htp.
  injection H as <-.
  set (df2 := set_column "to" t2 (set_column "from" t1 df0)) in *.
  apply column_values in Hup, Huv. apply add_series_sum in Htp.
  rewrite Hup, Huv, combine_map_same, map_map in Htp. cbn [fst snd] in Htp.
  unfold reset_index, sort_values. simpl rows.
  eapply Permutation_Forall; [symmetry; apply sort_by_perm|].
  unfold set_column. simpl rows. subst tp.
  rewrite combine_with_image, map_map.
  apply Forall_forall. intros r Hr. apply in_map_iff in Hr as (r2 & <- & _).
  cbn [fst snd]. rewrite at_set_item_same.
  now rewrite !at_set_item_other by discriminate.
Qed.

Lemma total_price_is_the_sum_witness :
  exists df,
    fst (Energy.get_historical_consumption Iso8601.strptime Qplus
           (Scenario.energy (Energy.Ok Scenario.two_hours_consumed_home_in_home))
           (JStr "h1") 720) = Ret df /\
    len df = 2%nat /\
    Forall (fun r => at_ "totalPrice" r
                     = sum_of Qplus (at_ "unitPrice" r) (at_ "unitPriceVAT" r))
           (rows df).
Proof.
  eexists. split; [reflexivity|]. split; [reflexivity|].
  apply (total_price_is_the_sum Iso8601.strptime Qplus
           (Scenario.energy (Energy.Ok Scenario.two_hours_consumed_home_in_home))
           (JStr "h1") 720); reflexivity.
Defined.

(** Whatever blocks or nodes the response carries, a home object without a
    key [home] of its own makes both home queries return the empty frame. *)
Theorem home_queries_skip_usual_homes :
  forall strptime fadd (e : Energy.env) (token : string) (fields : list (string * json))
         (home_id : json) (num_hours : Z),
    Energy.TIBER_TOKEN e = Some token ->
    (forall sent, Energy.post e sent = Energy.Ok (Scenario.of_home (JObj fields))) ->
    lookup "home" fields = None ->
    fst (Energy.get_current_and_upcoming_prices strptime e home_id) = Ret empty_frame /\
    fst (Energy.get_historical_consumption strptime fadd e home_id num_hours)
    = Ret empty_frame.
Proof.
  intros strptime fadd e token fields home_id num_hours Ht Hpost Hhome.
  unfold Energy.get_current_and_upcoming_prices, Energy.get_historical_consumption.
  cbv zeta.
  destruct (request_with_token e token Energy.prices_query
              (JObj [("homeId", home_id)]) Ht) as (sent1 & ->).
  destruct (request_with_token e token Energy.consumption_query
              (JObj [("homeId", home_id); ("last", JNum (inject_Z num_hours))]) Ht)
    as (sent2 & ->).
  cbn [fst]. rewrite !Hpost. cbn [bind].
  rewrite home_present_of_home. unfold has_key. rewrite Hhome. split; reflexivity.
Qed.

Lemma home_queries_skip_usual_homes_witness :
  fst (Energy.get_current_and_upcoming_prices Iso8601.strptime
         (Scenario.energy (Energy.Ok Scenario.overlapping_prices)) (JStr "h1"))
  = Ret empty_frame /\
  fst (Energy.get_historical_consumption Iso8601.strptime Qplus
         (Scenario.energy (Energy.Ok Scenario.overlapping_prices)) (JStr "h1") 720)
  = Ret empty_frame.
Proof.
  eapply (home_queries_skip_usual_homes Iso8601.strptime Qplus
            (Scenario.energy (Energy.Ok Scenario.overlapping_prices)) "secret").
  - reflexivity.
  - intros sent. reflexivity.
  - reflexivity.
Defined.

(** * Further properties of the code *)

(** ** Compass labels outside the table *)

(** X4: whatever float the lambda of lines 86-95 receives, it answers one of
    the eight labels; every bearing below 22.5, negative ones included, and
    every bearing from 337.5 on, 360 and beyond included, is N; NaN is NW. *)
Theorem wind_direction_out_of_range :
  forall d : option Q,
    In (Weather.wind_direction_cardinal d) ["N"; "NE"; "E"; "SE"; "S"; "SW"; "W"; "NW"] /\
    (forall q, d = Some q -> (q < 22.5)%Q -> Weather.wind_direction_cardinal d = "N") /\
    (forall q, d = Some q -> (337.5 <= q)%Q -> Weather.wind_direction_cardinal d = "N") /\
    (d = None -> Weather.wind_direction_cardinal d = "NW").
Proof.
  intros d. split; [|split; [|split]].
  - destruct d as [q|]; [|simpl; auto 10].
    unfold Weather.wind_direction_cardinal, Weather.ge, Weather.lt.
    repeat match goal with
           | |- context [Qle_bool ?a ?b] => destruct (Qle_bool a b); cbn [negb orb andb]
           end; simpl; auto 10.
  - intros q -> Hq.
    unfold Weather.wind_direction_cardinal, Weather.ge, Weather.lt.
    compare_bearing; reflexivity.
  - intros q -> Hq.
    unfold Weather.wind_direction_cardinal, Weather.ge, Weather.lt.
    compare_bearing; reflexivity.
  - intros ->. reflexivity.
Qed.

Lemma wind_direction_out_of_range_witness :
  Weather.wind_direction_cardinal (Some (-10)%Q) = "N" /\
  Weather.wind_direction_cardinal (Some 400%Q) = "N".
Proof.
  split.
  - refine (proj1 (proj2 (wind_direction_out_of_range (Some (-10)%Q))) (-10)%Q eq_refl _).
    reflexivity.
  - refine (proj1 (proj2 (proj2 (wind_direction_out_of_range (Some 400%Q)))) 400%Q eq_refl _).
    discriminate.
Defined.

(** ** The home lookup on listings of several or incomplete homes *)

(** X5: only the first home of the listing is read: two listings that start
    with the same home give the same result, raised exception included. *)
Theorem home_lookup_reads_first_home_only :
  forall (e1 e2 : Energy.env) (token1 token2 : string) (body1 body2 home : json)
         (others1 others2 : list json),
    Energy.TIBER_TOKEN e1 = Some token1 ->
    Energy.TIBER_TOKEN e2 = Some token2 ->
    (forall sent, Energy.post e1 sent = Energy.Ok body1) ->
    (forall sent, Energy.post e2 sent = Energy.Ok body2) ->
    Scenario.home_listing body1 (home :: others1) ->
    Scenario.home_listing body2 (home :: others2) ->
    fst (Energy.get_home_id e1) = fst (Energy.get_home_id e2).
Proof.
  intros e1 e2 token1 token2 body1 body2 home others1 others2 Ht1 Ht2 Hp1 Hp2
         (o1 & d1 & v1 & -> & Hd1 & Hv1 & Hh1) (o2 & d2 & v2 & -> & Hd2 & Hv2 & Hh2).
  destruct (request_with_token e1 token1 Energy.home_query None_ Ht1) as (s1 & Hr1).
  destruct (request_with_token e2 token2 Energy.home_query None_ Ht2) as (s2 & Hr2).
  unfold Energy.get_home_id. rewrite Hr1, Hr2, Hp1, Hp2. cbn [fst].
  walk. reflexivity.
Qed.

Lemma home_lookup_reads_first_home_only_witness :
  fst (Energy.get_home_id
         (Scenario.energy
            (Energy.Ok (Scenario.of_homes
                          [JObj [("id", JStr "h1");
                                 ("address", JObj [("address1", JStr "Main St");
                                                   ("city", JStr "X")])];
                           JObj [("id", JStr "h2")]]))))
  = fst (Energy.get_home_id
           (Scenario.energy
              (Energy.Ok (Scenario.of_homes
                            [JObj [("id", JStr "h1");
                                   ("address", JObj [("address1", JStr "Main St");
                                                     ("city", JStr "X")])]])))).
Proof.
  eapply (home_lookup_reads_first_home_only _ _ "secret" "secret").
  - reflexivity.
  - reflexivity.
  - intros sent. reflexivity.
  - intros sent. reflexivity.
  - do 3 eexists. repeat split; reflexivity.
  - do 3 eexists. repeat split; reflexivity.
Defined.

(** X6: a first home that lacks [address], or whose address lacks [address1]
    or [city], or that lacks [id], makes the lookup raise [KeyError]: the
    message of line 62 reads all of them, [city] too although it is not
    part of the result. *)
Theorem home_lookup_raises_on_incomplete_home :
  forall (e : Energy.env) (token : string) (body : json) (h : list (string * json))
         (others : list json),
    Energy.TIBER_TOKEN e = Some token ->
    (forall sent, Energy.post e sent = Energy.Ok body) ->
    Scenario.home_listing body (JObj h :: others) ->
    (lookup "address" h = None ->
     fst (Energy.get_home_id e) = Raise (KeyError "address")) /\
    (forall a, lookup "address" h = Some (JObj a) -> lookup "address1" a = None ->
               fst (Energy.get_home_id e) = Raise (KeyError "address1")) /\
    (forall a address1,
        lookup "address" h = Some (JObj a) -> lookup "address1" a = Some address1 ->
        lookup "city" a = None ->
        fst (Energy.get_home_id e) = Raise (KeyError "city")) /\
    (forall a address1 city,
        lookup "address" h = Some (JObj a) -> lookup "address1" a = Some address1 ->
        lookup "city" a = Some city -> lookup "id" h = None ->
        fst (Energy.get_home_id e) = Raise (KeyError "id")).
Proof.
  intros e token body h others Ht Hpost (o & d & v & -> & Hd & Hv & Hh).
  destruct (request_with_token e token Energy.home_query None_ Ht) as (sent & Hreq).
  unfold Energy.get_home_id. rewrite Hreq, Hpost. cbn [fst].
  repeat split.
  - intros Ha. walk. unfold getitem. now rewrite Ha.
  - intros a Ha Ha1. walk. unfold getitem. now rewrite Ha1.
  - intros a address1 Ha Ha1 Hc. walk. unfold getitem. now rewrite Hc.
  - intros a address1 city Ha Ha1 Hc Hid. walk. unfold getitem. now rewrite Hid.
Qed.

Lemma home_lookup_raises_on_incomplete_home_witness :
  fst (Energy.get_home_id
         (Scenario.energy
            (Energy.Ok (Scenario.of_homes
                          [JObj [("id", JStr "h1");
                                 ("address", JObj [("address1", JStr "Main St")])]]))))
  = Raise (KeyError "city").
Proof.
  destruct (home_lookup_raises_on_incomplete_home
              (Scenario.energy
                 (Energy.Ok (Scenario.of_homes
                               [JObj [("id", JStr "h1");
                                      ("address", JObj [("address1", JStr "Main St")])]])))
              "secret"
              (Scenario.of_homes
                 [JObj [("id", JStr "h1");
                        ("address", JObj [("address1", JStr "Main St")])]])
              [("id", JStr "h1"); ("address", JObj [("address1", JStr "Main St")])]
              [])
    as (_ & _ & Hcity & _).
  - reflexivity.
  - intros sent. reflexivity.
  - do 3 eexists. repeat split; reflexivity.
  - apply (Hcity [("address1", JStr "Main St")] (JStr "Main St")); reflexivity.
Defined.

(** ** Responses the presence checks do not absorb *)

(** X7: a GraphQL answer whose [data] is null, as sent along with [errors],
    makes the home lookup and both home queries raise [TypeError]: the
    checks test ['viewer' in data['data']] on [None]. *)
Theorem null_data_raises :
  forall strptime fadd (e : Energy.env) (token : string) (o : list (string * json))
         (home_id : json) (num_hours : Z),
    Energy.TIBER_TOKEN e = Some token ->
    (forall sent, Energy.post e sent = Energy.Ok (JObj o)) ->
    lookup "data" o = Some None_ ->
    fst (Energy.get_home_id e) = Raise TypeError /\
    fst (Energy.get_current_and_upcoming_prices strptime e home_id) = Raise TypeError /\
    fst (Energy.get_historical_consumption strptime fadd e home_id num_hours)
    = Raise TypeError.
Proof.
  intros strptime fadd e token o home_id num_hours Ht Hpost Hd.
  unfold Energy.get_home_id, Energy.get_current_and_upcoming_prices,
    Energy.get_historical_consumption, Energy.home_present.
  cbv zeta.
  destruct (request_with_token e token Energy.home_query None_ Ht) as (s0 & ->).
  destruct (request_with_token e token Energy.prices_query
              (JObj [("homeId", home_id)]) Ht) as (s1 & ->).
  destruct (request_with_token e token Energy.consumption_query
              (JObj [("homeId", home_id); ("last", JNum (inject_Z num_hours))]) Ht)
    as (s2 & ->).
  cbn [fst]. rewrite !Hpost.
  repeat split; walk; reflexivity.
Qed.

Lemma null_data_raises_witness :
  fst (Energy.get_home_id
         (Scenario.energy
            (Energy.Ok (JObj [("data", None_); ("errors", JArr [JStr "unauthenticated"])]))))
  = Raise TypeError.
Proof.
  eapply (proj1 (null_data_raises Iso8601.strptime Qplus _ "secret"
                   [("data", None_); ("errors", JArr [JStr "unauthenticated"])]
                   (JStr "h1") 720 _ _ _)).
Unshelve.
  - reflexivity.
  - intros sent. reflexivity.
  - reflexivity.
Defined.

(** X8: whenever [viewer] has no key [home], both home queries raise
    [KeyError]; when [viewer.home] is null (no such home), both raise
    [TypeError].  Neither returns an empty table. *)
Theorem home_queries_raise_without_home :
  forall strptime fadd (e : Energy.env) (token : string) (o d v : list (string * json))
         (home_id : json) (num_hours : Z),
    Energy.TIBER_TOKEN e = Some token ->
    (forall sent, Energy.post e sent = Energy.Ok (JObj o)) ->
    lookup "data" o = Some (JObj d) ->
    lookup "viewer" d = Some (JObj v) ->
    (lookup "home" v = None ->
     fst (Energy.get_current_and_upcoming_prices strptime e home_id)
     = Raise (KeyError "home") /\
     fst (Energy.get_historical_consumption strptime fadd e home_id num_hours)
     = Raise (KeyError "home")) /\
    (lookup "home" v = Some None_ ->
     fst (Energy.get_current_and_upcoming_prices strptime e home_id) = Raise TypeError /\
     fst (Energy.get_historical_consumption strptime fadd e home_id num_hours)
     = Raise TypeError).
Proof.
  intros strptime fadd e token o d v home_id num_hours Ht Hpost Hd Hv.
  unfold Energy.get_current_and_upcoming_prices, Energy.get_historical_consumption,
    Energy.home_present.
  cbv zeta.
  destruct (request_with_token e token Energy.prices_query
              (JObj [("homeId", home_id)]) Ht) as (s1 & ->).
  destruct (request_with_token e token Energy.consumption_query
              (JObj [("homeId", home_id); ("last", JNum (inject_Z num_hours))]) Ht)
    as (s2 & ->).
  cbn [fst]. rewrite !Hpost.
  split; intros Hh; split; walk; unfold getitem; rewrite ?Hh; reflexivity.
Qed.

Lemma home_queries_raise_without_home_witness :
  fst (Energy.get_historical_consumption Iso8601.strptime Qplus
         (Scenario.energy (Energy.Ok Scenario.viewer_without_home)) (JStr "h1") 720)
  = Raise (KeyError "home").
Proof.
  destruct (home_queries_raise_without_home Iso8601.strptime Qplus
              (Scenario.energy (Energy.Ok Scenario.viewer_without_home)) "secret"
              [("data", JObj [("viewer", JObj [])])] [("viewer", JObj [])] []
              (JStr "h1") 720) as (Hmissing & _).
  - reflexivity.
  - intros sent. reflexivity.
  - reflexivity.
  - reflexivity.
  - apply Hmissing. reflexivity.
Defined.

(** ** Requests *)

Lemma request_trace (e : Energy.env) (query : string) (variables : json) :
  snd (Energy._make_graphql_request e query variables)
  = match Energy.TIBER_TOKEN e with
    | None => []
    | Some token =>
        [{| Energy.url := Energy.TIBBER_API_URL e;
            Energy.headers := [("Authorization", ("Bearer " ++ token)%string);
                               ("Content-Type", "application/json")];
            Energy.payload := JObj [("query", JStr query); ("variables", variables)] |}]
    end.
Proof. unfold Energy._make_graphql_request. destruct (Energy.TIBER_TOKEN e); reflexivity. Qed.

(** X9: no operation of the energy client sends more than one request, and no
    request leaves without the bearer token: each one goes to the
    configured URL with the header [Authorization: Bearer <token>].  The
    home id reaches the variables of the three home queries, and the hour
    count those of the consumption query as [last]. *)
Theorem energy_requests_carry_the_token :
  forall strptime fadd (e : Energy.env) (home_id : json) (num_hours : Z),
    let home := snd (Energy.get_home_id e) in
    let prices := snd (Energy.get_current_and_upcoming_prices strptime e home_id) in
    let consumption :=
      snd (Energy.get_historical_consumption strptime fadd e home_id num_hours) in
    let live := snd (Energy.get_live_measurement e home_id) in
    (List.length home <= 1 /\ List.length prices <= 1 /\
     List.length consumption <= 1 /\ List.length live <= 1)%nat /\
    Forall (fun r => exists token,
                Energy.TIBER_TOKEN e = Some token /\
                Energy.url r = Energy.TIBBER_API_URL e /\
                lookup "Authorization" (Energy.headers r)
                = Some ("Bearer " ++ token)%string)
           (home ++ prices ++ consumption ++ live) /\
    Forall (fun r => subscript (Energy.payload r) ["variables"; "homeId"] = Ret home_id)
           (prices ++ consumption ++ live) /\
    Forall (fun r => subscript (Energy.payload r) ["variables"; "last"]
                     = Ret (JNum (inject_Z num_hours)))
           consumption.
Proof.
  intros strptime fadd e home_id num_hours.
  unfold Energy.get_home_id, Energy.get_current_and_upcoming_prices,
    Energy.get_historical_consumption, Energy.get_live_measurement.
  cbv zeta. cbn [snd]. rewrite !request_trace.
  destruct (Energy.TIBER_TOKEN e) as [token|].
  - split; [simpl; lia|]. split; [|split].
    + repeat constructor; exists token; repeat split; reflexivity.
    + repeat constructor.
    + repeat constructor.
  - split; [simpl; lia|]. repeat split; constructor.
Qed.

(** X10: the forecast sends one GET to the fixed URL, whatever becomes of the
    answer; its [forecast_hours] and [past_hours] are the two arguments,
    and its three units come from one system: all imperial when
    [WEATHER_UNITS] is "imperial", all metric otherwise.  The current
    weather is asked for as one forecast hour and no past hour. *)
Theorem forecast_request_is_uniform :
  forall strptime_utc (e : Weather.env) (num_hours past_hours : Z),
    exists sent,
      snd (Weather.get_hourly_forecast strptime_utc e num_hours past_hours) = [sent] /\
      Weather.url sent = Weather.OPENMETEO_API_URL /\
      lookup "forecast_hours" (Weather.params sent) = Some (JNum (inject_Z num_hours)) /\
      lookup "past_hours" (Weather.params sent) = Some (JNum (inject_Z past_hours)) /\
      (Weather.WEATHER_UNITS e = Some "imperial" ->
       lookup "temperature_unit" (Weather.params sent) = Some (JStr "fahrenheit") /\
       lookup "wind_speed_unit" (Weather.params sent) = Some (JStr "mph") /\
       lookup "precipitation_unit" (Weather.params sent) = Some (JStr "inch")) /\
      (Weather.WEATHER_UNITS e <> Some "imperial" ->
       lookup "temperature_unit" (Weather.params sent) = Some (JStr "celsius") /\
       lookup "wind_speed_unit" (Weather.params sent) = Some (JStr "ms") /\
       lookup "precipitation_unit" (Weather.params sent) = Some (JStr "mm")) /\
      snd (Weather.get_current_weather strptime_utc e)
      = snd (Weather.get_hourly_forecast strptime_utc e 1 0).
Proof.
  intros strptime_utc e num_hours past_hours.
  unfold Weather.get_current_weather, Weather.get_hourly_forecast. cbv zeta. cbn [snd].
  eexists. split; [reflexivity|]. cbn [Weather.url Weather.params].
  split; [reflexivity|]. split; [reflexivity|]. split; [reflexivity|].
  destruct (Weather.WEATHER_UNITS e) as [u|].
  - destruct (String.eqb u "imperial") eqn:E.
    + apply String.eqb_eq in E. subst u.
      split; [intros _; repeat split; reflexivity|].
      split; [intros H; now contradiction H | reflexivity].
    + apply String.eqb_neq in E.
      split; [intros H; injection H as ->; now contradiction E|].
      split; [intros _; cbn; repeat split; reflexivity | reflexivity].
  - split; [discriminate|]. split; [intros _; repeat split; reflexivity | reflexivity].
Qed.

Lemma forecast_request_is_uniform_witness :
  exists sent,
    snd (Weather.get_hourly_forecast Iso8601.strptime
           {| Weather.WEATHER_UNITS := Some "imperial";
              Weather.get_ := fun _ => Weather.RequestException |} 72 24) = [sent] /\
    lookup "temperature_unit" (Weather.params sent) = Some (JStr "fahrenheit") /\
    lookup "wind_speed_unit" (Weather.params sent) = Some (JStr "mph") /\
    lookup "precipitation_unit" (Weather.params sent) = Some (JStr "inch").
Proof.
  destruct (forecast_request_is_uniform Iso8601.strptime
              {| Weather.WEATHER_UNITS := Some "imperial";
                 Weather.get_ := fun _ => Weather.RequestException |} 72 24)
    as (sent & Hsent & _ & _ & _ & Himperial & _).
  exists sent. split; [exact Hsent|]. apply Himperial. reflexivity.
Defined.

(** ** The top-level sequence of the energy client *)

(** X11: when a home with a truthy id is found and the three fetches return,
    the sequence sends the four requests in the order home, prices,
    consumption, live measurement, each fetch with the id of that home, and
    writes each table that is not empty right after its fetch.  Both writes
    go to the same path, the consumption table last: it replaces the
    prices written before it. *)
Theorem main_writes_consumption_over_prices :
  forall strptime fadd (e : Energy.env) (id address1 : json)
         (price_df consumption_df : DataFrame) (live_data : json)
         (sent_home sent_prices sent_consumption sent_live : list Energy.request),
    Energy.get_home_id e = (Ret (Energy.ReturnsPair id address1), sent_home) ->
    truthy id = true ->
    Energy.get_current_and_upcoming_prices strptime e id = (Ret price_df, sent_prices) ->
    Energy.get_historical_consumption strptime fadd e id 720
    = (Ret consumption_df, sent_consumption) ->
    Energy.get_live_measurement e id = (Ret live_data, sent_live) ->
    Energy.main strptime fadd e
    = (Ret tt,
       map Energy.Sent sent_home
       ++ map Energy.Sent sent_prices
       ++ (if empty price_df then []
           else [Energy.to_csv Scenario.energy_csv price_df])
       ++ map Energy.Sent sent_consumption
       ++ (if empty consumption_df then []
           else [Energy.to_csv Scenario.energy_csv consumption_df])
       ++ map Energy.Sent sent_live).
Proof.
  intros strptime fadd e id address1 price_df consumption_df live_data
         sent_home sent_prices sent_consumption sent_live Hh Hid Hp Hc Hl.
  unfold Energy.main, Energy.and_next, Energy.call, Energy.write_if_any, Scenario.energy_csv.
  rewrite Hh. cbn [fst snd Energy.unpack2]. rewrite Hid, Hp. cbn [fst snd].
  rewrite Hc, Hl.
  destruct (empty price_df); cbn [negb fst snd];
    destruct (empty consumption_df); cbn [negb fst snd];
    now rewrite ?app_nil_r, ?app_nil_l.
Qed.

Lemma main_writes_consumption_over_prices_witness :
  exists home prices consumption live price_df consumption_df,
    Energy.main Iso8601.strptime Qplus
      (Scenario.energy_serving
         (Energy.Ok Scenario.main_street)
         (Energy.Ok Scenario.one_price_home_in_home)
         (Energy.Ok Scenario.two_hours_consumed_home_in_home)
         (Energy.Ok None_))
    = (Ret tt,
       [Energy.Sent home; Energy.Sent prices; Energy.to_csv Scenario.energy_csv price_df;
        Energy.Sent consumption; Energy.to_csv Scenario.energy_csv consumption_df;
        Energy.Sent live]) /\
    len price_df = 1%nat /\ len consumption_df = 2%nat.
Proof.
  pose proof (main_writes_consumption_over_prices Iso8601.strptime Qplus
                (Scenario.energy_serving
                   (Energy.Ok Scenario.main_street)
                   (Energy.Ok Scenario.one_price_home_in_home)
                   (Energy.Ok Scenario.two_hours_consumed_home_in_home)
                   (Energy.Ok None_))
                _ _ _ _ _ _ _ _ _ eq_refl eq_refl eq_refl eq_refl eq_refl) as H.
  do 6 eexists. split; [rewrite H; reflexivity | split; reflexivity].
Defined.

Lemma energy_and_next_Forall {A B} (Q : Energy.event -> Prop)
      (m : outcome A * list Energy.event) (k : A -> outcome B * list Energy.event) :
  Forall Q (snd m) ->
  (forall a, Forall Q (snd (k a))) ->
  Forall Q (snd (Energy.and_next m k)).
Proof.
  intros Hm Hk. unfold Energy.and_next.
  destruct (fst m) as [a| |]; cbn [snd]; [|exact Hm|exact Hm].
  apply Forall_app. split; [exact Hm | apply Hk].
Qed.

(** X12: whatever the network answers, the sequence writes to no path but
    [../data/raw/historical_consumption.csv], and never writes an empty
    table. *)
Theorem main_writes_only_tables_with_rows :
  forall strptime fadd (e : Energy.env),
    Forall (fun ev => match ev with
                      | Energy.Sent _ => True
                      | Energy.to_csv path df => path = Scenario.energy_csv /\ empty df = false
                      end)
           (snd (Energy.main strptime fadd e)).
Proof.
  intros strptime fadd e. unfold Energy.main.
  assert (Hcall : forall A (m : outcome A * list Energy.request),
             Forall (fun ev => match ev with
                               | Energy.Sent _ => True
                               | Energy.to_csv path df =>
                                   path = Scenario.energy_csv /\ empty df = false
                               end) (snd (Energy.call m))).
  { intros A m. unfold Energy.call. cbn [snd]. apply Forall_forall.
    intros ev Hev. apply in_map_iff in Hev as (r & <- & _). exact I. }
  assert (Hwrite : forall df,
             Forall (fun ev => match ev with
                               | Energy.Sent _ => True
                               | Energy.to_csv path df =>
                                   path = Scenario.energy_csv /\ empty df = false
                               end) (snd (Energy.write_if_any Scenario.energy_csv df))).
  { intros df. unfold Energy.write_if_any. destruct (empty df) eqn:E; cbn [negb snd].
    - constructor.
    - constructor; [now split | constructor]. }
  apply energy_and_next_Forall; [apply Hcall | intros result].
  apply energy_and_next_Forall; [constructor | intros ids].
  destruct (truthy (fst ids)); [|constructor].
  apply energy_and_next_Forall; [apply Hcall | intros price_df].
  apply energy_and_next_Forall; [apply Hwrite | intros _].
  apply energy_and_next_Forall; [apply Hcall | intros consumption_df].
  apply energy_and_next_Forall; [apply Hwrite | intros _].
  apply energy_and_next_Forall; [apply Hcall | intros live_data].
  constructor.
Qed.

Lemma energy_and_next_snd {A B} (m : outcome A * list Energy.event)
      (k : A -> outcome B * list Energy.event) :
  snd (Energy.and_next m k)
  = snd m ++ match fst m with Ret a => snd (k a) | _ => [] end.
Proof.
  unfold Energy.and_next. destruct (fst m); cbn [snd]; [reflexivity | |];
    now rewrite app_nil_r.
Qed.

(** X13: the sequence ends without an exception right after the home request,
    which is its branch "Exiting as home ID could not be retrieved",
    exactly when the lookup returned a pair whose id is falsy (null, an
    empty string, zero); a lookup that returned [None] never gets there. *)
Theorem main_exits_quietly_iff_falsy_id :
  forall strptime fadd (e : Energy.env),
    Energy.main strptime fadd e = (Ret tt, map Energy.Sent (snd (Energy.get_home_id e)))
    <-> exists id address1,
        fst (Energy.get_home_id e) = Ret (Energy.ReturnsPair id address1) /\
        truthy id = false.
Proof.
  intros strptime fadd e. split.
  - intros Hmain.
    destruct (fst (Energy.get_home_id e)) as [[|id address1]| |] eqn:Hh.
    + rewrite (main_unpacks_none strptime fadd e Hh) in Hmain. discriminate.
    + exists id, address1. split; [reflexivity|].
      destruct (truthy id) eqn:Hid; [exfalso | reflexivity].
      (* with a truthy id the prices request follows the home request *)
      assert (Htoken : exists token, Energy.TIBER_TOKEN e = Some token).
      { unfold Energy.get_home_id in Hh. cbn [fst] in Hh.
        destruct (Energy.TIBER_TOKEN e) as [token|] eqn:Ht; [now exists token|].
        rewrite request_without_token in Hh by exact Ht. discriminate. }
      destruct Htoken as [token Ht].
      apply (f_equal snd) in Hmain. cbn [snd] in Hmain.
      unfold Energy.main in Hmain.
      rewrite energy_and_next_snd in Hmain. unfold Energy.call at 1 2 in Hmain.
      cbn [fst snd] in Hmain. rewrite Hh in Hmain.
      rewrite energy_and_next_snd in Hmain.
      cbn [fst snd Energy.unpack2 app] in Hmain. rewrite Hid in Hmain.
      rewrite energy_and_next_snd in Hmain. unfold Energy.call at 1 in Hmain.
      cbn [snd] in Hmain.
      unfold Energy.get_current_and_upcoming_prices in Hmain at 1.
      cbv zeta in Hmain. cbn [snd] in Hmain.
      rewrite request_trace, Ht in Hmain. cbn [map app] in Hmain.
      rewrite <- (app_nil_r (map Energy.Sent (snd (Energy.get_home_id e)))) in Hmain at 2.
      apply app_inv_head in Hmain. discriminate.
    + unfold Energy.main, Energy.and_next, Energy.call in Hmain.
      cbn [fst snd] in Hmain. rewrite Hh in Hmain. discriminate.
    + unfold Energy.main, Energy.and_next, Energy.call in Hmain.
      cbn [fst snd] in Hmain. rewrite Hh in Hmain. discriminate.
  - intros (id & address1 & Hh & Hid).
    unfold Energy.main, Energy.and_next, Energy.call. cbn [fst snd].
    rewrite Hh. cbn [fst snd Energy.unpack2]. rewrite Hid.
    cbn [fst snd]. now rewrite !app_nil_r.
Qed.

Lemma main_exits_quietly_iff_falsy_id_witness :
  fst (Energy.main Iso8601.strptime Qplus
         (Scenario.energy
            (Energy.Ok (Scenario.of_homes
                          [JObj [("id", None_);
                                 ("address", JObj [("address1", JStr "Main St");
                                                   ("city", JStr "X")])]]))))
  = Ret tt.
Proof.
  rewrite (proj2 (main_exits_quietly_iff_falsy_id Iso8601.strptime Qplus
                    (Scenario.energy
                       (Energy.Ok (Scenario.of_homes
                                     [JObj [("id", None_);
                                            ("address",
                                             JObj [("address1", JStr "Main St");
                                                   ("city", JStr "X")])]]))))).
  - reflexivity.
  - exists None_, (JStr "Main St"). split; reflexivity.
Defined.

(** ** The forecast table, step by step *)

(** How a forecast table that is not empty came about. *)
Lemma forecast_steps strptime_utc (e : Weather.env) (n p : Z) (df : DataFrame) :
  fst (Weather.get_hourly_forecast strptime_utc e n p) = Ret df ->
  empty df = false ->
  exists hourly df0 df1 timestamp description cardinal,
    DataFrame_ hourly = Ret df0 /\
    rename "time" "timestamp" df0 = Ret df1 /\
    to_datetime strptime_utc (map (at_ "timestamp") (rows df1)) = Ret timestamp /\
    let df2 := set_column "timestamp" timestamp df1 in
    mapM Weather.weather_description (map (at_ "weather_code") (rows df2))
    = Ret description /\
    let df3 := set_column "weather_description" description df2 in
    Weather.apply_cardinal (map (at_ "wind_direction_10m") (rows df3)) = Ret cardinal /\
    df = reset_index (sort_values "timestamp"
           (set_column "wind_direction_cardinal" cardinal df3)).
Proof.
  unfold Weather.get_hourly_forecast. cbv zeta. cbn [fst]. intros H He.
  destruct (Weather.get_ e _) as [data| |];
    [|injection H as <-; discriminate|injection H as <-; discriminate].
  bind_inv H no_hourly Hno. destruct no_hourly; [injection H as <-; discriminate|].
  bind_inv H hourly Hh. bind_inv H df0 Hdf0.
  destruct (empty df0) eqn:He0; cbn [negb] in H; [injection H as <-; congruence|].
  bind_inv H df1 Hdf1. bind_inv H c Hc. bind_inv H ts Hts.
  bind_inv H wc Hwc. bind_inv H wd Hwd. bind_inv H w Hw. bind_inv H ca Hca.
  injection H as <-.
  apply column_values in Hc, Hwc, Hw. subst c wc w.
  exists hourly, df0, df1, ts, wd, ca. repeat split; assumption.
Qed.

Lemma mapM_combine {A B C} (f : B -> outcome C) (g : A -> B) (l : list A) (l' : list C) :
  mapM f (map g l) = Ret l' ->
  forall a c, In (a, c) (combine l l') -> f (g a) = Ret c.
Proof.
  revert l'. induction l as [|a0 l IH]; simpl; intros l' H a c Hin.
  - injection H as <-. contradiction.
  - bind_inv H c0 Hc0. bind_inv H cs Hcs. injection H as <-.
    simpl in Hin. destruct Hin as [Heq|Hin].
    + injection Heq as <- <-. exact Hc0.
    + eapply IH; eassumption.
Qed.

Lemma set_column_row (name : string) (values : list cell) (df : DataFrame) (r : row) :
  In r (rows (set_column name values df)) ->
  exists r0 v, In (r0, v) (combine (rows df) values) /\ r = set_item name v r0.
Proof.
  unfold set_column. simpl. intros H.
  apply in_map_iff in H as ([r0 v] & <- & Hin). now exists r0, v.
Qed.

Lemma to_datetime1_instant strptime (c t : cell) :
  to_datetime1 strptime c = Ret t -> t = NaT \/ exists z, t = Timestamp z.
Proof.
  destruct c as [[| | |s| |]| | |]; simpl; try discriminate;
    try (intros H; injection H as <-; auto; right; eexists; reflexivity).
  destruct (strptime s); try discriminate; intros H; injection H as <-; auto.
  right. eexists. reflexivity.
Qed.

Lemma apply_cardinal_combine (rs : list row) (labels : list cell) :
  Weather.apply_cardinal (map (at_ "wind_direction_10m") rs) = Ret labels ->
  forall r v, In (r, v) (combine rs labels) ->
    (forall q, at_ "wind_direction_10m" r = Obj (JNum q) ->
               v = Obj (JStr (Weather.wind_direction_cardinal (Some q)))) /\
    (at_ "wind_direction_10m" r = Obj None_ ->
     v = Obj (JStr "NW")).
Proof.
  unfold Weather.apply_cardinal.
  destruct (is_numeric _).
  - intros H r v Hin. injection H as <-.
    rewrite map_map, combine_with_image in Hin.
    apply in_map_iff in Hin as (r' & Heq & _). injection Heq as -> <-.
    split; [intros q ->; reflexivity | intros ->; reflexivity].
  - intros H r v Hin. pose proof (mapM_combine _ _ _ _ H r v Hin) as Hv.
    cbv beta in Hv. split.
    + intros q Hq. rewrite Hq in Hv. now injection Hv.
    + intros Hq. rewrite Hq in Hv. discriminate.
Qed.

(** X14: in every forecast table that is not empty, each row carries the
    derived values of its own hour, also after the sort: its description
    is what the code table gives for its [weather_code], its compass label
    is the label of its [wind_direction_10m] (NW when the bearing is
    missing), and its [timestamp] is an instant or [NaT]. *)
Theorem forecast_rows_stay_aligned :
  forall strptime_utc (e : Weather.env) (num_hours past_hours : Z) (df : DataFrame),
    fst (Weather.get_hourly_forecast strptime_utc e num_hours past_hours) = Ret df ->
    empty df = false ->
    Forall (fun r =>
              Weather.weather_description (at_ "weather_code" r)
              = Ret (at_ "weather_description" r) /\
              (forall q, at_ "wind_direction_10m" r = Obj (JNum q) ->
                         at_ "wind_direction_cardinal" r
                         = Obj (JStr (Weather.wind_direction_cardinal (Some q)))) /\
              (at_ "wind_direction_10m" r = Obj None_ ->
               at_ "wind_direction_cardinal" r = Obj (JStr "NW")) /\
              (at_ "timestamp" r = NaT \/ exists t, at_ "timestamp" r = Timestamp t))
           (rows df).
Proof.
  intros strptime_utc e n p df H He.
  destruct (forecast_steps strptime_utc e n p df H He)
    as (hourly & df0 & df1 & ts & wd & ca & _ & _ & Hts & Hwd & Hca & ->).
  cbv zeta in Hwd, Hca.
  unfold reset_index, sort_values. cbn [rows].
  eapply Permutation_Forall; [symmetry; apply sort_by_perm|].
  apply Forall_forall. intros r4 Hr4.
  apply set_column_row in Hr4 as (r3 & v4 & Hin4 & ->).
  destruct (apply_cardinal_combine _ _ Hca r3 v4 Hin4) as [Hnum Hnull].
  pose proof (in_combine_l _ _ _ _ Hin4) as Hr3.
  apply set_column_row in Hr3 as (r2 & v3 & Hin3 & ->).
  pose proof (mapM_combine _ _ _ _ Hwd r2 v3 Hin3) as Hdesc.
  pose proof (in_combine_l _ _ _ _ Hin3) as Hr2.
  apply set_column_row in Hr2 as (r1 & v2 & Hin2 & ->).
  pose proof (mapM_combine _ _ _ _ Hts r1 v2 Hin2) as Htime.
  apply to_datetime1_instant in Htime.
  rewrite at_set_item_same.
  rewrite !(at_set_item_other "wind_direction_cardinal") by discriminate.
  rewrite at_set_item_same.
  rewrite !(at_set_item_other "weather_description") by discriminate.
  rewrite at_set_item_same.
  rewrite !(at_set_item_other "weather_description") in Hnum, Hnull by discriminate.
  repeat split; assumption.
Qed.

Lemma forecast_rows_stay_aligned_witness :
  exists df,
    fst (Weather.get_hourly_forecast Iso8601.strptime
           (Scenario.weather (Weather.Ok Scenario.three_hours)) 72 0) = Ret df /\
    map (at_ "wind_direction_10m") (rows df)
    = [Obj (JNum 200); Obj (JNum 337.5); Obj (JNum 10)] /\
    Forall (fun r =>
              forall q, at_ "wind_direction_10m" r = Obj (JNum q) ->
                        at_ "wind_direction_cardinal" r
                        = Obj (JStr (Weather.wind_direction_cardinal (Some q))))
           (rows df).
Proof.
  eexists. split; [reflexivity|]. split; [reflexivity|].
  eapply Forall_impl;
    [|apply (forecast_rows_stay_aligned Iso8601.strptime
               (Scenario.weather (Weather.Ok Scenario.three_hours)) 72 0);
      reflexivity].
  intros r (_ & Hq & _). exact Hq.
Defined.

Lemma rename_columns (old new : string) (df df' : DataFrame) :
  rename old new df = Ret df' ->
  columns df' = map (relabel old new) (columns df) /\ len df' = len df.
Proof.
  unfold rename. destruct (_ && _); [discriminate|].
  intros H. injection H as <-. split; [reflexivity|].
  unfold len. simpl. apply length_map.
Qed.

Lemma forecast_columns strptime_utc (e : Weather.env) (n p : Z) (df : DataFrame) :
  fst (Weather.get_hourly_forecast strptime_utc e n p) = Ret df ->
  empty df = false ->
  In "timestamp" (columns df) /\ In "weather_description" (columns df) /\
  In "wind_direction_cardinal" (columns df) /\ ~ In "time" (columns df).
Proof.
  intros H He.
  destruct (forecast_steps strptime_utc e n p df H He)
    as (hourly & df0 & df1 & ts & wd & ca & _ & Hren & _ & _ & _ & ->).
  apply rename_columns in Hren as [Hcols _].
  unfold reset_index, sort_values, set_column. cbn [columns].
  repeat split.
  - do 2 apply add_label_keeps. apply add_label_has.
  - apply add_label_keeps, add_label_has.
  - apply add_label_has.
  - rewrite Hcols. intros Hin.
    assert (Hno : ~ In "time" (map (relabel "time" "timestamp") (columns df0))).
    { intros Hm. apply in_map_iff in Hm as (k & Hk & _). unfold relabel in Hk.
      destruct (String.eqb k "time") eqn:E; [discriminate|].
      apply String.eqb_neq in E. congruence. }
    unfold add_label in Hin.
    repeat match type of Hin with
           | In _ (if ?b then _ else _) => destruct b
           | In _ (_ ++ _) => apply in_app_or in Hin; destruct Hin as [Hin|Hin]
           end;
      try contradiction;
      try (destruct Hin as [Hin|[]]; discriminate).
Qed.

(** X15: a forecast of [N] hours, whatever [N], comes back as a table of [N]
    rows; when it has rows, its columns include [timestamp],
    [weather_description] and [wind_direction_cardinal] and no longer
    [time]. *)
Theorem forecast_has_one_row_per_hour :
  forall strptime_utc (e : Weather.env) (num_hours past_hours : Z) (body : json) (N : nat),
    (forall sent, Weather.get_ e sent = Weather.Ok body) ->
    Scenario.forecast_of strptime_utc body N ->
    exists df,
      fst (Weather.get_hourly_forecast strptime_utc e num_hours past_hours) = Ret df /\
      len df = N /\
      ((1 <= N)%nat ->
       In "timestamp" (columns df) /\ In "weather_description" (columns df) /\
       In "wind_direction_cardinal" (columns df) /\ ~ In "time" (columns df)).
Proof.
  intros strptime_utc e n p body N Hget Hbody.
  destruct N as [|N'].
  - destruct Hbody as (fields & hourly & cols & times & codes & bearings & -> & Hh & Hcols
                       & Hlen & Hts & Htime & _).
    assert (Hne : cols <> []) by (intros ->; discriminate).
    unfold Weather.get_hourly_forecast. cbv zeta. cbn [fst]. rewrite Hget.
    walk. cbn [negb].
    rewrite (DataFrame_of_columns_ok hourly cols 0 Hcols Hlen Hne). cbn [bind].
    assert (Hrows : zip_columns 0 cols = []).
    { apply length_zero_iff_nil. now apply zip_columns_length. }
    rewrite Hrows. unfold empty. cbn [columns rows].
    destruct (map fst cols); cbn [negb]; eexists; (split; [reflexivity|]);
      (split; [reflexivity | lia]).
  - destruct (forecast_total strptime_utc e n p body (S N') Hget Hbody) as (df & Hdf & Hl & He);
      [lia|].
    exists df. split; [exact Hdf|]. split; [exact Hl|]. intros _.
    eapply forecast_columns; eassumption.
Qed.

Lemma forecast_has_one_row_per_hour_witness :
  exists df,
    fst (Weather.get_hourly_forecast Iso8601.strptime
           (Scenario.weather (Weather.Ok Scenario.three_hours)) 72 24) = Ret df /\
    len df = 3%nat.
Proof.
  destruct (forecast_has_one_row_per_hour Iso8601.strptime
              (Scenario.weather (Weather.Ok Scenario.three_hours)) 72 24
              Scenario.three_hours 3) as (df & Hdf & Hlen & _).
  - reflexivity.
  - unfold Scenario.forecast_of, Scenario.three_hours.
    do 6 eexists.
    split; [reflexivity|]. split; [reflexivity|]. split; [reflexivity|].
    split; [repeat constructor|]. split; [reflexivity|].
    split; [reflexivity|].
    split; [repeat constructor; eexists; (split; [reflexivity | discriminate])|].
    split; [reflexivity|].
    split; [repeat constructor; eexists; reflexivity|].
    split; [reflexivity|].
    repeat constructor; eexists; reflexivity.
  - exists df. split; assumption.
Defined.

(** ** Forecast answers the [try] block does not absorb *)

Lemma add_label_only (l : list string) (name k : string) :
  In k (add_label l name) -> In k l \/ k = name.
Proof.
  unfold add_label. destruct (existsb _ l); [now left|].
  intros H. apply in_app_or in H as [H|[H|[]]]; [now left | now right].
Qed.

Lemma relabel_only (old new k : string) (l : list string) :
  In k (map (relabel old new) l) -> In k l \/ (k = new /\ In old l).
Proof.
  intros H. apply in_map_iff in H as (k' & Hk & Hin). unfold relabel in Hk.
  destruct (String.eqb k' old) eqn:E; [|left; now subst].
  apply String.eqb_eq in E. subst. now right.
Qed.

(** X16: a body without the key [hourly] gives the empty frame.  A malformed
    [hourly] block does not: arrays of different lengths raise
    [ValueError], a block without [time] raises [KeyError('timestamp')],
    and one without [weather_code] raises [KeyError('weather_code')]; none
    of them is caught by the two [except] clauses. *)
Theorem forecast_raises_on_malformed_block :
  forall strptime_utc (e : Weather.env) (num_hours past_hours : Z)
         (fields : list (string * json)),
    (forall sent, Weather.get_ e sent = Weather.Ok (JObj fields)) ->
    (lookup "hourly" fields = None ->
     fst (Weather.get_hourly_forecast strptime_utc e num_hours past_hours)
     = Ret empty_frame) /\
    (forall hourly k items rest other,
        lookup "hourly" fields = Some (JObj hourly) ->
        as_columns hourly = Some ((k, items) :: rest) ->
        In other rest -> List.length (snd other) <> List.length items ->
        fst (Weather.get_hourly_forecast strptime_utc e num_hours past_hours)
        = Raise (ValueError "All arrays must be of the same length")) /\
    (forall hourly cols N,
        lookup "hourly" fields = Some (JObj hourly) ->
        as_columns hourly = Some cols -> cols <> [] ->
        Forall (fun c => List.length (snd c) = N) cols -> (1 <= N)%nat ->
        lookup "time" cols = None -> lookup "timestamp" cols = None ->
        fst (Weather.get_hourly_forecast strptime_utc e num_hours past_hours)
        = Raise (KeyError "timestamp")) /\
    (forall hourly cols N times,
        lookup "hourly" fields = Some (JObj hourly) ->
        as_columns hourly = Some cols ->
        Forall (fun c => List.length (snd c) = N) cols -> (1 <= N)%nat ->
        lookup "time" cols = Some times -> lookup "timestamp" cols = None ->
        Forall (fun t => exists s, t = JStr s /\ strptime_utc s <> Unparseable) times ->
        lookup "weather_code" cols = None ->
        fst (Weather.get_hourly_forecast strptime_utc e num_hours past_hours)
        = Raise (KeyError "weather_code")).
Proof.
  intros strptime_utc e n p fields Hget.
  unfold Weather.get_hourly_forecast. cbv zeta. cbn [fst]. rewrite Hget.
  split; [|split; [|split]].
  - intros Hh. destruct fields as [|kv fields]; [reflexivity|].
    walk. reflexivity.
  - intros hourly k items rest other Hh Hcols Hin Hlen.
    walk. cbn [negb]. simpl DataFrame_. unfold DataFrame_of_columns. rewrite Hcols.
    replace (forallb _ rest) with false; [reflexivity|].
    symmetry. apply not_true_is_false. intros Hall.
    rewrite forallb_forall in Hall. specialize (Hall other Hin).
    apply Nat.eqb_eq in Hall. contradiction.
  - intros hourly cols N Hh Hcols Hne Hlen HN Htime Hts.
    walk. cbn [negb].
    rewrite (DataFrame_of_columns_ok hourly cols N Hcols Hlen Hne). cbn [bind].
    set (df0 := {| columns := map fst cols; rows := zip_columns N cols |}).
    assert (L0 : len df0 = N) by (apply zip_columns_length; exact Hlen).
    assert (Ctime : ~ In "time" (columns df0))
      by (pose proof (lookup_label "time" cols) as H; now rewrite Htime in H).
    assert (Cts : ~ In "timestamp" (columns df0))
      by (pose proof (lookup_label "timestamp" cols) as H; now rewrite Hts in H).
    assert (He : empty df0 = false).
    { destruct cols as [|[k0 items0] cols']; [contradiction|].
      apply (not_empty df0 k0); [now left | lia]. }
    rewrite He. cbn [negb].
    rewrite (rename_ok "time" "timestamp" df0 Cts). cbn [bind].
    unfold column. cbn [columns].
    replace (existsb _ _) with false; [reflexivity|].
    symmetry. apply has_no_label. intros Hin.
    apply relabel_only in Hin as [Hin|[_ Hin]]; contradiction.
  - intros hourly cols N times Hh Hcols Hlen HN Htime Hts Hparse Hcode.
    walk. cbn [negb].
    assert (Hne : cols <> []) by (intros ->; discriminate).
    rewrite (DataFrame_of_columns_ok hourly cols N Hcols Hlen Hne). cbn [bind].
    set (df0 := {| columns := map fst cols; rows := zip_columns N cols |}).
    assert (L0 : len df0 = N) by (apply zip_columns_length; exact Hlen).
    assert (Ctime : In "time" (columns df0))
      by (pose proof (lookup_label "time" cols) as H; now rewrite Htime in H).
    assert (Cts : ~ In "timestamp" (columns df0))
      by (pose proof (lookup_label "timestamp" cols) as H; now rewrite Hts in H).
    assert (Ccode : ~ In "weather_code" (columns df0))
      by (pose proof (lookup_label "weather_code" cols) as H; now rewrite Hcode in H).
    rewrite (not_empty df0 "time" Ctime) by lia. cbn [negb].
    rewrite (rename_ok "time" "timestamp" df0 Cts). cbn [bind].
    set (df1 := {| columns := map (relabel "time" "timestamp") (columns df0);
                   rows := map (map (fun kc => (relabel "time" "timestamp" (fst kc), snd kc)))
                               (rows df0) |}).
    assert (T1 : map (at_ "timestamp") (rows df1) = map Obj times).
    { unfold df1. simpl. rewrite map_map.
      rewrite <- (zip_columns_at N cols "time" times Hlen Htime).
      apply map_ext_in. intros r Hr. apply at_relabel_new.
      pose proof (zip_columns_without N cols "timestamp" Hts) as Hw.
      rewrite Forall_forall in Hw. now apply Hw. }
    rewrite (column_ok "timestamp" df1)
      by (apply (in_map (relabel "time" "timestamp")) in Ctime; exact Ctime).
    rewrite T1. cbn [bind].
    destruct (mapM_total (to_datetime1 strptime_utc) (map Obj times)) as [ts Hts'].
    { apply Forall_forall. intros c Hc. apply in_map_iff in Hc as (t & <- & Ht).
      rewrite Forall_forall in Hparse. destruct (Hparse t Ht) as (s & -> & Hs).
      simpl. destruct (strptime_utc s); [contradiction | eexists; reflexivity
                                        | eexists; reflexivity]. }
    unfold to_datetime. rewrite Hts'. cbn [bind].
    unfold column. cbn [columns set_column].
    replace (existsb _ _) with false; [reflexivity|].
    symmetry. apply has_no_label. intros Hin.
    apply add_label_only in Hin as [Hin|Hin]; [|discriminate].
    apply relabel_only in Hin as [Hin|[Hin _]]; [contradiction | discriminate].
Qed.

Lemma forecast_raises_on_malformed_block_witness :
  fst (Weather.get_hourly_forecast Iso8601.strptime
         (Scenario.weather
            (Weather.Ok (JObj [("hourly",
                                JObj [("time", JArr [JStr "2024-01-01T00:00";
                                                     JStr "2024-01-01T01:00"]);
                                      ("weather_code", JArr [JNum 3])])])))
         72 0)
  = Raise (ValueError "All arrays must be of the same length").
Proof.
  destruct (forecast_raises_on_malformed_block Iso8601.strptime
              (Scenario.weather
                 (Weather.Ok (JObj [("hourly",
                                     JObj [("time", JArr [JStr "2024-01-01T00:00";
                                                          JStr "2024-01-01T01:00"]);
                                           ("weather_code", JArr [JNum 3])])])))
              72 0
              [("hourly",
                JObj [("time", JArr [JStr "2024-01-01T00:00"; JStr "2024-01-01T01:00"]);
                      ("weather_code", JArr [JNum 3])])])
    as (_ & Hlengths & _ & _).
  - intros sent. reflexivity.
  - eapply (Hlengths _ "time" _ _ ("weather_code", [JNum 3])).
    + reflexivity.
    + reflexivity.
    + now left.
    + discriminate.
Defined.

(** ** The top-level sequence of the weather client *)

(** X17: when both fetches return, the sequence asks for the current weather,
    writes that table to [data/raw/current_weather_data.csv] whether or not
    it has rows, asks for 72 forecast and 24 past hours, and writes the
    forecast to [data/raw/hourly_forecast_data.csv] only when it has rows.
    The column read on line 136 is always there, so nothing else can
    raise. *)
Theorem weather_main_always_writes_current :
  forall strptime_utc (parent_dir : string) (e : Weather.env)
         (current hourly : DataFrame) (sent_current sent_hourly : list Weather.request),
    Weather.get_current_weather strptime_utc e = (Ret current, sent_current) ->
    Weather.get_hourly_forecast strptime_utc e 72 24 = (Ret hourly, sent_hourly) ->
    Weather.main strptime_utc parent_dir e
    = (Ret tt,
       map Weather.Sent sent_current
       ++ [Weather.to_csv
             (Weather.os_path_join parent_dir "data/raw/current_weather_data.csv") current]
       ++ map Weather.Sent sent_hourly
       ++ (if empty hourly then []
           else [Weather.to_csv
                   (Weather.os_path_join parent_dir "data/raw/hourly_forecast_data.csv")
                   hourly])).
Proof.
  intros strptime_utc parent_dir e current hourly sent_current sent_hourly Hc Hh.
  unfold Weather.main, Weather.and_next, Weather.call.
  rewrite Hc. cbn [fst snd]. rewrite Hh. cbn [fst snd].
  destruct (empty hourly) eqn:He; cbn [negb fst snd].
  - now rewrite !app_nil_r.
  - assert (Hts : In "timestamp" (columns hourly)).
    { eapply (forecast_columns strptime_utc e 72 24); [now rewrite Hh | exact He]. }
    rewrite (column_ok "timestamp" hourly Hts). cbn [fst snd app]. reflexivity.
Qed.

Lemma weather_main_always_writes_current_witness :
  exists asked_current asked_hourly,
    Weather.main Iso8601.strptime "/repo" (Scenario.weather (Weather.HTTPError 500 "down"))
    = (Ret tt,
       [Weather.Sent asked_current;
        Weather.to_csv "/repo/data/raw/current_weather_data.csv" empty_frame;
        Weather.Sent asked_hourly]).
Proof.
  pose proof (weather_main_always_writes_current Iso8601.strptime "/repo"
                (Scenario.weather (Weather.HTTPError 500 "down"))
                _ _ _ _ eq_refl eq_refl) as H.
  do 2 eexists. rewrite H. reflexivity.
Defined.

(** ** Weather codes *)

(** X18: each code listed on lines 54-81 is described by its own entry (no code
    is listed twice), and a number that equals no listed code (4, 2.5, -1)
    gets a missing description, not an error. *)
Theorem weather_codes_are_described :
  Forall (fun entry =>
            Weather.weather_description (Obj (JNum (inject_Z (fst entry))))
            = Ret (Obj (JStr (snd entry))))
         Weather.weather_codes /\
  forall q : Q,
    (forall code text, In (code, text) Weather.weather_codes -> ~ (q == inject_Z code)%Q) ->
    Weather.weather_description (Obj (JNum q)) = Ret NaN.
Proof.
  split.
  - unfold Weather.weather_codes. repeat constructor.
  - intros q Hq. unfold Weather.weather_description.
    destruct (find _ Weather.weather_codes) as [[code text]|] eqn:Hfind; [|reflexivity].
    apply find_some in Hfind as [Hin Heq]. cbn [fst] in Heq.
    apply Qeq_bool_iff in Heq. exfalso. exact (Hq code text Hin Heq).
Qed.

Lemma weather_codes_are_described_witness :
  Weather.weather_description (Obj (JNum 4)) = Ret NaN.
Proof.
  apply (proj2 weather_codes_are_described 4%Q).
  intros code text Hin. unfold Weather.weather_codes in Hin. simpl in Hin.
  repeat (destruct Hin as [Hin|Hin]; [injection Hin as <- <-; discriminate|]).
  contradiction.
Defined.

(** ** What the presence checks of the home queries do absorb *)

(** X19: a body that is empty, or lacks [data], or whose [data] lacks [viewer],
    makes both home queries return the empty frame: the checks of lines
    103 and 155 stop before they reach [viewer.home]. *)
Theorem home_queries_absorb_missing_outer_keys :
  forall strptime fadd (e : Energy.env) (token : string) (o : list (string * json))
         (home_id : json) (num_hours : Z),
    Energy.TIBER_TOKEN e = Some token ->
    (forall sent, Energy.post e sent = Energy.Ok (JObj o)) ->
    lookup "data" o = None \/
    (exists d, lookup "data" o = Some (JObj d) /\ lookup "viewer" d = None) ->
    fst (Energy.get_current_and_upcoming_prices strptime e home_id) = Ret empty_frame /\
    fst (Energy.get_historical_consumption strptime fadd e home_id num_hours)
    = Ret empty_frame.
Proof.
  intros strptime fadd e token o home_id num_hours Ht Hpost Hcase.
  unfold Energy.get_current_and_upcoming_prices, Energy.get_historical_consumption,
    Energy.home_present.
  cbv zeta.
  destruct (request_with_token e token Energy.prices_query
              (JObj [("homeId", home_id)]) Ht) as (s1 & ->).
  destruct (request_with_token e token Energy.consumption_query
              (JObj [("homeId", home_id); ("last", JNum (inject_Z num_hours))]) Ht)
    as (s2 & ->).
  cbn [fst]. rewrite !Hpost.
  destruct Hcase as [Hd|(d & Hd & Hv)].
  - destruct o as [|kv o]; [split; reflexivity|].
    split; walk; reflexivity.
  - split; walk; reflexivity.
Qed.

Lemma home_queries_absorb_missing_outer_keys_witness :
  fst (Energy.get_current_and_upcoming_prices Iso8601.strptime
         (Scenario.energy (Energy.Ok (JObj [("errors", JArr [])]))) (JStr "h1"))
  = Ret empty_frame.
Proof.
  eapply (proj1 (home_queries_absorb_missing_outer_keys Iso8601.strptime Qplus
                   (Scenario.energy (Energy.Ok (JObj [("errors", JArr [])])))
                   "secret" [("errors", JArr [])] (JStr "h1") 720
                   eq_refl (fun _ => eq_refl) (or_introl eq_refl))).
Defined.

(** ** Exceptions in the top-level sequences *)

(** X20: an exception raised by the price fetch, or by the consumption fetch
    after it, ends the energy sequence there: the fetches that follow are
    never requested, and what was written before stays written. *)
Theorem energy_main_stops_at_first_exception :
  forall strptime fadd (e : Energy.env) (id address1 : json) (x : exn)
         (sent_home sent_prices : list Energy.request),
    Energy.get_home_id e = (Ret (Energy.ReturnsPair id address1), sent_home) ->
    truthy id = true ->
    (Energy.get_current_and_upcoming_prices strptime e id = (Raise x, sent_prices) ->
     Energy.main strptime fadd e
     = (Raise x, map Energy.Sent sent_home ++ map Energy.Sent sent_prices)) /\
    (forall price_df sent_consumption,
        Energy.get_current_and_upcoming_prices strptime e id = (Ret price_df, sent_prices) ->
        Energy.get_historical_consumption strptime fadd e id 720
        = (Raise x, sent_consumption) ->
        Energy.main strptime fadd e
        = (Raise x,
           map Energy.Sent sent_home ++ map Energy.Sent sent_prices
           ++ (if empty price_df then [] else [Energy.to_csv Scenario.energy_csv price_df])
           ++ map Energy.Sent sent_consumption)).
Proof.
  intros strptime fadd e id address1 x sent_home sent_prices Hh Hid.
  unfold Energy.main, Energy.and_next, Energy.call, Energy.write_if_any,
    Scenario.energy_csv.
  rewrite Hh. cbn [fst snd Energy.unpack2]. rewrite Hid. split.
  - intros Hp. rewrite Hp. cbn [fst snd]. reflexivity.
  - intros price_df sent_consumption Hp Hc. rewrite Hp. cbn [fst snd]. rewrite Hc.
    destruct (empty price_df); cbn [negb fst snd]; now rewrite ?app_nil_r.
Qed.

Lemma energy_main_stops_at_first_exception_witness :
  exists asked_home asked_prices,
    Energy.main Iso8601.strptime Qplus
      (Scenario.energy_serving
         (Energy.Ok Scenario.main_street)
         (Energy.Ok Scenario.viewer_without_home)
         (Energy.Ok Scenario.one_hour_consumed)
         (Energy.Ok None_))
    = (Raise (KeyError "home"), [Energy.Sent asked_home; Energy.Sent asked_prices]).
Proof.
  pose proof (proj1 (energy_main_stops_at_first_exception Iso8601.strptime Qplus
                       (Scenario.energy_serving
                          (Energy.Ok Scenario.main_street)
                          (Energy.Ok Scenario.viewer_without_home)
                          (Energy.Ok Scenario.one_hour_consumed)
                          (Energy.Ok None_))
                       _ _ _ _ _ eq_refl eq_refl) eq_refl) as H.
  do 2 eexists. rewrite H. reflexivity.
Defined.

(** X21: an exception raised while the current weather is fetched ends the
    weather sequence before anything is written; one raised by the
    forecast that follows leaves the current-weather file written. *)
Theorem weather_main_stops_at_first_exception :
  forall strptime_utc (parent_dir : string) (e : Weather.env) (x : exn)
         (sent_current : list Weather.request),
    (Weather.get_current_weather strptime_utc e = (Raise x, sent_current) ->
     Weather.main strptime_utc parent_dir e = (Raise x, map Weather.Sent sent_current)) /\
    (forall current sent_hourly,
        Weather.get_current_weather strptime_utc e = (Ret current, sent_current) ->
        Weather.get_hourly_forecast strptime_utc e 72 24 = (Raise x, sent_hourly) ->
        Weather.main strptime_utc parent_dir e
        = (Raise x,
           map Weather.Sent sent_current
           ++ [Weather.to_csv
                 (Weather.os_path_join parent_dir "data/raw/current_weather_data.csv")
                 current]
           ++ map Weather.Sent sent_hourly)).
Proof.
  intros strptime_utc parent_dir e x sent_current.
  unfold Weather.main, Weather.and_next, Weather.call. split.
  - intros Hc. rewrite Hc. reflexivity.
  - intros current sent_hourly Hc Hh. rewrite Hc. cbn [fst snd]. rewrite Hh.
    cbn [fst snd]. reflexivity.
Qed.

Lemma weather_main_stops_at_first_exception_witness :
  exists asked,
    Weather.main Iso8601.strptime "/repo"
      (Scenario.weather
         (Weather.Ok (JObj [("hourly", JObj [("weather_code", JArr [JNum 3])])])))
    = (Raise (KeyError "timestamp"), [Weather.Sent asked]).
Proof.
  pose proof (proj1 (weather_main_stops_at_first_exception Iso8601.strptime "/repo"
                       (Scenario.weather
                          (Weather.Ok (JObj [("hourly",
                                              JObj [("weather_code", JArr [JNum 3])])])))
                       _ _) eq_refl) as H.
  eexists. rewrite H. reflexivity.
Defined.

(** * Timestamps of the returned tables *)

(** ** What a parsed column holds *)

Lemma to_datetime1_reads strptime (c c' : cell) :
  to_datetime1 strptime c = Ret c' ->
  when_ c' = instant_of strptime c /\ is_datetime c'.
Proof.
  unfold is_datetime.
  destruct c as [[| | |s| |]| | |]; simpl; try discriminate.
  - intros H. injection H as <-. split; [reflexivity | now left].
  - destruct (strptime s); try discriminate; intros H; injection H as <-.
    + split; [reflexivity | now left].
    + split; [reflexivity | right; eexists; reflexivity].
  - intros H. injection H as <-. split; [reflexivity | now left].
  - intros H. injection H as <-. split; [reflexivity | right; eexists; reflexivity].
  - intros H. injection H as <-. split; [reflexivity | now left].
Qed.

Lemma to_datetime_reads strptime (series parsed_series : list cell) :
  to_datetime strptime series = Ret parsed_series ->
  map when_ parsed_series = map (instant_of strptime) series /\
  Forall is_datetime parsed_series /\
  List.length parsed_series = List.length series.
Proof.
  unfold to_datetime. revert parsed_series.
  induction series as [|c series IH]; simpl; intros ps H.
  - injection H as <-. repeat split. constructor.
  - bind_inv H c' Hc. bind_inv H cs Hcs. injection H as <-.
    destruct (to_datetime1_reads strptime c c' Hc) as [Hw Hd].
    destruct (IH cs Hcs) as (Hmap & Hall & Hlen).
    simpl. repeat split; [congruence | now constructor | congruence].
Qed.

Lemma stamps_of_column (name : string) (rs : list row) :
  map (stamp name) rs = map when_ (map (at_ name) rs).
Proof. now rewrite map_map. Qed.

Lemma sort_values_stamps (name : string) (df : DataFrame) :
  Permutation (map (stamp name) (rows (reset_index (sort_values name df))))
              (map (stamp name) (rows df)).
Proof. apply Permutation_map, sort_by_perm. Qed.

Lemma sort_values_cells (name k : string) (df : DataFrame) :
  Permutation (map (at_ k) (rows (reset_index (sort_values name df))))
              (map (at_ k) (rows df)).
Proof. apply Permutation_map, sort_by_perm. Qed.

Lemma apply_cardinal_length (series labels : list cell) :
  Weather.apply_cardinal series = Ret labels ->
  List.length labels = List.length series.
Proof.
  unfold Weather.apply_cardinal. destruct (is_numeric series).
  - intros H. injection H as <-. apply length_map.
  - apply mapM_length.
Qed.

Lemma getitem_Ret (x : json) (k : string) (v : json) :
  getitem x k = Ret v -> exists fields, x = JObj fields /\ lookup k fields = Some v.
Proof.
  destruct x as [| | | | |fields]; simpl; try discriminate.
  destruct (lookup k fields) as [v'|] eqn:E; [|discriminate].
  intros H. injection H as <-. now exists fields.
Qed.

Lemma as_columns_lookup (fields : list (string * json)) (cols : list (string * list json))
      (k : string) :
  as_columns fields = Some cols ->
  lookup k cols = match lookup k fields with
                  | Some (JArr items) => Some items
                  | _ => None
                  end.
Proof.
  revert cols. induction fields as [|[k' v] fields IH]; simpl; intros cols H.
  - injection H as <-. reflexivity.
  - destruct v as [| | | |items|]; try discriminate.
    destruct (as_columns fields) as [cols'|]; [|discriminate].
    injection H as <-. simpl. destruct (String.eqb k k'); [reflexivity|].
    now apply IH.
Qed.

Lemma as_columns_all_arrays (fields : list (string * json)) (cols : list (string * list json))
      (k : string) (v : json) :
  as_columns fields = Some cols -> lookup k fields = Some v ->
  exists items, v = JArr items.
Proof.
  revert cols. induction fields as [|[k' v'] fields IH]; simpl; intros cols H; [discriminate|].
  destruct v' as [| | | |items|]; try discriminate.
  destruct (as_columns fields) as [cols'|]; [|discriminate].
  destruct (String.eqb k k').
  - intros Hv. injection Hv as <-. now exists items.
  - intros Hv. eapply IH; [reflexivity | exact Hv].
Qed.

Lemma DataFrame_of_columns_inv (fields : list (string * json)) (df : DataFrame) :
  DataFrame_ (JObj fields) = Ret df ->
  exists cols n,
    as_columns fields = Some cols /\
    Forall (fun c => List.length (snd c) = n) cols /\
    columns df = map fst cols /\ rows df = zip_columns n cols.
Proof.
  simpl. unfold DataFrame_of_columns.
  destruct (as_columns fields) as [[|[k items] rest]|]; [| |discriminate].
  - intros H. injection H as <-. exists [], 0%nat. repeat split. constructor.
  - destruct (forallb _ rest) eqn:Hall; [|discriminate].
    intros H. injection H as <-.
    exists ((k, items) :: rest), (List.length items). repeat split.
    constructor; [reflexivity|].
    apply Forall_forall. intros c Hc. rewrite forallb_forall in Hall.
    now apply Nat.eqb_eq, Hall.
Qed.

Lemma rename_inv (old new : string) (df df' : DataFrame) :
  rename old new df = Ret df' ->
  df' = {| columns := map (relabel old new) (columns df);
           rows := map (map (fun kc => (relabel old new (fst kc), snd kc))) (rows df) |} /\
  (In old (columns df) -> ~ In new (columns df)).
Proof.
  unfold rename.
  destruct (existsb (String.eqb old) (columns df)) eqn:Eo;
    destruct (existsb (String.eqb new) (columns df)) eqn:En; simpl; try discriminate;
    intros H; injection H as <-; (split; [reflexivity|]); intros Hin.
  - now apply has_no_label.
  - apply has_no_label in Eo. contradiction.
  - now apply has_no_label.
Qed.

(** ** The forecast, from the response to the table *)

(** How a forecast table with rows came out of the body the service sent. *)
Lemma forecast_steps_of strptime_utc (e : Weather.env) (n p : Z) (body : json)
      (df : DataFrame) :
  (forall sent, Weather.get_ e sent = Weather.Ok body) ->
  fst (Weather.get_hourly_forecast strptime_utc e n p) = Ret df ->
  empty df = false ->
  exists hourly df0 df1 timestamp description cardinal,
    getitem body "hourly" = Ret hourly /\
    DataFrame_ hourly = Ret df0 /\
    rename "time" "timestamp" df0 = Ret df1 /\
    to_datetime strptime_utc (map (at_ "timestamp") (rows df1)) = Ret timestamp /\
    let df2 := set_column "timestamp" timestamp df1 in
    mapM Weather.weather_description (map (at_ "weather_code") (rows df2))
    = Ret description /\
    let df3 := set_column "weather_description" description df2 in
    Weather.apply_cardinal (map (at_ "wind_direction_10m") (rows df3)) = Ret cardinal /\
    df = reset_index (sort_values "timestamp"
           (set_column "wind_direction_cardinal" cardinal df3)).
Proof.
  intros Hget. unfold Weather.get_hourly_forecast. cbv zeta. cbn [fst].
  rewrite Hget. intros H He.
  bind_inv H no_hourly Hno. destruct no_hourly; [injection H as <-; discriminate|].
  bind_inv H hourly Hh. bind_inv H df0 Hdf0.
  destruct (empty df0) eqn:He0; cbn [negb] in H; [injection H as <-; congruence|].
  bind_inv H df1 Hdf1. bind_inv H c Hc. bind_inv H ts Hts.
  bind_inv H wc Hwc. bind_inv H wd Hwd. bind_inv H w Hw. bind_inv H ca Hca.
  injection H as <-.
  apply column_values in Hc, Hwc, Hw. subst c wc w.
  exists hourly, df0, df1, ts, wd, ca. repeat split; assumption.
Qed.

(** The columns of a forecast table with rows, against the arrays of the
    response: the [timestamp] cells are the parsed [time] strings, every
    array the code does not derive is kept, and the compass labels are
    those the lambda gives for the cells of [wind_direction_10m]; all up
    to the one reordering of the rows by the sort. *)
Lemma forecast_run strptime_utc (e : Weather.env) (n p : Z) (body : json)
      (times : list json) (df : DataFrame) :
  (forall sent, Weather.get_ e sent = Weather.Ok body) ->
  subscript body ["hourly"; "time"] = Ret (JArr times) ->
  fst (Weather.get_hourly_forecast strptime_utc e n p) = Ret df ->
  empty df = false ->
  exists unsorted timestamp,
    rows df = sort_by (stamp "timestamp") unsorted /\
    List.length unsorted = List.length times /\
    map (at_ "timestamp") unsorted = timestamp /\
    map when_ timestamp = map (fun t => instant_of strptime_utc (Obj t)) times /\
    Forall is_datetime timestamp /\
    (forall k items,
        subscript body ["hourly"; k] = Ret (JArr items) ->
        k <> "time" -> k <> "timestamp" -> k <> "weather_description" ->
        k <> "wind_direction_cardinal" ->
        map (at_ k) unsorted = map Obj items) /\
    exists cardinal,
      map (at_ "wind_direction_cardinal") unsorted = cardinal /\
      Weather.apply_cardinal (map (at_ "wind_direction_10m") unsorted) = Ret cardinal.
Proof.
  intros Hget Hsub Hret He.
  destruct (forecast_steps_of strptime_utc e n p body df Hget Hret He)
    as (hourly & df0 & df1 & ts & wd & ca & Hh & Hdf0 & Hren & Hts & Hwd & Hca & ->).
  cbv zeta in Hwd, Hca.
  simpl in Hsub. rewrite Hh in Hsub. cbn [bind] in Hsub.
  bind_inv Hsub tv Htime. injection Hsub as ->.
  apply getitem_Ret in Htime as (h & -> & Htime).
  apply DataFrame_of_columns_inv in Hdf0 as (cols & N & Hcols & Hlen & Hc0 & Hr0).
  assert (Htimec : lookup "time" cols = Some times)
    by (rewrite (as_columns_lookup h cols "time" Hcols), Htime; reflexivity).
  apply rename_inv in Hren as [-> Hnew].
  assert (Ctime : In "time" (columns df0)).
  { rewrite Hc0. pose proof (lookup_label "time" cols) as H. now rewrite Htimec in H. }
  specialize (Hnew Ctime).
  assert (Htsc : lookup "timestamp" cols = None).
  { pose proof (lookup_label "timestamp" cols) as H.
    destruct (lookup "timestamp" cols); [|reflexivity].
    rewrite Hc0 in Hnew. contradiction. }
  set (df1 := {| columns := map (relabel "time" "timestamp") (columns df0);
                 rows := map (map (fun kc => (relabel "time" "timestamp" (fst kc), snd kc)))
                             (rows df0) |}) in *.
  assert (L1 : len df1 = N).
  { unfold len, df1. cbn [rows]. rewrite length_map, Hr0. now apply zip_columns_length. }
  assert (T1 : map (at_ "timestamp") (rows df1) = map Obj times).
  { unfold df1. cbn [rows]. rewrite map_map, Hr0.
    rewrite <- (zip_columns_at N cols "time" times Hlen Htimec).
    apply map_ext_in. intros r Hr. apply at_relabel_new.
    pose proof (zip_columns_without N cols "timestamp" Htsc) as Hw.
    rewrite Forall_forall in Hw. now apply Hw. }
  assert (V1 : forall k items, lookup k cols = Some items ->
                               k <> "time" -> k <> "timestamp" ->
                               map (at_ k) (rows df1) = map Obj items).
  { intros k items Hk H1 H2. unfold df1. cbn [rows]. rewrite map_map, Hr0.
    rewrite <- (zip_columns_at N cols k items Hlen Hk).
    apply map_ext. intros r. now apply at_relabel_other. }
  rewrite T1 in Hts.
  destruct (to_datetime_reads strptime_utc _ _ Hts) as (Hwhen & Hdt & Lts).
  rewrite map_map in Hwhen.
  assert (LN : List.length times = N).
  { rewrite <- (length_map Obj). eapply column_height; eassumption. }
  rewrite length_map in Lts.
  set (df2 := set_column "timestamp" ts df1) in *.
  assert (L2 : len df2 = N) by (unfold df2; rewrite set_column_length; congruence).
  assert (Lwd : List.length wd = len df2).
  { apply mapM_length in Hwd. rewrite Hwd, length_map. reflexivity. }
  set (df3 := set_column "weather_description" wd df2) in *.
  assert (L3 : len df3 = N) by (unfold df3; rewrite set_column_length; congruence).
  assert (Lca : List.length ca = len df3).
  { apply apply_cardinal_length in Hca. rewrite Hca, length_map. reflexivity. }
  set (df4 := set_column "wind_direction_cardinal" ca df3).
  assert (L4 : len df4 = N) by (unfold df4; rewrite set_column_length; congruence).
  exists (rows df4), ts.
  split; [reflexivity|]. split; [unfold len in L4; congruence|].
  split.
  { unfold df4. rewrite set_column_other; [|discriminate|exact Lca].
    unfold df3. rewrite set_column_other; [|discriminate|exact Lwd].
    unfold df2. apply set_column_same. congruence. }
  split; [exact Hwhen|]. split; [exact Hdt|]. split.
  { intros k items Hk H1 H2 H3 H4.
    simpl in Hk. rewrite Hh in Hk. cbn [bind] in Hk.
    bind_inv Hk kv Hkv. injection Hk as ->. simpl in Hkv.
    destruct (lookup k h) as [v|] eqn:Hlk; [|discriminate]. injection Hkv as ->.
    assert (Hkc : lookup k cols = Some items)
      by (rewrite (as_columns_lookup h cols k Hcols), Hlk; reflexivity).
    unfold df4. rewrite set_column_other; [|assumption|exact Lca].
    unfold df3. rewrite set_column_other; [|assumption|exact Lwd].
    unfold df2. rewrite set_column_other; [|assumption|congruence].
    now apply V1. }
  exists ca. split.
  - unfold df4. apply set_column_same. congruence.
  - unfold df4. rewrite set_column_other; [exact Hca|discriminate|exact Lca].
Qed.

Lemma forecast_time_array strptime_utc (body : json) (N : nat) :
  Scenario.forecast_of strptime_utc body N ->
  exists times bearings,
    subscript body ["hourly"; "time"] = Ret (JArr times) /\
    subscript body ["hourly"; "wind_direction_10m"] = Ret (JArr bearings) /\
    List.length times = N /\ List.length bearings = N.
Proof.
  intros (fields & hourly & cols & times & codes & bearings & -> & Hh & Hcols
          & Hlen & Hts & Htime & Hparse & Hcode & Hnum & Hwind & Hnumw).
  exists times, bearings.
  pose proof (as_columns_lookup hourly cols "time" Hcols) as Ht.
  pose proof (as_columns_lookup hourly cols "wind_direction_10m" Hcols) as Hw.
  rewrite Htime in Ht. rewrite Hwind in Hw.
  destruct (lookup "time" hourly) as [[| | | |items|]|] eqn:E1; try discriminate.
  destruct (lookup "wind_direction_10m" hourly) as [[| | | |items'|]|] eqn:E2;
    try discriminate.
  injection Ht as ->. injection Hw as ->.
  simpl. rewrite Hh. simpl. rewrite E1, E2. simpl.
  repeat split.
  - rewrite <- (length_map Obj). eapply column_height; eassumption.
  - rewrite <- (length_map Obj). eapply column_height; eassumption.
Qed.

(** ** The compass column of the forecast *)

Lemma forecast_row_cardinal strptime_utc (e : Weather.env) (n p : Z) (df : DataFrame) :
  fst (Weather.get_hourly_forecast strptime_utc e n p) = Ret df ->
  empty df = false ->
  Forall (fun r => forall q, at_ "wind_direction_10m" r = Obj (JNum q) ->
                             at_ "wind_direction_cardinal" r
                             = Obj (JStr (Weather.wind_direction_cardinal (Some q))))
         (rows df).
Proof.
  intros H He.
  destruct (forecast_steps strptime_utc e n p df H He)
    as (hourly & df0 & df1 & ts & wd & ca & _ & _ & _ & _ & Hca & ->).
  cbv zeta in Hca.
  unfold reset_index, sort_values. cbn [rows].
  eapply Permutation_Forall; [symmetry; apply sort_by_perm|].
  apply Forall_forall. intros r4 Hr4.
  apply set_column_row in Hr4 as (r3 & v4 & Hin4 & ->).
  destruct (apply_cardinal_combine _ _ Hca r3 v4 Hin4) as [Hnum _].
  intros q Hq. rewrite at_set_item_same.
  rewrite (at_set_item_other "wind_direction_cardinal") in Hq by discriminate.
  now apply Hnum.
Qed.

(** C8: the [wind_direction_cardinal] column of the table
    [get_hourly_forecast] returns holds, in each row whose
    [wind_direction_10m] is a bearing d in [0, 360], the label of every row
    [lo <= d < hi] of the boundary table (N for [337.5, 360) and [0, 22.5),
    NE, E, SE, S, SW, W, NW in steps of 45 degrees from 22.5); on a
    forecast of N >= 1 hours the table has N rows and its
    [wind_direction_10m] column holds the bearings of the response.  The
    lambda the column is computed with agrees with the table on all of
    [0, 360], and the table covers every bearing below 360. *)
Theorem wind_direction_matches_table :
  (forall d : Q, (0 <= d)%Q -> (d <= 360)%Q ->
     (forall lo hi label,
         In (lo, hi, label) Weather.compass_table -> Weather.within lo hi d ->
         Weather.wind_direction_cardinal (Some d) = label) /\
     ((d < 360)%Q ->
      exists lo hi label,
        In (lo, hi, label) Weather.compass_table /\ Weather.within lo hi d) /\
     Weather.wind_direction_cardinal (Some 10%Q) = "N" /\
     Weather.wind_direction_cardinal (Some 200%Q) = "S" /\
     Weather.wind_direction_cardinal (Some 337.5%Q) = "N" /\
     Weather.wind_direction_cardinal (Some 22.5%Q) = "NE") /\
  (forall strptime_utc (e : Weather.env) (num_hours past_hours : Z) (df : DataFrame),
      fst (Weather.get_hourly_forecast strptime_utc e num_hours past_hours) = Ret df ->
      empty df = false ->
      Forall (fun r =>
                forall d, at_ "wind_direction_10m" r = Obj (JNum d) ->
                          (0 <= d)%Q -> (d <= 360)%Q ->
                          forall lo hi label,
                            In (lo, hi, label) Weather.compass_table ->
                            Weather.within lo hi d ->
                            at_ "wind_direction_cardinal" r = Obj (JStr label))
             (rows df)) /\
  (forall strptime_utc (e : Weather.env) (num_hours past_hours : Z) (body : json) (N : nat),
      (forall sent, Weather.get_ e sent = Weather.Ok body) ->
      Scenario.forecast_of strptime_utc body N ->
      (1 <= N)%nat ->
      exists df bearings,
        subscript body ["hourly"; "wind_direction_10m"] = Ret (JArr bearings) /\
        fst (Weather.get_hourly_forecast strptime_utc e num_hours past_hours) = Ret df /\
        len df = N /\
        Permutation (map (at_ "wind_direction_10m") (rows df)) (map Obj bearings)).
Proof.
  split; [exact wind_direction_lambda_matches_table|]. split.
  - intros strptime_utc e n p df H He.
    eapply Forall_impl; [|eapply forecast_row_cardinal; eassumption].
    cbv beta. intros r Hr d Hd H0 H360 lo hi label Hin Hw.
    rewrite (Hr d Hd). do 2 f_equal.
    destruct (wind_direction_lambda_matches_table d H0 H360) as [Ht _].
    eapply Ht; eassumption.
  - intros strptime_utc e n p body N Hget Hbody HN.
    destruct (forecast_total strptime_utc e n p body N Hget Hbody HN)
      as (df & Hdf & Hlen & He).
    destruct (forecast_time_array strptime_utc body N Hbody)
      as (times & bearings & Ht & Hb & _ & _).
    destruct (forecast_run strptime_utc e n p body times df Hget Ht Hdf He)
      as (unsorted & ts & Hrows & _ & _ & _ & _ & Hkeep & _).
    exists df, bearings. repeat split; try assumption.
    rewrite Hrows, <- (Hkeep "wind_direction_10m" bearings Hb) by discriminate.
    apply Permutation_map, sort_by_perm.
Qed.

Lemma wind_direction_matches_table_witness :
  exists df,
    fst (Weather.get_hourly_forecast Iso8601.strptime
           (Scenario.weather (Weather.Ok Scenario.four_bearings)) 72 24) = Ret df /\
    map (at_ "wind_direction_10m") (rows df)
    = [Obj (JNum 10); Obj (JNum 200); Obj (JNum 337.5); Obj (JNum 22.5)] /\
    map (at_ "wind_direction_cardinal") (rows df)
    = [Obj (JStr "N"); Obj (JStr "S"); Obj (JStr "N"); Obj (JStr "NE")] /\
    Forall (fun r =>
              forall d, at_ "wind_direction_10m" r = Obj (JNum d) ->
                        (0 <= d)%Q -> (d <= 360)%Q ->
                        forall lo hi label,
                          In (lo, hi, label) Weather.compass_table ->
                          Weather.within lo hi d ->
                          at_ "wind_direction_cardinal" r = Obj (JStr label))
           (rows df).
Proof.
  eexists. split; [reflexivity|]. split; [reflexivity|]. split; [reflexivity|].
  apply (proj1 (proj2 wind_direction_matches_table) Iso8601.strptime
           (Scenario.weather (Weather.Ok Scenario.four_bearings)) 72 24);
    reflexivity.
Defined.

(** ** The current weather *)

Lemma current_weather_reads strptime_utc (w : Weather.env) (body : json)
      (times : list json) (df : DataFrame) :
  (forall sent, Weather.get_ w sent = Weather.Ok body) ->
  subscript body ["hourly"; "time"] = Ret (JArr times) ->
  fst (Weather.get_hourly_forecast strptime_utc w 1 0) = Ret df ->
  empty df = false ->
  exists r rest,
    rows df = r :: rest /\
    fst (Weather.get_current_weather strptime_utc w)
    = Ret {| columns := columns df; rows := [r] |} /\
    Forall (fun r' => stamp_leb (stamp "timestamp" r) (stamp "timestamp" r') = true) rest /\
    Forall (fun r' => is_datetime (at_ "timestamp" r')) (r :: rest) /\
    Permutation (map (stamp "timestamp") (r :: rest))
                (map (fun t => instant_of strptime_utc (Obj t)) times) /\
    Forall (fun t => stamp_leb (stamp "timestamp" r) (instant_of strptime_utc (Obj t)) = true)
           times.
Proof.
  intros Hget Ht Hdf He.
  destruct (current_weather_of_forecast strptime_utc w df Hdf He)
    as (r & rest & Hrows & Hcur & Hmin).
  destruct (forecast_run strptime_utc w 1 0 body times df Hget Ht Hdf He)
    as (unsorted & ts & Hsort & _ & Hcol & Hwhen & Hdt & _).
  assert (Hperm : Permutation (map (stamp "timestamp") (r :: rest))
                    (map (fun t => instant_of strptime_utc (Obj t)) times)).
  { rewrite <- Hrows, Hsort, <- Hwhen, <- Hcol, map_map.
    apply Permutation_map, sort_by_perm. }
  exists r, rest. repeat split; try assumption.
  - rewrite <- Hrows, Hsort.
    eapply Permutation_Forall; [symmetry; apply sort_by_perm|].
    rewrite <- Hcol in Hdt. now rewrite Forall_map in Hdt.
  - apply (proj1 (Forall_map (fun t => instant_of strptime_utc (Obj t))
                    (fun i => stamp_leb (stamp "timestamp" r) i = true) times)).
    eapply Permutation_Forall; [exact Hperm|].
    apply Forall_map. constructor; [apply stamp_leb_refl | exact Hmin].
Qed.

(** C9: on a forecast of N >= 1 hours [get_current_weather] returns one
    row, the first row of the table [get_hourly_forecast(1, 0)] returns,
    with every column of that table.  The [timestamp] cells of that table
    are instants or NaT, they are the instants the [time] strings of the
    response name, and the row returned holds one that is no later than
    any of them.  When the forecast table is empty the empty frame is
    returned. *)
Theorem current_weather_is_first_forecast_row :
  forall strptime_utc (w : Weather.env),
    (forall body N,
        (forall sent, Weather.get_ w sent = Weather.Ok body) ->
        Scenario.forecast_of strptime_utc body N ->
        (1 <= N)%nat ->
        exists df r rest current times,
          fst (Weather.get_hourly_forecast strptime_utc w 1 0) = Ret df /\
          len df = N /\ rows df = r :: rest /\
          fst (Weather.get_current_weather strptime_utc w) = Ret current /\
          len current = 1%nat /\
          current = {| columns := columns df; rows := [r] |} /\
          Forall (fun r' => stamp_leb (stamp "timestamp" r) (stamp "timestamp" r') = true)
                 rest /\
          subscript body ["hourly"; "time"] = Ret (JArr times) /\
          Forall (fun r' => is_datetime (at_ "timestamp" r')) (r :: rest) /\
          Permutation (map (stamp "timestamp") (r :: rest))
                      (map (fun t => instant_of strptime_utc (Obj t)) times) /\
          Forall (fun t => stamp_leb (stamp "timestamp" r)
                                     (instant_of strptime_utc (Obj t)) = true)
                 times) /\
    (forall body times df,
        (forall sent, Weather.get_ w sent = Weather.Ok body) ->
        subscript body ["hourly"; "time"] = Ret (JArr times) ->
        fst (Weather.get_hourly_forecast strptime_utc w 1 0) = Ret df ->
        empty df = false ->
        exists r rest,
          rows df = r :: rest /\
          fst (Weather.get_current_weather strptime_utc w)
          = Ret {| columns := columns df; rows := [r] |} /\
          Forall (fun r' => stamp_leb (stamp "timestamp" r) (stamp "timestamp" r') = true)
                 rest /\
          Forall (fun r' => is_datetime (at_ "timestamp" r')) (r :: rest) /\
          Permutation (map (stamp "timestamp") (r :: rest))
                      (map (fun t => instant_of strptime_utc (Obj t)) times) /\
          Forall (fun t => stamp_leb (stamp "timestamp" r)
                                     (instant_of strptime_utc (Obj t)) = true)
                 times) /\
    (forall df,
        fst (Weather.get_hourly_forecast strptime_utc w 1 0) = Ret df ->
        empty df = false ->
        exists r rest,
          rows df = r :: rest /\
          fst (Weather.get_current_weather strptime_utc w)
          = Ret {| columns := columns df; rows := [r] |} /\
          Forall (fun r' => stamp_leb (stamp "timestamp" r) (stamp "timestamp" r') = true)
                 rest) /\
    (forall df,
        fst (Weather.get_hourly_forecast strptime_utc w 1 0) = Ret df ->
        empty df = true ->
        fst (Weather.get_current_weather strptime_utc w) = Ret empty_frame).
Proof.
  intros strptime_utc w. split; [|split; [|split]].
  - intros body N Hget Hbody HN.
    destruct (forecast_total strptime_utc w 1 0 body N Hget Hbody HN)
      as (df & Hdf & Hlen & He).
    destruct (forecast_time_array strptime_utc body N Hbody)
      as (times & bearings & Ht & _).
    destruct (current_weather_reads strptime_utc w body times df Hget Ht Hdf He)
      as (r & rest & Hrows & Hcur & Hmin & Hdt & Hperm & Hfirst).
    exists df, r, rest, {| columns := columns df; rows := [r] |}, times.
    repeat split; assumption.
  - apply current_weather_reads.
  - apply current_weather_of_forecast.
  - intros df Hdf He. unfold Weather.get_current_weather. cbn [fst].
    rewrite Hdf. cbn [bind]. now rewrite He.
Qed.

Lemma current_weather_is_first_forecast_row_witness :
  (exists df r rest current times,
      fst (Weather.get_hourly_forecast Iso8601.strptime
             (Scenario.weather (Weather.Ok Scenario.three_hours)) 1 0) = Ret df /\
      len df = 3%nat /\ rows df = r :: rest /\
      fst (Weather.get_current_weather Iso8601.strptime
             (Scenario.weather (Weather.Ok Scenario.three_hours))) = Ret current /\
      len current = 1%nat /\
      current = {| columns := columns df; rows := [r] |} /\
      Forall (fun r' => stamp_leb (stamp "timestamp" r) (stamp "timestamp" r') = true) rest /\
      subscript Scenario.three_hours ["hourly"; "time"] = Ret (JArr times) /\
      Forall (fun r' => is_datetime (at_ "timestamp" r')) (r :: rest) /\
      Permutation (map (stamp "timestamp") (r :: rest))
                  (map (fun t => instant_of Iso8601.strptime (Obj t)) times) /\
      Forall (fun t => stamp_leb (stamp "timestamp" r)
                                 (instant_of Iso8601.strptime (Obj t)) = true)
             times) /\
  (exists current,
      fst (Weather.get_current_weather Iso8601.strptime
             (Scenario.weather (Weather.Ok Scenario.three_hours))) = Ret current /\
      map (at_ "timestamp") (rows current) = [Timestamp 1704067200] /\
      map (at_ "weather_code") (rows current) = [Obj (JNum 61)] /\
      map (fun t => instant_of Iso8601.strptime (Obj t))
          [JStr "2024-01-01T02:00"; JStr "2024-01-01T00:00"; JStr "2024-01-01T01:00"]
      = [Some 1704074400; Some 1704067200; Some 1704070800]).
Proof.
  split.
  - apply (proj1 (current_weather_is_first_forecast_row Iso8601.strptime
                    (Scenario.weather (Weather.Ok Scenario.three_hours)))
             Scenario.three_hours 3%nat).
    + reflexivity.
    + unfold Scenario.forecast_of, Scenario.three_hours.
      do 6 eexists.
      split; [reflexivity|]. split; [reflexivity|]. split; [reflexivity|].
      split; [repeat constructor|]. split; [reflexivity|].
      split; [reflexivity|].
      split; [repeat constructor; eexists; (split; [reflexivity | discriminate])|].
      split; [reflexivity|].
      split; [repeat constructor; eexists; reflexivity|].
      split; [reflexivity|].
      repeat constructor; eexists; reflexivity.
    + lia.
  - eexists. split; [reflexivity|]. repeat split.
Defined.

(** ** The energy tables, from the response to the table *)

Lemma as_records_map (l : list (list (string * json))) : as_records (map JObj l) = Some l.
Proof. induction l as [|r l IH]; simpl; [reflexivity|]. now rewrite IH. Qed.

Lemma DataFrame_of_entries (l : list (list (string * json))) :
  exists df0,
    DataFrame_ (JArr (map JObj l)) = Ret df0 /\
    rows df0 = map (map (fun kv => (fst kv, Obj (snd kv)))) l.
Proof.
  simpl. unfold DataFrame_of_records. rewrite as_records_map.
  eexists. split; reflexivity.
Qed.

Lemma at_record (name : string) (record : list (string * json)) :
  at_ name (map (fun kv => (fst kv, Obj (snd kv))) record)
  = match lookup name record with Some v => Obj v | None => NaN end.
Proof.
  unfold at_. induction record as [|[k v] record IH]; simpl; [reflexivity|].
  destruct (String.eqb name k); [reflexivity | exact IH].
Qed.

Lemma instant_of_record strptime (name : string) (record : list (string * json)) :
  instant_of strptime (at_ name (map (fun kv => (fst kv, Obj (snd kv))) record))
  = instant_at strptime name record.
Proof.
  rewrite at_record. unfold instant_at. now destruct (lookup name record).
Qed.

Lemma map_filter_key {A B} (f : A -> B) (p : B -> bool) (l : list A) :
  map f (filter (fun a => p (f a)) l) = filter p (map f l).
Proof.
  induction l as [|a l IH]; simpl; [reflexivity|].
  destruct (p (f a)); simpl; now rewrite IH.
Qed.

Lemma keep_first_map {A B} (f : A -> B) (key : B -> option Z) (l : list A) :
  map f (keep_first (fun a => key (f a)) l) = keep_first key (map f l).
Proof.
  induction l as [|a l IH]; simpl; [reflexivity|].
  f_equal. rewrite <- IH.
  apply (map_filter_key f (fun b => negb (stamp_eqb (key b) (key (f a))))).
Qed.

Lemma extend_or_skip (prices items : list json) :
  (if truthy (JArr items)
   then extend prices (JArr items)
   else Ret prices) = Ret (prices ++ items).
Proof. destruct items; simpl; [now rewrite app_nil_r | reflexivity]. Qed.

Lemma guarded_home_present (body : json) (home : list (string * json)) :
  Scenario.guarded_home body home ->
  Energy.home_present body = Ret true /\
  subscript body ["data"; "viewer"; "home"] = Ret (JObj home).
Proof.
  intros (o & d & v & -> & Hd & Hv & Hh & Hk).
  unfold Energy.home_present. split.
  - walk. simpl. now rewrite Hk.
  - walk. reflexivity.
Qed.

Lemma subscript_app (x : json) (keys keys' : list string) :
  subscript x (keys ++ keys') = (v <- subscript x keys ;; subscript v keys').
Proof.
  revert x. induction keys as [|k keys IH]; intros x; simpl; [reflexivity|].
  destruct (getitem x k); simpl; [apply IH | reflexivity | reflexivity].
Qed.

(** With a token and a guarded home that carries the three price blocks,
    a returned table with rows is the frame of the entries current, today,
    tomorrow in that order, with [startsAt] parsed entry by entry, repeated
    instants dropped after their first row, and sorted. *)
Lemma prices_run strptime (e : Energy.env) (token : string) (home_id body : json)
      (home current : list (string * json))
      (today tomorrow : list (list (string * json))) (df : DataFrame) :
  Energy.TIBER_TOKEN e = Some token ->
  (forall sent, Energy.post e sent = Energy.Ok body) ->
  Scenario.guarded_home body home ->
  Scenario.price_blocks home current today tomorrow ->
  fst (Energy.get_current_and_upcoming_prices strptime e home_id) = Ret df ->
  empty df = false ->
  let collected := current :: today ++ tomorrow in
  exists startsAt,
    List.length startsAt = List.length collected /\
    map when_ startsAt = map (instant_at strptime "startsAt") collected /\
    Forall is_datetime startsAt /\
    rows df = sort_by (stamp "startsAt")
                (keep_first (stamp "startsAt")
                   (map (fun rc => set_item "startsAt" (snd rc)
                                     (map (fun kv => (fst kv, Obj (snd kv))) (fst rc)))
                        (combine collected startsAt))).
Proof.
  intros Htok Hpost Hg (sub & pinfo & Hsub & Hpi & Hcur & Hne & Htoday & Htomorrow) H He.
  destruct (guarded_home_present body home Hg) as [Hpresent Hhome].
  cbv zeta.
  unfold Energy.get_current_and_upcoming_prices in H. cbv zeta in H. cbn [fst] in H.
  unfold Energy._make_graphql_request in H. rewrite Htok in H. cbn [fst] in H.
  rewrite Hpost in H. cbn [bind] in H.
  rewrite Hpresent in H. cbn [bind] in H.
  change ["data"; "viewer"; "home"; "currentSubscription"; "priceInfo"]
    with (["data"; "viewer"; "home"] ++ ["currentSubscription"; "priceInfo"]) in H.
  rewrite subscript_app, Hhome in H. cbn [bind subscript] in H.
  rewrite (getitem_lookup _ _ _ Hsub) in H. cbn [bind] in H.
  rewrite (getitem_lookup _ _ _ Hpi) in H. cbn [bind] in H.
  rewrite !(getitem_lookup _ _ _ Hcur), !(getitem_lookup _ _ _ Htoday),
    !(getitem_lookup _ _ _ Htomorrow) in H.
  unfold get in H. rewrite Hcur, Htoday, Htomorrow in H. cbn [bind] in H.
  assert (Htc : truthy (JObj current) = true) by (destruct current; [congruence | reflexivity]).
  rewrite Htc in H. cbn [bind app] in H.
  rewrite extend_or_skip in H. cbn [bind] in H. rewrite extend_or_skip in H.
  cbn [bind] in H.
  replace (([JObj current] ++ map JObj today) ++ map JObj tomorrow)
    with (map JObj (current :: today ++ tomorrow)) in H
    by (simpl; now rewrite map_app).
  destruct (DataFrame_of_entries (current :: today ++ tomorrow)) as (df0 & Hdf0 & Hrows0).
  rewrite Hdf0 in H. cbn [bind] in H.
  destruct (empty df0) eqn:He0; cbn [negb] in H;
    [injection H as Hd; rewrite Hd in He0; congruence|].
  bind_inv H c Hc. bind_inv H ts Hts. injection H as <-.
  apply column_values in Hc. subst c.
  destruct (to_datetime_reads strptime _ _ Hts) as (Hwhen & Hdt & Hlen).
  rewrite Hrows0, !map_map in Hwhen. rewrite Hrows0, !length_map in Hlen.
  exists ts. split; [exact Hlen|]. split.
  { rewrite Hwhen. apply map_ext. intros r. apply instant_of_record. }
  split; [exact Hdt|].
  unfold reset_index, sort_values, drop_duplicates, set_column. cbn [rows].
  rewrite Hrows0. do 2 f_equal.
  clear. revert ts.
  induction (current :: today ++ tomorrow) as [|r l IH]; intros [|t ts]; simpl;
    try reflexivity.
  f_equal. apply IH.
Qed.





Lemma add_series_length fadd (a b total : list cell) :
  add_series fadd a b = Ret total ->
  List.length total = Nat.min (List.length a) (List.length b).
Proof.
  unfold add_series. destruct (_ && _); [|discriminate].
  intros H. injection H as <-. now rewrite length_map, length_combine.
Qed.

(** With a token and a guarded home that carries consumption nodes, a
    returned table with rows has one row per node, sorted, whose [from]
    cells are the parsed [from] strings of the nodes. *)
Lemma consumption_run strptime fadd (e : Energy.env) (token : string)
      (home_id body : json) (n : Z) (home : list (string * json))
      (nodes : list (list (string * json))) (df : DataFrame) :
  Energy.TIBER_TOKEN e = Some token ->
  (forall sent, Energy.post e sent = Energy.Ok body) ->
  Scenario.guarded_home body home ->
  Scenario.consumption_nodes home nodes ->
  fst (Energy.get_historical_consumption strptime fadd e home_id n) = Ret df ->
  empty df = false ->
  exists unsorted from,
    rows df = sort_by (stamp "from") unsorted /\
    List.length unsorted = List.length nodes /\
    map (at_ "from") unsorted = from /\
    map when_ from = map (instant_at strptime "from") nodes /\
    Forall is_datetime from.
Proof.
  intros Htok Hpost Hg (consumption & Hcons & Hnodes & Hne) H He.
  destruct (guarded_home_present body home Hg) as [Hpresent Hhome].
  unfold Energy.get_historical_consumption in H. cbv zeta in H. cbn [fst] in H.
  unfold Energy._make_graphql_request in H. rewrite Htok in H. cbn [fst] in H.
  rewrite Hpost in H. cbn [bind] in H.
  rewrite Hpresent in H. cbn [bind] in H.
  change ["data"; "viewer"; "home"; "consumption"; "nodes"]
    with (["data"; "viewer"; "home"] ++ ["consumption"; "nodes"]) in H.
  change ["data"; "viewer"; "home"; "consumption"]
    with (["data"; "viewer"; "home"] ++ ["consumption"]) in H.
  rewrite !subscript_app, Hhome in H. cbn [bind subscript and_then] in H.
  rewrite !(getitem_lookup _ _ _ Hcons) in H. cbn [bind] in H.
  rewrite !(getitem_lookup _ _ _ Hnodes) in H.
  unfold get in H. rewrite Hcons, Hnodes in H. cbn [bind] in H.
  rewrite (truthy_lookup _ _ _ Hnodes) in H. cbn [bind] in H.
  assert (Htn : truthy (JArr (map JObj nodes)) = true)
    by (destruct nodes; [congruence | reflexivity]).
  rewrite Htn in H. cbn [bind and_then] in H.
  destruct (DataFrame_of_entries nodes) as (df0 & Hdf0 & Hrows0).
  rewrite Hdf0 in H. cbn [bind] in H.
  destruct (empty df0) eqn:He0; cbn [negb] in H;
    [injection H as Hd; rewrite Hd in He0; congruence|].
  bind_inv H c1 Hc1. bind_inv H t1 Ht1. bind_inv H c2 Hc2. bind_inv H t2 Ht2.
  bind_inv H up Hup. bind_inv H uv Huv. bind_inv H tp Htp.
  injection H as <-.
  apply column_values in Hc1, Hc2, Hup, Huv. subst c1 c2 up uv.
  destruct (to_datetime_reads strptime _ _ Ht1) as (Hwhen & Hdt & L1).
  destruct (to_datetime_reads strptime _ _ Ht2) as (_ & _ & L2).
  rewrite length_map in L1, L2. fold (len df0) in L1.
  set (df1 := set_column "from" t1 df0) in *.
  fold (len df1) in L2.
  assert (N1 : len df1 = len df0) by (apply set_column_length; exact L1).
  set (df2 := set_column "to" t2 df1) in *.
  assert (N2 : len df2 = len df1) by (apply set_column_length; exact L2).
  assert (L3 : List.length tp = len df2).
  { apply add_series_length in Htp. rewrite !length_map in Htp.
    fold (len df2) in Htp. rewrite Htp. apply Nat.min_id. }
  set (df3 := set_column "totalPrice" tp df2).
  assert (N3 : len df3 = len df2) by (apply set_column_length; exact L3).
  exists (rows df3), t1. split; [reflexivity|]. split.
  { fold (len df3). rewrite N3, N2, N1. unfold len. now rewrite Hrows0, length_map. }
  split.
  { unfold df3. rewrite set_column_other; [|discriminate|exact L3].
    unfold df2. rewrite set_column_other; [|discriminate|exact L2].
    unfold df1. apply set_column_same. exact L1. }
  split; [|exact Hdt].
  rewrite Hwhen, Hrows0, !map_map. apply map_ext. intros r. apply instant_of_record.
Qed.

(** The cells of the sort column of a returned table with rows. *)
Lemma prices_cells strptime (e : Energy.env) (home_id : json) (df : DataFrame) :
  fst (Energy.get_current_and_upcoming_prices strptime e home_id) = Ret df ->
  empty df = false ->
  Forall (fun r => is_datetime (at_ "startsAt" r)) (rows df).
Proof.
  unfold Energy.get_current_and_upcoming_prices. cbv zeta. cbn [fst]. intros H He.
  bind_inv H data Hdata. bind_inv H present Hp. bind_inv H prices Hprices.
  bind_inv H df0 Hdf0.
  destruct (empty df0) eqn:He0; cbn [negb] in H;
    [injection H as Hd; rewrite Hd in He0; congruence|].
  bind_inv H c Hc. bind_inv H ts Hts. injection H as <-.
  destruct (to_datetime_reads strptime _ _ Hts) as (_ & Hdt & _).
  unfold reset_index, sort_values, drop_duplicates. cbn [rows].
  eapply Permutation_Forall; [symmetry; apply sort_by_perm|].
  apply Forall_forall. intros r Hr. apply keep_first_incl in Hr.
  apply set_column_row in Hr as (r0 & v & Hin & ->).
  rewrite at_set_item_same. apply in_combine_r in Hin.
  rewrite Forall_forall in Hdt. now apply Hdt.
Qed.

Lemma consumption_cells strptime fadd (e : Energy.env) (home_id : json) (n : Z)
      (df : DataFrame) :
  fst (Energy.get_historical_consumption strptime fadd e home_id n) = Ret df ->
  empty df = false ->
  Forall (fun r => is_datetime (at_ "from" r)) (rows df).
Proof.
  unfold Energy.get_historical_consumption. cbv zeta. cbn [fst]. intros H He.
  bind_inv H data Hdata. bind_inv H present Hp. bind_inv H nodes Hnodes.
  bind_inv H df0 Hdf0.
  destruct (empty df0) eqn:He0; cbn [negb] in H;
    [injection H as Hd; rewrite Hd in He0; congruence|].
  bind_inv H c1 Hc1. bind_inv H t1 Ht1. bind_inv H c2 Hc2. bind_inv H t2 Ht2.
  bind_inv H up Hup. bind_inv H uv Huv. bind_inv H tp Htp.
  injection H as <-.
  destruct (to_datetime_reads strptime _ _ Ht1) as (_ & Hdt & _).
  unfold reset_index, sort_values. cbn [rows].
  eapply Permutation_Forall; [symmetry; apply sort_by_perm|].
  apply Forall_forall. intros r Hr.
  apply set_column_row in Hr as (r2 & v3 & Hin3 & ->).
  apply in_combine_l in Hin3.
  apply set_column_row in Hin3 as (r1 & v2 & Hin2 & ->).
  apply in_combine_l in Hin2.
  apply set_column_row in Hin2 as (r0 & v1 & Hin1 & ->).
  rewrite !at_set_item_other by discriminate.
  rewrite at_set_item_same. apply in_combine_r in Hin1.
  rewrite Forall_forall in Hdt. now apply Hdt.
Qed.

Lemma forecast_cells strptime_utc (e : Weather.env) (n p : Z) (df : DataFrame) :
  fst (Weather.get_hourly_forecast strptime_utc e n p) = Ret df ->
  empty df = false ->
  Forall (fun r => is_datetime (at_ "timestamp" r)) (rows df).
Proof.
  intros H He.
  destruct (forecast_steps strptime_utc e n p df H He)
    as (hourly & df0 & df1 & ts & wd & ca & _ & _ & Hts & _ & _ & ->).
  destruct (to_datetime_reads strptime_utc _ _ Hts) as (_ & Hdt & _).
  unfold reset_index, sort_values. cbn [rows].
  eapply Permutation_Forall; [symmetry; apply sort_by_perm|].
  apply Forall_forall. intros r Hr.
  apply set_column_row in Hr as (r3 & v4 & Hin4 & ->).
  apply in_combine_l in Hin4.
  apply set_column_row in Hin4 as (r2 & v3 & Hin3 & ->).
  apply in_combine_l in Hin3.
  apply set_column_row in Hin3 as (r1 & v2 & Hin2 & ->).
  rewrite !at_set_item_other by discriminate.
  rewrite at_set_item_same. apply in_combine_r in Hin2.
  rewrite Forall_forall in Hdt. now apply Hdt.
Qed.

Lemma prices_stamps strptime (e : Energy.env) (token : string) (home_id body : json)
      (home current : list (string * json))
      (today tomorrow : list (list (string * json))) (df : DataFrame) :
  Energy.TIBER_TOKEN e = Some token ->
  (forall sent, Energy.post e sent = Energy.Ok body) ->
  Scenario.guarded_home body home ->
  Scenario.price_blocks home current today tomorrow ->
  fst (Energy.get_current_and_upcoming_prices strptime e home_id) = Ret df ->
  empty df = false ->
  Permutation (map (stamp "startsAt") (rows df))
              (keep_first (fun i => i)
                 (map (instant_at strptime "startsAt") (current :: today ++ tomorrow))).
Proof.
  intros Htok Hpost Hg Hb H He.
  destruct (prices_run strptime e token home_id body home current today tomorrow df
              Htok Hpost Hg Hb H He) as (ts & Hlen & Hwhen & _ & ->).
  rewrite sort_by_perm.
  rewrite (keep_first_map (stamp "startsAt") (fun i => i)).
  rewrite map_map.
  erewrite map_ext; [|intros rc; unfold stamp; rewrite at_set_item_same; reflexivity].
  rewrite <- Hwhen, <- (map_map snd when_), combine_snd by (symmetry; exact Hlen).
  reflexivity.
Qed.

(** C10: whatever table a fetch operation returns has its rows in ascending
    order of its timestamp column: [startsAt] for prices, [from] for
    consumption, [timestamp] for the weather forecast.  In a table with
    rows every cell of that column is an instant or NaT, so the order is
    one of instants, and these are the instants the date strings of the
    response name: of the entries current, today, tomorrow without
    repetition for prices, of the nodes for consumption, of the [time]
    array for the forecast. *)
Theorem returned_tables_are_sorted :
  forall strptime fadd strptime_utc (e : Energy.env) (w : Weather.env)
         (home_id : json) (num_hours forecast_hours past_hours : Z),
    (forall df,
        fst (Energy.get_current_and_upcoming_prices strptime e home_id) = Ret df ->
        sorted_by "startsAt" df /\
        (empty df = false -> Forall (fun r => is_datetime (at_ "startsAt" r)) (rows df))) /\
    (forall df,
        fst (Energy.get_historical_consumption strptime fadd e home_id num_hours) = Ret df ->
        sorted_by "from" df /\
        (empty df = false -> Forall (fun r => is_datetime (at_ "from" r)) (rows df))) /\
    (forall df,
        fst (Weather.get_hourly_forecast strptime_utc w forecast_hours past_hours) = Ret df ->
        sorted_by "timestamp" df /\
        (empty df = false -> Forall (fun r => is_datetime (at_ "timestamp" r)) (rows df))) /\
    (forall token body home current today tomorrow df,
        Energy.TIBER_TOKEN e = Some token ->
        (forall sent, Energy.post e sent = Energy.Ok body) ->
        Scenario.guarded_home body home ->
        Scenario.price_blocks home current today tomorrow ->
        fst (Energy.get_current_and_upcoming_prices strptime e home_id) = Ret df ->
        empty df = false ->
        Permutation (map (stamp "startsAt") (rows df))
                    (keep_first (fun i => i)
                       (map (instant_at strptime "startsAt")
                            (current :: today ++ tomorrow)))) /\
    (forall token body home nodes df,
        Energy.TIBER_TOKEN e = Some token ->
        (forall sent, Energy.post e sent = Energy.Ok body) ->
        Scenario.guarded_home body home ->
        Scenario.consumption_nodes home nodes ->
        fst (Energy.get_historical_consumption strptime fadd e home_id num_hours) = Ret df ->
        empty df = false ->
        Permutation (map (stamp "from") (rows df))
                    (map (instant_at strptime "from") nodes)) /\
    (forall body times df,
        (forall sent, Weather.get_ w sent = Weather.Ok body) ->
        subscript body ["hourly"; "time"] = Ret (JArr times) ->
        fst (Weather.get_hourly_forecast strptime_utc w forecast_hours past_hours) = Ret df ->
        empty df = false ->
        Permutation (map (stamp "timestamp") (rows df))
                    (map (fun t => instant_of strptime_utc (Obj t)) times)).
Proof.
  intros. repeat apply conj.
  - intros df H. split; [eapply prices_sorted | eapply prices_cells]; eassumption.
  - intros df H. split; [eapply consumption_sorted | eapply consumption_cells]; eassumption.
  - intros df H. split; [eapply forecast_sorted | eapply forecast_cells]; eassumption.
  - intros. eapply prices_stamps; eassumption.
  - intros token body home nodes df Htok Hpost Hg Hn H He.
    destruct (consumption_run strptime fadd e token home_id body num_hours home nodes df
                Htok Hpost Hg Hn H He) as (unsorted & from & -> & _ & Hcol & Hwhen & _).
    rewrite <- Hwhen, <- Hcol, map_map. apply Permutation_map, sort_by_perm.
  - intros body times df Hget Ht H He.
    destruct (forecast_run strptime_utc w forecast_hours past_hours body times df
                Hget Ht H He) as (unsorted & ts & -> & _ & Hcol & Hwhen & _).
    rewrite <- Hwhen, <- Hcol, map_map. apply Permutation_map, sort_by_perm.
Qed.

Lemma returned_tables_are_sorted_witness :
  exists prices consumption forecast,
    fst (Energy.get_current_and_upcoming_prices Iso8601.strptime
           (Scenario.energy (Energy.Ok Scenario.overlapping_prices_home_in_home)) (JStr "h1"))
    = Ret prices /\
    fst (Energy.get_historical_consumption Iso8601.strptime Qplus
           (Scenario.energy (Energy.Ok Scenario.two_hours_consumed_home_in_home))
           (JStr "h1") 720)
    = Ret consumption /\
    fst (Weather.get_hourly_forecast Iso8601.strptime
           (Scenario.weather (Weather.Ok Scenario.three_hours)) 72 24)
    = Ret forecast /\
    map (at_ "startsAt") (rows prices) = [Timestamp 1704103200; Timestamp 1704106800] /\
    map (at_ "from") (rows consumption) = [Timestamp 1704103200; Timestamp 1704106800] /\
    map (at_ "timestamp") (rows forecast)
    = [Timestamp 1704067200; Timestamp 1704070800; Timestamp 1704074400] /\
    (sorted_by "startsAt" prices /\
     Forall (fun r => is_datetime (at_ "startsAt" r)) (rows prices)) /\
    (sorted_by "from" consumption /\
     Forall (fun r => is_datetime (at_ "from" r)) (rows consumption)) /\
    (sorted_by "timestamp" forecast /\
     Forall (fun r => is_datetime (at_ "timestamp" r)) (rows forecast)) /\
    Permutation (map (stamp "from") (rows consumption))
      (map (instant_at Iso8601.strptime "from")
         [Scenario.node_fields "2024-01-01T11:00:00Z" "2024-01-01T12:00:00Z" 0.3 0.1;
          Scenario.node_fields "2024-01-01T10:00:00Z" "2024-01-01T11:00:00Z" 0.2 0.05]) /\
    map (instant_at Iso8601.strptime "from")
      [Scenario.node_fields "2024-01-01T11:00:00Z" "2024-01-01T12:00:00Z" 0.3 0.1;
       Scenario.node_fields "2024-01-01T10:00:00Z" "2024-01-01T11:00:00Z" 0.2 0.05]
    = [Some 1704106800; Some 1704103200].
Proof.
  pose proof (returned_tables_are_sorted Iso8601.strptime Qplus Iso8601.strptime
                (Scenario.energy (Energy.Ok Scenario.two_hours_consumed_home_in_home))
                (Scenario.weather (Weather.Ok Scenario.three_hours))
                (JStr "h1") 720 72 24) as (_ & Hc & Hw & _ & Hn & _).
  pose proof (returned_tables_are_sorted Iso8601.strptime Qplus Iso8601.strptime
                (Scenario.energy (Energy.Ok Scenario.overlapping_prices_home_in_home))
                (Scenario.weather (Weather.Ok Scenario.three_hours))
                (JStr "h1") 720 72 24) as (Hp & _).
  do 3 eexists.
  split; [reflexivity|]. split; [reflexivity|]. split; [reflexivity|].
  split; [reflexivity|]. split; [reflexivity|]. split; [reflexivity|].
  split; [split; [apply Hp; reflexivity | apply Hp; reflexivity]|].
  split; [split; [apply Hc; reflexivity | apply Hc; reflexivity]|].
  split; [split; [apply Hw; reflexivity | apply Hw; reflexivity]|].
  split; [|reflexivity].
  apply (Hn "secret" Scenario.two_hours_consumed_home_in_home
            [("home", None_);
             ("consumption",
              JObj [("nodes",
                     JArr [Scenario.node "2024-01-01T11:00:00Z" "2024-01-01T12:00:00Z" 0.3 0.1;
                           Scenario.node "2024-01-01T10:00:00Z" "2024-01-01T11:00:00Z"
                                         0.2 0.05])])]).
  - reflexivity.
  - reflexivity.
  - do 3 eexists. split; [reflexivity|]. split; [reflexivity|].
    split; [reflexivity|]. split; reflexivity.
  - eexists. split; [reflexivity|]. split; [reflexivity | discriminate].
  - reflexivity.
  - reflexivity.
Defined.


